(** * Clone detection core: vector index, metric conversion, hydration

    A shallow embedding of the Python sources

      - [clone_detection/indexing/faiss_index.py]
      - [clone_detection/query/search.py]
      - [clone_detection/query/metadata.py]
      - [clone_detection/config/settings.py] (the two validators)
      - [clone_detection/cli/main.py] (steps 3 and 4 of [ingest])
      - [plugin_server.py] (the search loop of [detect_clones])

    Conventions of the embedding:
      - Python [int] is [Z];
      - a floating point number is the real number it stands for, and the
        metric conversion functions round the result of every operation
        with a rounding operator [fl] they take as a parameter
        ([standard_model] states what is assumed of it); the searcher takes
        two of them, for Python's [float] and for numpy's [float32]; the
        arithmetic inside the third-party index is exact; NaN and the
        infinities are not modelled; comparisons go through
        [Rle_dec]/[Rlt_dec];
      - a raised exception is the [Raise] branch of [Result];
      - the SQLite relation [snippets] is the list of its rows;
      - a Python [dict] is a [gmap]. *)

From Stdlib Require Import Reals Lra Lia ZArith List String.
From stdpp Require Import base option list gmap sorting.
Import ListNotations.

Local Open Scope R_scope.

(** ** Exceptions *)

(** The built-in exception classes the sources raise.  The specification's
    taxonomy calls a [ValueError] raised by the constructor
    [ConfigurationError], a [ValueError] raised by the threshold
    conversion [ValidationError], and a [RuntimeError] raised for a
    lifecycle violation [StateError]. *)
Inductive PyError : Type :=
  | ValueError
  | RuntimeError
  | ZeroDivisionError
  | IndexError
  | AssertionError.

Inductive Result (A : Type) : Type :=
  | Ok (a : A)
  | Raise (e : PyError).

Arguments Ok {A} a.
Arguments Raise {A} e.

Definition is_ok {A} (r : Result A) : bool :=
  match r with Ok _ => true | Raise _ => false end.

(** ** Metric conversion ([faiss_index.py], module level functions) *)

Module MetricConverter.

Section Rounding.

(** The rounding of the floating point format: [fl x] is the number the
    format holds for the real result [x] of an operation. *)
Variable fl : R -> R.

(** [cosine_to_l2_threshold]: the guard [if not 0 <= c <= 1: raise
    ValueError], then [np.sqrt(2 - 2 * c)]. *)
Definition cosine_to_l2_threshold (cosine_similarity : R) : Result R :=
  if Rle_dec 0 cosine_similarity then
    if Rle_dec cosine_similarity 1 then
      Ok (fl (sqrt (fl (2 - fl (2 * cosine_similarity)))))
    else Raise ValueError
  else Raise ValueError.

(** [l2_to_cosine_similarity]: [1 - (d ** 2) / 2], no domain check. *)
Definition l2_to_cosine_similarity (l2_distance : R) : R :=
  fl (1 - fl (fl (l2_distance ^ 2) / 2)).

End Rounding.

(** Arithmetic without rounding. *)
Definition exact_arithmetic (x : R) : R := x.

(** The standard model of floating point arithmetic, for a format of unit
    roundoff [u]: every operation returns its real result with a relative
    error of at most [u], rounding is monotone, and 2 is a number of the
    format.  Round-to-nearest in binary32 ([u = 2^-24]) and in binary64
    ([u = 2^-53]) is such an operator as long as nothing overflows or
    underflows. *)
Record standard_model (u : R) (fl : R -> R) : Prop := mkStandardModel {
  unit_roundoff_small : 0 <= u <= 1 / 1000000;
  relative_error : forall x, Rabs (fl x - x) <= u * Rabs x;
  monotone : forall x y, x <= y -> fl x <= fl y;
  two_exact : fl 2 = 2
}.

End MetricConverter.

(** ** Vectors and the normaliser *)

Module Vec.

(** One row of a numpy array of shape [(N, d)]. *)
Abbreviation vector := (list R).

Fixpoint dot (u v : vector) : R :=
  match u, v with
  | x :: u', y :: v' => x * y + dot u' v'
  | _, _ => 0
  end.

Definition norm (v : vector) : R := sqrt (dot v v).

Definition scale (a : R) (v : vector) : vector := map (Rmult a) v.

(** Squared Euclidean distance, summed coordinate by coordinate. *)
Fixpoint sqdist (u v : vector) : R :=
  match u, v with
  | x :: u', y :: v' => (x - y) * (x - y) + sqdist u' v'
  | _, _ => 0
  end.

Definition l2_distance (u v : vector) : R := sqrt (sqdist u v).

(** The cosine similarity the claims call the true one; against a zero
    vector it is 0, as the specification of the Normalizer defines it. *)
Definition cosine_similarity (u v : vector) : R :=
  if Rlt_dec 0 (norm u * norm v) then dot u v / (norm u * norm v) else 0.

(** Modelled from the spec: [faiss.normalize_L2] is third-party code; the
    Normalizer of the specification rescales every row to unit Euclidean
    length and leaves a zero row as it is. *)
Definition normalize_row (v : vector) : vector :=
  if Rlt_dec 0 (norm v) then scale (/ norm v) v else v.

(** Modelled from the spec: [faiss.normalize_L2(x)], row by row. *)
Definition normalize_L2 (rows : list vector) : list vector :=
  map normalize_row rows.

End Vec.

(** ** The third-party vector index *)

(** The library is not part of the sources.  Its index is modelled as the
    library answers the calls the sources make: the exact index reports
    squared Euclidean distances and its range search keeps what lies
    strictly below the radius; training needs as many points as clusters;
    adding needs a trained index.  Its own [float32] arithmetic is not
    modelled: distances are the real numbers. *)

(** [IndexType] of [faiss_index.py]. *)
Inductive IndexType : Type :=
  | FLAT       (* "Flat": brute-force exact search *)
  | IVF_FLAT   (* "IVF,Flat": clusters, full-precision vectors *)
  | IVF_PQ.    (* "IVF,PQ": clusters, product quantisation *)

Module Faiss.
Import Vec.

(** Modelled from the spec: the index object of the third-party library, as
    the VectorIndex of the specification describes it: its configuration,
    whether it has been trained and on which sample, and the stored vectors
    tagged with their IDs (the [IndexIDMap] wrapper), in insertion order. *)
Record Index : Type := mkIndex {
  kind : IndexType;
  d : Z;
  ix_nlist : Z;
  ix_m : Z;
  ix_nbits : Z;
  ix_is_trained : bool;
  trained_on : list vector;
  entries : list (Z * vector);
  on_gpu : bool
}.

(** Modelled from the spec: [index.ntotal], the current population
    count. *)
Definition ntotal (ix : Index) : Z := Z.of_nat (length (entries ix)).

(** Modelled from the spec: [faiss.IndexFlatL2(d)] needs no training. *)
Definition IndexFlatL2 (dim : Z) : Index :=
  mkIndex FLAT dim 0 0 0 true [] [] false.

(** Modelled from the spec: [faiss.IndexIVFFlat(quantizer, d, nlist)]. *)
Definition IndexIVFFlat (dim nlist : Z) : Index :=
  mkIndex IVF_FLAT dim nlist 0 0 false [] [] false.

(** Modelled from the spec: [faiss.IndexIVFPQ(quantizer, d, nlist, m, nbits)]. *)
Definition IndexIVFPQ (dim nlist m nbits : Z) : Index :=
  mkIndex IVF_PQ dim nlist m nbits false [] [] false.

(** Modelled from the spec: [faiss.index_cpu_to_gpu(res, 0, index)], the
    transfer to the accelerator; the content of the index is the same. *)
Definition index_cpu_to_gpu (ix : Index) : Index :=
  mkIndex (kind ix) (d ix) (ix_nlist ix) (ix_m ix) (ix_nbits ix)
          (ix_is_trained ix) (trained_on ix) (entries ix) true.

(** Modelled from the spec: the library's check that every row has the
    dimension of the index. *)
Definition shape_ok (ix : Index) (rows : list vector) : bool :=
  forallb (fun v => Z.eqb (Z.of_nat (length v)) (d ix)) rows.

(** The library's k-means refuses a sample with fewer points than
    clusters: the coarse quantiser of a clustered index needs [nlist]
    points, and the codebooks of a quantized one [2 ^ nbits]; an exact index
    learns nothing. *)
Definition enough_points (ix : Index) (x : list vector) : bool :=
  match kind ix with
  | FLAT => true
  | IVF_FLAT => (ix_nlist ix <=? Z.of_nat (length x))%Z
  | IVF_PQ =>
      (ix_nlist ix <=? Z.of_nat (length x))%Z
      && (2 ^ ix_nbits ix <=? Z.of_nat (length x))%Z
  end.

#[global] Arguments enough_points : simpl never.

(** [index.train(x)], as the library behaves: it fixes the centroids (and
    codebooks) from the sample; an exact index has nothing to learn.  The
    wrapper asserts the dimension of the rows, and the clustering raises
    its [RuntimeError] on a sample that is too small. *)
Definition train (ix : Index) (x : list vector) : Result Index :=
  if shape_ok ix x then
    if enough_points ix x then
      Ok (mkIndex (kind ix) (d ix) (ix_nlist ix) (ix_m ix) (ix_nbits ix) true
                  (match kind ix with FLAT => trained_on ix | _ => x end)
                  (entries ix) (on_gpu ix))
    else Raise RuntimeError
  else Raise AssertionError.

(** Modelled from the spec: [index.add_with_ids(x, ids)] appends the rows
    tagged with their IDs.  The library rejects rows of the wrong
    dimension, an ID array of another length, and an untrained index. *)
Definition add_with_ids (ix : Index) (x : list vector) (ids : list Z)
  : Result Index :=
  if negb (shape_ok ix x) then Raise AssertionError
  else if negb (Nat.eqb (length ids) (length x)) then Raise AssertionError
  else if negb (ix_is_trained ix) then Raise RuntimeError
  else
    Ok (mkIndex (kind ix) (d ix) (ix_nlist ix) (ix_m ix) (ix_nbits ix)
                (ix_is_trained ix) (trained_on ix)
                (entries ix ++ combine ids x) (on_gpu ix)).

(** Modelled from the spec: what [range_search] returns, as [search.py]
    takes it apart: [lims] of length [nq + 1], and the flat arrays [D] and
    [I]; the hits of query [i] are the slice [lims[i]:lims[i+1]] of both. *)
Record RangeResult : Type := mkRange {
  lims : list nat;
  distances : list R;
  labels : list Z
}.

(** The hits of one query, as the library's exact index answers: its
    distances are squared Euclidean distances ([plugin_server.py] reads
    them so, [1 - distance / 2]), and an entry is a hit when its distance
    is strictly below [radius]; each hit comes with that distance, in
    storage order. *)
Definition hits_of (ix : Index) (q : vector) (radius : R) : list (Z * R) :=
  omap (fun e : Z * vector =>
          let dist := sqdist q (snd e) in
          if Rlt_dec dist radius then Some (fst e, dist) else None)
       (entries ix).

(** The hits of the queries one after the other, [start] being the number
    of hits of the queries before. *)
Fixpoint range_search_from (ix : Index) (start : nat) (qs : list vector)
    (radius : R) : RangeResult :=
  match qs with
  | [] => mkRange [start] [] []
  | q :: qs' =>
      let hs := hits_of ix q radius in
      let rest := range_search_from ix (start + length hs) qs' radius in
      mkRange (start :: lims rest)
              (map snd hs ++ distances rest)
              (map fst hs ++ labels rest)
  end.

(** [range_search(query_vectors, radius)] of the exact backend: for each
    query, all stored IDs whose squared distance to the query is below the
    radius, each paired with that squared distance. *)
Definition range_search (ix : Index) (qs : list vector) (radius : R)
  : RangeResult :=
  range_search_from ix 0 qs radius.

End Faiss.

(** ** Logging *)

Inductive LogLevel : Type := DEBUG | INFO | WARNING.

(** A record of the module's [logger]: the level and the message template
    (the text of the f-string as the source has it). *)
Definition LogRecord : Type := (LogLevel * string)%type.

(** ** The index builder ([FAISSIndexBuilder]) *)

Module Builder.
Import Vec.

Local Open Scope string_scope.

(** The attributes [__init__] sets on [self]. *)
Record FAISSIndexBuilder : Type := mkBuilder {
  dimension : Z;
  index_type : IndexType;
  nlist : Z;
  m : Z;
  nbits : Z;
  nprobe : Z;
  use_gpu : bool;
  index : option Faiss.Index;
  is_trained : bool
}.

Definition set_index (ix : option Faiss.Index) (self : FAISSIndexBuilder)
  : FAISSIndexBuilder :=
  mkBuilder (dimension self) (index_type self) (nlist self) (m self)
            (nbits self) (nprobe self) (use_gpu self) ix (is_trained self).

Definition set_is_trained (b : bool) (self : FAISSIndexBuilder)
  : FAISSIndexBuilder :=
  mkBuilder (dimension self) (index_type self) (nlist self) (m self)
            (nbits self) (nprobe self) (use_gpu self) (index self) b.

(** A method of the builder: it reads and mutates [self], writes to the
    logger, and returns or raises.  What was mutated and logged before a
    [raise] stays. *)
Definition M (A : Type) : Type :=
  FAISSIndexBuilder -> Result A * FAISSIndexBuilder * list LogRecord.

Definition ret {A} (a : A) : M A := fun self => (Ok a, self, []).

Definition bind {A B} (c : M A) (k : A -> M B) : M B :=
  fun self =>
    match c self with
    | (Ok a, self1, l1) =>
        match k a self1 with
        | (r, self2, l2) => (r, self2, (l1 ++ l2)%list)
        end
    | (Raise e, self1, l1) => (Raise e, self1, l1)
    end.

Definition raise {A} (e : PyError) : M A := fun self => (Raise e, self, []).
Definition get : M FAISSIndexBuilder := fun self => (Ok self, self, []).
Definition modify (f : FAISSIndexBuilder -> FAISSIndexBuilder) : M unit :=
  fun self => (Ok tt, f self, []).
Definition log (lvl : LogLevel) (msg : string) : M unit :=
  fun self => (Ok tt, self, [(lvl, msg)]).
Definition lift {A} (r : Result A) : M A := fun self => (r, self, []).

#[global] Instance M_ret : MRet M := @ret.
#[global] Instance M_bind : MBind M := fun A B k c => bind c k.

Section Methods.

(** [hasattr(faiss, "StandardGpuResources")]: whether the installed library
    was built with GPU support. *)
Variable has_gpu_resources : bool.

(** [__init__]: stores the arguments, then validates [dimension % m]; a
    constructor that raises yields no object.  Python's [%] raises
    [ZeroDivisionError] on a zero modulus and otherwise takes the sign of
    the modulus, as [Z.modulo] does. *)
Definition __init__ (dimension : Z) (index_type : IndexType)
    (nlist m nbits nprobe : Z) (use_gpu : bool)
  : Result FAISSIndexBuilder * list LogRecord :=
  let self := mkBuilder dimension index_type nlist m nbits nprobe use_gpu
                        None false in
  if Z.eqb m 0 then (Raise ZeroDivisionError, [])
  else if negb (Z.eqb (dimension mod m) 0) then (Raise ValueError, [])
  else (Ok self,
        [(INFO, "Initialized FAISS index builder: {self._get_index_description()}")]).

(** The defaults of the keyword arguments of [__init__]. *)
Definition default_dimension : Z := 768.
Definition default_index_type : IndexType := IVF_PQ.
Definition default_nlist : Z := 4096.
Definition default_m : Z := 64.
Definition default_nbits : Z := 8.
Definition default_nprobe : Z := 16.
Definition default_use_gpu : bool := false.

(** [_create_index]: allocate the backend for [index_type] (the exact
    backend is marked trained at once), wrap it for custom IDs, and move it
    to the GPU when asked and possible. *)
Definition _create_index : M unit :=
  self ← get;
  (match index_type self with
   | FLAT =>
       modify (set_index (Some (Faiss.IndexFlatL2 (dimension self)))) ;;
       modify (set_is_trained true)
   | IVF_FLAT =>
       modify (set_index
                 (Some (Faiss.IndexIVFFlat (dimension self) (nlist self))))
   | IVF_PQ =>
       modify (set_index
                 (Some (Faiss.IndexIVFPQ (dimension self) (nlist self)
                                         (m self) (nbits self))))
   end) ;;
  (if use_gpu self then
     if negb has_gpu_resources then
       log WARNING "GPU requested but faiss-gpu not available. Install with: conda install -c conda-forge faiss-gpu"
     else
       modify (fun s => set_index (option_map Faiss.index_cpu_to_gpu (index s)) s) ;;
       log INFO "Moved index to GPU"
   else ret tt) ;;
  log INFO "Created index: {self._get_index_description()}".

(** [train]: a no-op with a warning on a trained builder; otherwise create
    the index if there is none, normalise the sample and train on it. *)
Definition train (train_vectors : list vector) : M unit :=
  self ← get;
  if is_trained self then
    log WARNING "Index is already trained, skipping"
  else
    (if index self is None then _create_index else ret tt) ;;
    log INFO "L2-normalizing training vectors..." ;;
    let train_vectors := normalize_L2 train_vectors in
    log INFO "Training index on {len(train_vectors)} vectors..." ;;
    self ← get;
    match index self with
    | None => raise RuntimeError
    | Some ix =>
        ix' ← lift (Faiss.train ix train_vectors);
        modify (set_index (Some ix')) ;;
        modify (set_is_trained true) ;;
        log INFO "Index training complete"
    end.

(** [np.arange(start, stop, dtype=np.int64)]. *)
Definition arange (start : Z) (count : nat) : list Z :=
  map (fun i => (start + Z.of_nat i)%Z) (seq 0 count).

(** [add]: refuse an untrained builder and a missing index, take the given
    IDs or the next sequential ones, normalise a copy of the vectors and
    hand both to the index. *)
Definition add (vectors : list vector) (ids : option (list Z)) : M unit :=
  self ← get;
  if negb (is_trained self) then raise RuntimeError
  else
    match index self with
    | None => raise RuntimeError
    | Some ix =>
        let ids :=
          match ids with
          | None => arange (Faiss.ntotal ix) (length vectors)
          | Some l => l
          end in
        let vectors := normalize_L2 vectors in
        log INFO "Adding {len(vectors)} vectors to index..." ;;
        ix' ← lift (Faiss.add_with_ids ix vectors ids);
        modify (set_index (Some ix')) ;;
        log INFO "Index now contains {self.index.ntotal} vectors"
    end.

(** [build]: create, train on [train_vectors] (or on [vectors]) when there
    is a sample, add [vectors] when given, and return the index. *)
Definition build (vectors : option (list vector)) (ids : option (list Z))
    (train_vectors : option (list vector)) : M (option Faiss.Index) :=
  _create_index ;;
  let train_data :=
    match train_vectors with Some t => Some t | None => vectors end in
  (match train_data with
   | Some t => train t
   | None => ret tt
   end) ;;
  (match vectors with
   | Some v => add v ids
   | None => ret tt
   end) ;;
  self ← get;
  ret (index self).

End Methods.

(** The number of vectors a builder holds ([self.index.ntotal]); a builder
    without an index holds none. *)
Definition num_vectors (self : FAISSIndexBuilder) : Z :=
  match index self with
  | Some ix => Faiss.ntotal ix
  | None => 0
  end.

(** What holds of every builder the constructor, [_create_index] on an
    untrained builder, [train] and [add] produce: the index has the
    builder's dimension, and a builder marked trained has a trained
    index. *)
Definition wf (b : FAISSIndexBuilder) : Prop :=
  (forall ix, index b = Some ix -> Faiss.d ix = dimension b) /\
  (is_trained b = true ->
   exists ix, index b = Some ix /\ Faiss.ix_is_trained ix = true).

Definition already_trained_warning : LogRecord :=
  (WARNING, "Index is already trained, skipping").

End Builder.

(** ** The metadata store ([metadata.py]) *)

Module Parser.

(** The [CodeSnippet] dataclass of the parser. *)
Record CodeSnippet : Type := mkSnippet {
  code : string;
  file_path : string;
  start_line : Z;
  end_line : Z;
  language : string;
  function_name : option string
}.

End Parser.

Module Metadata.

(** A row of the relation [snippets]; [id] is its [INTEGER PRIMARY KEY]. *)
Record Row : Type := mkRow {
  id : Z;
  code : string;
  file_path : string;
  start_line : Z;
  end_line : Z;
  language : string;
  function_name : option string
}.

(** The relation, as the list of its rows.  SQL fixes no row order for a
    [SELECT] without [ORDER BY], and SQLite answers in the order of the
    row IDs or of an index; the order of the list here (a row sits where
    it was last written) is not that order, and no statement below is
    about the order in which rows are returned. *)
Abbreviation MetadataStore := (list Row).

(** A store right after [_create_tables] on a new database. *)
Definition empty : MetadataStore := [].

(** The tuple bound to the statement's placeholders. *)
Definition row_of (snippet_id : Z) (snippet : Parser.CodeSnippet) : Row :=
  mkRow snippet_id (Parser.code snippet) (Parser.file_path snippet)
        (Parser.start_line snippet) (Parser.end_line snippet)
        (Parser.language snippet) (Parser.function_name snippet).

(** [INSERT OR REPLACE INTO snippets ... VALUES (...)]: a row with the same
    primary key is deleted, then the new row is inserted. *)
Definition insert_or_replace (r : Row) (rows : MetadataStore)
  : MetadataStore :=
  filter (fun r' => id r' ≠ id r) rows ++ [r].

(** [add_snippet]. *)
Definition add_snippet (snippet_id : Z) (snippet : Parser.CodeSnippet)
    (store : MetadataStore) : MetadataStore :=
  insert_or_replace (row_of snippet_id snippet) store.

(** [add_snippets_batch]: [executemany] runs the statement once per tuple,
    in list order, in one transaction. *)
Definition add_snippets_batch (snippets : list (Z * Parser.CodeSnippet))
    (store : MetadataStore) : MetadataStore :=
  fold_left (fun st p => insert_or_replace (row_of (fst p) (snd p)) st)
            snippets store.

(** [get_snippet]: [SELECT ... WHERE id = ?], [fetchone]. *)
Definition get_snippet (snippet_id : Z) (store : MetadataStore)
  : option Row :=
  head (filter (fun r => id r = snippet_id) store).

(** [get_snippets]: nothing for an empty ID list, else
    [SELECT ... WHERE id IN (...)], with one bound variable per ID.  A
    request with more IDs than SQLite allows variables in a statement is
    refused by SQLite; the definition is the answer to a request within
    that limit. *)
Definition get_snippets (snippet_ids : list Z) (store : MetadataStore)
  : list Row :=
  match snippet_ids with
  | [] => []
  | _ => filter (fun r => id r ∈ snippet_ids) store
  end.

(** [get_snippet_by_location]:
    [WHERE file_path = ? AND start_line <= ? AND end_line >= ?]. *)
Definition get_snippet_by_location (path : string) (line_number : Z)
    (store : MetadataStore) : option Row :=
  head (filter (fun r => bool_decide (file_path r = path)
                         && (start_line r <=? line_number)%Z
                         && (line_number <=? end_line r)%Z = true) store).

(** [count]: [SELECT COUNT( * ) FROM snippets]. *)
Definition count (store : MetadataStore) : Z := Z.of_nat (length store).

(** The primary key constraint: no two rows share an [id]. *)
Definition unique_ids (store : MetadataStore) : Prop :=
  NoDup (map id store).

(** The snippet the last tuple with key [i] of a batch carries. *)
Fixpoint last_write (i : Z) (batch : list (Z * Parser.CodeSnippet))
  : option Parser.CodeSnippet :=
  match batch with
  | [] => None
  | p :: batch' =>
      match last_write i batch' with
      | Some s => Some s
      | None => if decide (fst p = i) then Some (snd p) else None
      end
  end.

(** The distinct IDs among the rows of a store and the keys of a batch. *)
Definition distinct_ids (store : MetadataStore)
    (batch : list (Z * Parser.CodeSnippet)) : gset Z :=
  list_to_set (map id store ++ map fst batch).

(** [get_languages]: [SELECT DISTINCT language FROM snippets]; each
    language once, here in the order of its first row. *)
Definition get_languages (store : MetadataStore) : list string :=
  remove_dups (map language store).

End Metadata.

(** ** The clone searcher ([search.py]) *)

(** The searcher converts the threshold in Python's [float] and the
    distances, a [float32] array, in numpy's [float32]: it takes the two
    rounding operators [fl64] and [fl32]; its calls to the logger change no
    result and are left out. *)

Module Search.
Import Vec MetricConverter.

(** The [CloneMatch] dataclass. *)
Record CloneMatch : Type := mkMatch {
  snippet_id : Z;
  file_path : string;
  start_line : Z;
  end_line : Z;
  language : string;
  function_name : option string;
  similarity : R;
  code : string
}.

(** The embedding collaborator: an opaque function from texts to rows. *)
Record Embedder : Type := mkEmbedder {
  embed_batch : list string -> list vector
}.

(** [embed_single]: [self.embed_batch([code])[0]]. *)
Definition embed_single (e : Embedder) (text : string) : Result vector :=
  match embed_batch e [text] with
  | v :: _ => Ok v
  | [] => Raise IndexError
  end.

(** What the searcher uses of a [faiss.Index] of any backend. *)
Record IndexHandle : Type := mkHandle {
  range_search : list vector -> R -> Faiss.RangeResult;
  ntotal : Z
}.

(** The handle of an index of the exact backend. *)
Definition handle_of (ix : Faiss.Index) : IndexHandle :=
  mkHandle (Faiss.range_search ix) (Faiss.ntotal ix).

(** The attributes of [CloneSearcher]. *)
Record CloneSearcher : Type := mkSearcher {
  index : IndexHandle;
  embedder : Embedder;
  metadata_store : Metadata.MetadataStore
}.

#[global] Instance Result_ret : MRet Result := @Ok.
#[global] Instance Result_bind : MBind Result := fun A B k r =>
  match r with
  | Ok a => k a
  | Raise e => Raise e
  end.

(** The test [similarity >= 0.9999] of [_hydrate_results]. *)
Definition self_match_cutoff : R := 9999 / 10000.

Definition is_self_match (similarity : R) : bool :=
  if Rle_dec self_match_cutoff similarity then true else false.

(** [{m["id"]: m for m in metadata_list}]: a later row overwrites an
    earlier one with the same key. *)
Definition metadata_map_of (metadata_list : list Metadata.Row)
  : gmap Z Metadata.Row :=
  fold_left (fun mp r => <[Metadata.id r := r]> mp) metadata_list ∅.

(** The body of the loop over [zip(snippet_ids, similarities)]; the
    logger's warning for a missing record does not change the result. *)
Definition hydrate_one (metadata_map : gmap Z Metadata.Row)
    (exclude_self : bool) (hit : Z * R) : option CloneMatch :=
  let '(snippet_id, similarity) := hit in
  match metadata_map !! snippet_id with
  | None => None
  | Some metadata =>
      if exclude_self && is_self_match similarity then None
      else
        Some (mkMatch snippet_id
                      (Metadata.file_path metadata)
                      (Metadata.start_line metadata)
                      (Metadata.end_line metadata)
                      (Metadata.language metadata)
                      (Metadata.function_name metadata)
                      similarity
                      (Metadata.code metadata))
  end.

(** [_hydrate_results]. *)
Definition _hydrate_results (store : Metadata.MetadataStore)
    (snippet_ids : list Z) (similarities : list R) (exclude_self : bool)
  : list CloneMatch :=
  match snippet_ids with
  | [] => []
  | _ =>
      let metadata_list := Metadata.get_snippets snippet_ids store in
      let metadata_map := metadata_map_of metadata_list in
      omap (hydrate_one metadata_map exclude_self)
           (combine snippet_ids similarities)
  end.

(** [clones.sort(key=lambda x: x.similarity, reverse=True)]: Python's sort
    is stable, and with [reverse=True] elements with equal keys still keep
    their original order.  There is one such arrangement of a list; it is
    computed here by insertion from the right. *)
Fixpoint insert_desc (c : CloneMatch) (l : list CloneMatch)
  : list CloneMatch :=
  match l with
  | [] => [c]
  | y :: ys =>
      if Rlt_dec (similarity c) (similarity y) then y :: insert_desc c ys
      else c :: y :: ys
  end.

Definition sort_by_similarity_desc (l : list CloneMatch) : list CloneMatch :=
  foldr insert_desc [] l.

(** [a[start:stop]] for non-negative bounds. *)
Definition slice {A} (start stop : nat) (a : list A) : list A :=
  take (stop - start) (drop start a).

(** [a[:k]] for a Python [int] [k]: a negative bound counts from the end. *)
Definition slice_to {A} (k : Z) (a : list A) : list A :=
  if (0 <=? k)%Z then take (Z.to_nat k) a
  else take (Z.to_nat (Z.of_nat (length a) + k)) a.

(** [if max_results: clones = clones[:max_results]]: [None] and [0] are
    falsy. *)
Definition apply_max_results {A} (max_results : option Z) (l : list A)
  : list A :=
  match max_results with
  | None => l
  | Some k => if (k =? 0)%Z then l else slice_to k l
  end.

(** [lims[i]], raising [IndexError] out of range. *)
Definition lims_at (rr : Faiss.RangeResult) (i : nat) : Result nat :=
  match Faiss.lims rr !! i with
  | Some n => Ok n
  | None => Raise IndexError
  end.

Section Rounding.

(** The roundings of the two formats the searcher computes in: [fl64] for
    Python's [float], in which [cosine_to_l2_threshold] converts the
    threshold, and [fl32] for numpy's [float32], the type of the distances
    the index returns, in which [l2_to_cosine_similarity] converts each of
    them back. *)
Variables fl64 fl32 : R -> R.

(** The IDs and similarities of query [i]: the slices
    [lims[i]:lims[i+1]] of [I] and [D], the distances converted back. *)
Definition hits_of_query (rr : Faiss.RangeResult) (i : nat)
  : Result (list Z * list R) :=
  start_idx ← lims_at rr i;
  end_idx ← lims_at rr (i + 1);
  let result_distances := slice start_idx end_idx (Faiss.distances rr) in
  let result_ids := slice start_idx end_idx (Faiss.labels rr) in
  let similarities :=
    map (l2_to_cosine_similarity fl32) result_distances in
  Ok (result_ids, similarities).

(** [find_clones]; the defaults of its keyword arguments are
    [similarity_threshold=0.95], [max_results=None], [exclude_self=True]. *)
Definition find_clones (self : CloneSearcher) (query_code : string)
    (similarity_threshold : R) (max_results : option Z)
    (exclude_self : bool) : Result (list CloneMatch) :=
  query_embedding ← embed_single (embedder self) query_code;
  let query_embedding := normalize_L2 [query_embedding] in
  l2_threshold ← cosine_to_l2_threshold fl64 similarity_threshold;
  let rr := range_search (index self) query_embedding l2_threshold in
  hits ← hits_of_query rr 0;
  let clones := _hydrate_results (metadata_store self) (fst hits) (snd hits)
                                 exclude_self in
  let clones := sort_by_similarity_desc clones in
  Ok (apply_max_results max_results clones).

(** The loop [for i in range(len(query_codes))] of [find_clones_batch];
    [_hydrate_results] is called without [exclude_self], which so takes its
    default [True]. *)
Fixpoint batch_loop (self : CloneSearcher) (rr : Faiss.RangeResult)
    (i count : nat) : Result (list (list CloneMatch)) :=
  match count with
  | O => Ok []
  | S count' =>
      hits ← hits_of_query rr i;
      let clones := _hydrate_results (metadata_store self) (fst hits)
                                     (snd hits) true in
      let clones := sort_by_similarity_desc clones in
      rest ← batch_loop self rr (S i) count';
      Ok (clones :: rest)
  end.

(** [find_clones_batch]; it has no [exclude_self] and no [max_results]
    argument. *)
Definition find_clones_batch (self : CloneSearcher)
    (query_codes : list string) (similarity_threshold : R)
  : Result (list (list CloneMatch)) :=
  match query_codes with
  | [] => Ok []
  | _ =>
      let query_embeddings :=
        normalize_L2 (embed_batch (embedder self) query_codes) in
      l2_threshold ← cosine_to_l2_threshold fl64 similarity_threshold;
      let rr := range_search (index self) query_embeddings l2_threshold in
      batch_loop self rr 0 (length query_codes)
  end.

(** [find_clones_by_location]: no snippet at the location gives an empty
    list; otherwise search with the snippet's own code and the defaults. *)
Definition find_clones_by_location (self : CloneSearcher) (path : string)
    (line_number : Z) (similarity_threshold : R) (max_results : option Z)
  : Result (list CloneMatch) :=
  match Metadata.get_snippet_by_location path line_number
          (metadata_store self) with
  | None => Ok []
  | Some snippet_metadata =>
      find_clones self (Metadata.code snippet_metadata) similarity_threshold
                  max_results true
  end.

End Rounding.

#[global] Instance R_eq_dec : EqDecision R := Req_dec_T.

(** [a] may stand before [b] in a list sorted by similarity, descending. *)
Definition desc (a b : CloneMatch) : Prop := similarity b <= similarity a.

(** The matches of one similarity, in the order they have in [l]. *)
Definition ties (s : R) (l : list CloneMatch) : list CloneMatch :=
  filter (fun c => similarity c = s) l.

(** Of two matches of equal similarity the one that comes first has the
    smaller snippet ID (or the same). *)
Definition ties_by_id_ascending (l : list CloneMatch) : Prop :=
  forall i j a b,
    (i < j)%nat -> l !! i = Some a -> l !! j = Some b ->
    similarity a = similarity b ->
    (snippet_id a <= snippet_id b)%Z.

End Search.

(** ** Sample objects *)

Module Samples.
Import Search.

Local Open Scope Z_scope.
Local Open Scope string_scope.

Definition snippet_f : Parser.CodeSnippet :=
  Parser.mkSnippet "def f(): pass" "a.py" 1 1 "python" (Some "f").

Definition snippet_g : Parser.CodeSnippet :=
  Parser.mkSnippet "def g(): pass" "b.py" 3 4 "python" (Some "g").

Definition snippet_h : Parser.CodeSnippet :=
  Parser.mkSnippet "def h(): return 1" "c.py" 10 11 "python" None.

(** A store with the records of the IDs 7, 3 and 9. *)
Definition sample_store : Metadata.MetadataStore :=
  Metadata.add_snippets_batch
    [(7, snippet_f); (3, snippet_g); (9, snippet_h)] Metadata.empty.

(** An embedder that maps every text to the first unit vector of the
    plane. *)
Definition sample_embedder : Embedder :=
  mkEmbedder (fun texts => map (fun _ => [1; 0]%R) texts).

(** An exact index of dimension 2: the first unit vector under the IDs 7
    and 3, added in this order, then under 9 a unit vector whose cosine
    similarity to the first is [3/5]. *)
Definition sample_index : Faiss.Index :=
  Faiss.mkIndex FLAT 2 0 0 0 true []
    [(7, [1; 0]%R); (3, [1; 0]%R); (9, [3 / 5; 4 / 5]%R)] false.

Definition sample_searcher : CloneSearcher :=
  mkSearcher (handle_of sample_index) sample_embedder sample_store.

(** The matches the searcher above can return. *)
Definition match_7 (similarity : R) : CloneMatch :=
  mkMatch 7 "a.py" 1 1 "python" (Some "f") similarity "def f(): pass".

Definition match_3 (similarity : R) : CloneMatch :=
  mkMatch 3 "b.py" 3 4 "python" (Some "g") similarity "def g(): pass".

Definition match_9 (similarity : R) : CloneMatch :=
  mkMatch 9 "c.py" 10 11 "python" None similarity "def h(): return 1".

(** The similarities the searcher computes, without rounding, for the
    hits of the query [[1; 0]]: from the distance 0 of the two copies of
    the query, and from the distance [4/5] the index reports for the third
    vector. *)
Definition sim_same : R :=
  MetricConverter.l2_to_cosine_similarity MetricConverter.exact_arithmetic 0.
Definition sim_other : R :=
  MetricConverter.l2_to_cosine_similarity MetricConverter.exact_arithmetic
    (4 / 5).

End Samples.

(** ** Configuration ([config/settings.py]) *)

Module Settings.

(** [IndexConfig.validate_m_divides_dimension]: [values] holds [dimension]
    when that field, declared before [m], was itself accepted; then
    [values["dimension"] % v != 0] raises [ValueError], and a zero [v]
    raises [ZeroDivisionError] from the [%]. *)
Definition validate_m_divides_dimension (values_dimension : option Z)
    (v : Z) : Result Z :=
  match values_dimension with
  | None => Ok v
  | Some dimension =>
      if Z.eqb v 0 then Raise ZeroDivisionError
      else if negb (Z.eqb (dimension mod v) 0) then Raise ValueError
      else Ok v
  end.

(** [QueryConfig.validate_similarity]:
    [if not 0 <= v <= 1: raise ValueError]. *)
Definition validate_similarity (v : R) : Result R :=
  if Rle_dec 0 v then
    if Rle_dec v 1 then Ok v else Raise ValueError
  else Raise ValueError.

End Settings.

(** ** The ingestion command ([cli/main.py], [ingest]) *)

Module Cli.

(** [ids = np.arange(len(snippets), dtype=np.int64)]: the IDs the vectors
    are added under. *)
Definition vector_ids {A} (snippets : list A) : list Z :=
  Builder.arange 0 (length snippets).

(** [snippet_tuples = [(i, snippet) for i, snippet in enumerate(snippets)]]:
    what is handed to [add_snippets_batch]. *)
Definition snippet_tuples (snippets : list Parser.CodeSnippet)
  : list (Z * Parser.CodeSnippet) :=
  imap (fun i snippet => (Z.of_nat i, snippet)) snippets.

(** Step 4 of [ingest] on a new database:
    [MetadataStore(metadata_db)], then [add_snippets_batch]. *)
Definition save_metadata (snippets : list Parser.CodeSnippet)
  : Metadata.MetadataStore :=
  Metadata.add_snippets_batch (snippet_tuples snippets) Metadata.empty.

(** Step 3 of [ingest]: the builder of the quantized backend with
    [dimension=768], [m=64], [nbits=8], trained on [train_vectors] (the
    random sample drawn from the embeddings), then [add(embeddings, ids)];
    an exception of any step ends the command. *)
Definition build_index (has_gpu_resources : bool) (nlist nprobe : Z)
    (use_gpu : bool) (snippets : list Parser.CodeSnippet)
    (embeddings train_vectors : list Vec.vector)
  : Result Builder.FAISSIndexBuilder :=
  let ids := vector_ids snippets in
  match Builder.__init__ 768 IVF_PQ nlist 64 8 nprobe use_gpu with
  | (Raise e, _) => Raise e
  | (Ok index_builder, _) =>
      match Builder.train has_gpu_resources train_vectors index_builder with
      | (Raise e, _, _) => Raise e
      | (Ok _, index_builder, _) =>
          match Builder.add embeddings (Some ids) index_builder with
          | (Raise e, _, _) => Raise e
          | (Ok _, index_builder, _) => Ok index_builder
          end
      end
  end.

End Cli.

(** ** The plugin server ([plugin_server.py], [detect_clones]) *)

(** The search loop of [detect_clones], in exact arithmetic; the answer
    of [index.search] for each function is an input. *)

Module PluginServer.

(** The [SemanticClone] model; [explanation] holds the template of its
    f-string. *)
Record SemanticClone : Type := mkClone {
  source_file : string;
  source_start_line : Z;
  source_end_line : Z;
  target_file : string;
  target_start_line : Z;
  target_end_line : Z;
  similarity : R;
  explanation : option string
}.

(** [similarity = 1.0 - (distance / 2.0)]. *)
Definition distance_to_similarity (distance : R) : R := 1 - distance / 2.

(** [functions[idx]] for a Python [int]: a negative index counts from the
    end, and an index out of range raises [IndexError]. *)
Definition py_index {A} (l : list A) (idx : Z) : Result A :=
  let n := Z.of_nat (length l) in
  let pos := if (idx <? 0)%Z then (idx + n)%Z else idx in
  if (pos <? 0)%Z then Raise IndexError
  else match l !! Z.to_nat pos with
       | Some x => Ok x
       | None => Raise IndexError
       end.

(** [tuple(sorted([i, idx]))]. *)
Definition pair_key (i idx : Z) : Z * Z := (Z.min i idx, Z.max i idx).

(** The state of the loops: [clones] and [seen_pairs]. *)
Abbreviation LoopState := (list SemanticClone * gset (Z * Z))%type.

(** The inner loop [for distance, idx in zip(distances[0], indices[0])] for
    the function of index [i]; it ends at the end of the hits or at the
    [break] once [len(clones) >= max_results]. *)
Fixpoint scan_hits (functions : list Parser.CodeSnippet)
    (similarity_threshold : R) (max_results : Z) (i : nat)
    (hits : list (R * Z)) (st : LoopState) : Result LoopState :=
  match hits with
  | [] => Ok st
  | (distance, idx) :: rest =>
      let similarity := distance_to_similarity distance in
      if (idx =? Z.of_nat i)%Z
         || (if Rlt_dec similarity similarity_threshold then true else false)
      then scan_hits functions similarity_threshold max_results i rest st
      else if decide (pair_key (Z.of_nat i) idx ∈ snd st)
      then scan_hits functions similarity_threshold max_results i rest st
      else
        let seen_pairs := {[pair_key (Z.of_nat i) idx]} ∪ snd st in
        source_func ← py_index functions (Z.of_nat i);
        target_func ← py_index functions idx;
        let clone :=
          mkClone (Parser.file_path source_func)
                  (Parser.start_line source_func)
                  (Parser.end_line source_func)
                  (Parser.file_path target_func)
                  (Parser.start_line target_func)
                  (Parser.end_line target_func)
                  similarity
                  (Some "Semantic similarity: {similarity:.3f}"%string) in
        let clones := (fst st ++ [clone])%list in
        if (max_results <=? Z.of_nat (length clones))%Z
        then Ok (clones, seen_pairs)
        else scan_hits functions similarity_threshold max_results i rest
                       (clones, seen_pairs)
  end.

(** The outer loop [for i, query_embedding in enumerate(embeddings)], from
    the function of index [i] on; [results] holds the hits of the searches
    still to run; it ends at the [break] once
    [len(clones) >= max_results]. *)
Fixpoint scan_queries (functions : list Parser.CodeSnippet)
    (similarity_threshold : R) (max_results : Z) (i : nat)
    (results : list (list (R * Z))) (st : LoopState) : Result LoopState :=
  match results with
  | [] => Ok st
  | hits :: rest =>
      st' ← scan_hits functions similarity_threshold max_results i hits st;
      if (max_results <=? Z.of_nat (length (fst st')))%Z then Ok st'
      else scan_queries functions similarity_threshold max_results (S i)
                        rest st'
  end.

(** The clones and the pairs seen when the loops end, from
    [clones = []], [seen_pairs = set()]. *)
Definition search_clones (functions : list Parser.CodeSnippet)
    (similarity_threshold : R) (max_results : Z)
    (results : list (list (R * Z))) : Result LoopState :=
  scan_queries functions similarity_threshold max_results 0 results ([], ∅).

(** The clone [c] is the one the loop builds for the function of index
    [fst p] and the hit of index [snd p]. *)
Definition reports (functions : list Parser.CodeSnippet)
    (c : SemanticClone) (p : Z * Z) : Prop :=
  (0 <= fst p)%Z /\ fst p <> snd p /\
  exists source_func target_func,
    py_index functions (fst p) = Ok source_func /\
    py_index functions (snd p) = Ok target_func /\
    source_file c = Parser.file_path source_func /\
    source_start_line c = Parser.start_line source_func /\
    source_end_line c = Parser.end_line source_func /\
    target_file c = Parser.file_path target_func /\
    target_start_line c = Parser.start_line target_func /\
    target_end_line c = Parser.end_line target_func.

(** The clone [c] carries the locations of the functions at the positions
    [j] (source) and [k] (target) of the list, counted from the front. *)
Definition clone_of_positions (functions : list Parser.CodeSnippet)
    (c : SemanticClone) (j k : nat) : Prop :=
  exists source_func target_func,
    functions !! j = Some source_func /\
    functions !! k = Some target_func /\
    source_file c = Parser.file_path source_func /\
    source_start_line c = Parser.start_line source_func /\
    source_end_line c = Parser.end_line source_func /\
    target_file c = Parser.file_path target_func /\
    target_start_line c = Parser.start_line target_func /\
    target_end_line c = Parser.end_line target_func.

(** What the two loops maintain of [clones] and [seen_pairs]: the clones
    are those of a list of pairs with distinct keys, in this order,
    [seen_pairs] is the set of these keys, and every similarity is at
    least the threshold. *)
Definition loop_invariant (functions : list Parser.CodeSnippet)
    (similarity_threshold : R) (st : LoopState) (pairs : list (Z * Z))
  : Prop :=
  Forall2 (reports functions) (fst st) pairs /\
  NoDup (map (fun p => pair_key (fst p) (snd p)) pairs) /\
  snd st = list_to_set (map (fun p => pair_key (fst p) (snd p)) pairs) /\
  Forall (fun c => similarity_threshold <= similarity c) (fst st).

End PluginServer.

(** ** Vocabulary for the searcher's results *)

Module Hits.

(** The hit a match was made of: the ID and the similarity the index
    returned. *)
Definition hit_of (c : Search.CloneMatch) : Z * R :=
  (Search.snippet_id c, Search.similarity c).

(** The matches for one query row [v] on an exact index, with the
    defaults of the searcher: the hits of the normalised row within
    [radius], their distances converted back, hydrated without the
    self-matches and sorted. *)
Definition matches_of_row (fl32 : R -> R) (ix : Faiss.Index)
    (store : Metadata.MetadataStore) (radius : R) (v : Vec.vector)
  : list Search.CloneMatch :=
  let hs := Faiss.hits_of ix (Vec.normalize_row v) radius in
  Search.sort_by_similarity_desc
    (Search._hydrate_results store (map fst hs)
       (map (MetricConverter.l2_to_cosine_similarity fl32) (map snd hs))
       true).

End Hits.

(** * Properties *)

(** ** Metric conversion *)

Section MetricConverterFacts.
Import MetricConverter.

Lemma Rabs_le_inv (a b : R) : Rabs a <= b -> - b <= a <= b.
Proof. unfold Rabs. destruct (Rcase_abs a); lra. Qed.

Lemma sqrt_between (a b x : R) :
  0 <= a -> 0 <= b -> a * a <= x <= b * b -> a <= sqrt x <= b.
Proof.
  intros Ha Hb [Hlo Hhi].
  assert (Hx : 0 <= x) by nra.
  split.
  - rewrite <- (sqrt_square a Ha). apply sqrt_le_1; nra.
  - rewrite <- (sqrt_square b Hb). apply sqrt_le_1; nra.
Qed.

(** *** The guard, for any rounding *)

Lemma cosine_to_l2_threshold_in_range (fl : R -> R) (c : R) :
  0 <= c <= 1 ->
  cosine_to_l2_threshold fl c = Ok (fl (sqrt (fl (2 - fl (2 * c))))).
Proof.
  intros [H0 H1]. unfold cosine_to_l2_threshold.
  destruct (Rle_dec 0 c) as [_|n]; [|contradiction].
  destruct (Rle_dec c 1) as [_|n]; [reflexivity|contradiction].
Qed.

Lemma cosine_to_l2_threshold_out_of_range (fl : R -> R) (c : R) :
  ~ (0 <= c <= 1) -> cosine_to_l2_threshold fl c = Raise ValueError.
Proof.
  intros Hout. unfold cosine_to_l2_threshold.
  destruct (Rle_dec 0 c) as [H0|_]; [|reflexivity].
  destruct (Rle_dec c 1) as [H1|_]; [|reflexivity].
  exfalso. apply Hout. split; assumption.
Qed.

(** *** Exact arithmetic *)

Lemma cosine_to_l2_threshold_exact (c : R) :
  0 <= c <= 1 ->
  cosine_to_l2_threshold exact_arithmetic c = Ok (sqrt (2 - 2 * c)).
Proof. apply cosine_to_l2_threshold_in_range. Qed.

Lemma l2_to_cosine_similarity_sqrt (y : R) :
  0 <= y -> l2_to_cosine_similarity exact_arithmetic (sqrt y) = 1 - y / 2.
Proof.
  intros Hy. unfold l2_to_cosine_similarity, exact_arithmetic.
  replace (sqrt y ^ 2) with (sqrt y * sqrt y) by ring.
  rewrite sqrt_sqrt by assumption. reflexivity.
Qed.

Lemma exact_arithmetic_standard : standard_model 0 exact_arithmetic.
Proof.
  constructor; unfold exact_arithmetic.
  - lra.
  - intros x. rewrite Rminus_diag, Rabs_R0. lra.
  - auto.
  - reflexivity.
Qed.

(** *** Rounded arithmetic *)

Section Rounded.

Variables (u : R) (fl : R -> R).
Hypothesis Hfl : standard_model u fl.

Lemma fl_abs_error (x : R) : Rabs x <= 3 -> Rabs (fl x - x) <= 3 * u.
Proof.
  intros Hx. pose proof (relative_error u fl Hfl x) as He.
  pose proof (unit_roundoff_small u fl Hfl) as Hu.
  pose proof (Rabs_pos x). nra.
Qed.

Lemma fl_zero : fl 0 = 0.
Proof.
  pose proof (relative_error u fl Hfl 0) as He.
  rewrite Rabs_R0, Rmult_0_r, Rminus_0_r in He.
  destruct (Req_dec (fl 0) 0) as [|Hne]; [assumption|].
  apply Rabs_pos_lt in Hne. lra.
Qed.

Lemma fl_nonneg (x : R) : 0 <= x -> 0 <= fl x.
Proof. intros Hx. rewrite <- fl_zero. apply (monotone u fl Hfl), Hx. Qed.

Lemma fl_relative_nonneg (x : R) :
  0 <= x -> x * (1 - u) <= fl x <= x * (1 + u).
Proof.
  intros Hx. pose proof (relative_error u fl Hfl x) as He.
  rewrite (Rabs_right x) in He by lra.
  apply Rabs_le_inv in He. lra.
Qed.

(** The rounded radicand is not negative, so the square root is taken of
    a number it is defined on, and it is close to [2 - 2 c]. *)
Lemma radicand_bounds (c : R) :
  0 <= c <= 1 ->
  0 <= fl (2 - fl (2 * c)) /\
  Rabs (fl (2 - fl (2 * c)) - (2 - 2 * c)) <= 6 * u.
Proof.
  intros Hc. pose proof (unit_roundoff_small u fl Hfl) as Hu.
  assert (Ha : Rabs (fl (2 * c) - 2 * c) <= 3 * u).
  { apply fl_abs_error. rewrite Rabs_right; lra. }
  assert (Ha2 : 0 <= fl (2 * c) <= 2).
  { split; [apply fl_nonneg; lra|].
    rewrite <- (two_exact u fl Hfl) at 2. apply (monotone u fl Hfl). lra. }
  assert (Hb : Rabs (fl (2 - fl (2 * c)) - (2 - fl (2 * c))) <= 3 * u).
  { apply fl_abs_error. rewrite Rabs_right; lra. }
  split; [apply fl_nonneg; lra|].
  apply Rabs_le_inv in Ha. apply Rabs_le_inv in Hb. apply Rabs_le. lra.
Qed.

(** The square of the rounded square root is close to the radicand. *)
Lemma distance_bounds (r : R) :
  0 <= r <= 21 / 10 ->
  0 <= fl (sqrt r) /\ Rabs (fl (sqrt r) ^ 2 - r) <= 5 * u.
Proof.
  intros Hr. pose proof (unit_roundoff_small u fl Hfl) as Hu.
  pose proof (sqrt_pos r) as Hs0.
  assert (Hs1 : sqrt r <= 3 / 2).
  { rewrite <- (sqrt_square (3 / 2)) by lra. apply sqrt_le_1; lra. }
  pose proof (sqrt_sqrt r (proj1 Hr)) as Hss.
  pose proof (fl_relative_nonneg (sqrt r) Hs0) as Hd.
  split; [apply fl_nonneg, Hs0|].
  set (s := sqrt r) in *. set (d := fl s) in *.
  replace (d ^ 2 - r) with ((d - s) * (d + s)) by (rewrite <- Hss; ring).
  apply Rabs_le. split; nra.
Qed.

(** The threshold for [c] lies between [lo] and [hi], up to the last
    rounding, when [2 - 2 c] lies between their squares with a margin. *)
Lemma threshold_between (c lo hi : R) :
  0 <= c <= 1 -> 0 <= lo -> 0 <= hi ->
  lo * lo <= 2 - 2 * c - 1 / 100000 ->
  2 - 2 * c + 1 / 100000 <= hi * hi ->
  exists dist,
    cosine_to_l2_threshold fl c = Ok dist /\
    lo * (1 - u) <= dist <= hi * (1 + u).
Proof.
  intros Hc Hlo Hhi Hl Hh. pose proof (unit_roundoff_small u fl Hfl) as Hu.
  exists (fl (sqrt (fl (2 - fl (2 * c))))).
  split; [apply cosine_to_l2_threshold_in_range, Hc|].
  destruct (radicand_bounds c Hc) as [Hr0 Hr]. apply Rabs_le_inv in Hr.
  set (r := fl (2 - fl (2 * c))) in *.
  assert (Hs : lo <= sqrt r <= hi) by (apply sqrt_between; lra).
  pose proof (fl_relative_nonneg (sqrt r) (sqrt_pos r)) as Hd.
  split; nra.
Qed.

(** The literal [x] of the source text, read into the format, for an [x]
    between 0 and 1. *)
Lemma literal_bounds (x : R) :
  0 <= x <= 1 -> Rabs (fl x - x) <= 1 / 1000000 /\ 0 <= fl x.
Proof.
  intros Hx. pose proof (unit_roundoff_small u fl Hfl) as Hu.
  pose proof (fl_relative_nonneg x (proj1 Hx)) as Hb.
  split; [apply Rabs_le; nra|apply fl_nonneg; lra].
Qed.

End Rounded.

(** C2: for every [x] in [[0, 1]] and every rounding that obeys the
    standard model, the threshold conversion returns (the square root is
    taken of a non-negative number), and converting its result back gives
    [x] within [1e-4]. *)
Theorem metric_round_trip (u : R) (fl : R -> R) (x : R) :
  standard_model u fl ->
  0 <= x <= 1 ->
  exists dist,
    cosine_to_l2_threshold fl x = Ok dist /\
    0 <= fl (2 - fl (2 * x)) /\
    Rabs (l2_to_cosine_similarity fl dist - x) <= 1 / 10000.
Proof.
  intros Hfl Hx. pose proof (unit_roundoff_small u fl Hfl) as Hu.
  exists (fl (sqrt (fl (2 - fl (2 * x))))).
  split; [apply cosine_to_l2_threshold_in_range, Hx|].
  destruct (radicand_bounds u fl Hfl x Hx) as [Hr0 Hr].
  split; [exact Hr0|].
  set (r := fl (2 - fl (2 * x))) in *.
  apply Rabs_le_inv in Hr.
  destruct (distance_bounds u fl Hfl r) as [Hd0 Hd]; [lra|].
  set (d := fl (sqrt r)) in *. apply Rabs_le_inv in Hd.
  unfold l2_to_cosine_similarity.
  assert (Hf : Rabs (fl (d ^ 2) - d ^ 2) <= 3 * u)
    by (apply (fl_abs_error u fl Hfl), Rabs_le; lra).
  apply Rabs_le_inv in Hf.
  set (f := fl (d ^ 2)) in *.
  assert (Hh : Rabs (fl (f / 2) - f / 2) <= 3 * u)
    by (apply (fl_abs_error u fl Hfl), Rabs_le; lra).
  apply Rabs_le_inv in Hh.
  set (h := fl (f / 2)) in *.
  assert (Hk : Rabs (fl (1 - h) - (1 - h)) <= 3 * u)
    by (apply (fl_abs_error u fl Hfl), Rabs_le; lra).
  apply Rabs_le_inv in Hk.
  apply Rabs_le. lra.
Qed.

Lemma metric_round_trip_witness :
  exists dist,
    cosine_to_l2_threshold exact_arithmetic (95 / 100) = Ok dist /\
    0 <= exact_arithmetic (2 - exact_arithmetic (2 * (95 / 100))) /\
    Rabs (l2_to_cosine_similarity exact_arithmetic dist - 95 / 100)
    <= 1 / 10000.
Proof.
  apply (metric_round_trip 0 exact_arithmetic (95 / 100)).
  - apply exact_arithmetic_standard.
  - lra.
Defined.

(** C3: the threshold conversion raises its [ValueError] exactly when the
    argument is outside [[0, 1]]; inside, under a rounding that obeys the
    standard model, the radicand is not negative and the function returns
    the rounded square root of [max 0] of it; for the literals [0.95] and
    [0.90] the value rounds to [0.316] and [0.447]. *)
Theorem similarity_to_distance_contract (u : R) (fl : R -> R) :
  standard_model u fl ->
  (forall c,
     cosine_to_l2_threshold fl c = Raise ValueError <-> ~ (0 <= c <= 1)) /\
  (forall c, 0 <= c <= 1 ->
     0 <= fl (2 - fl (2 * c)) /\
     cosine_to_l2_threshold fl c
     = Ok (fl (sqrt (Rmax 0 (fl (2 - fl (2 * c))))))) /\
  (exists d95, cosine_to_l2_threshold fl (fl (95 / 100)) = Ok d95 /\
               Rabs (d95 - 316 / 1000) < 5 / 10000) /\
  (exists d90, cosine_to_l2_threshold fl (fl (90 / 100)) = Ok d90 /\
               Rabs (d90 - 447 / 1000) < 5 / 10000).
Proof.
  intros Hfl. pose proof (unit_roundoff_small u fl Hfl) as Hu.
  split; [|split; [|split]].
  - intros c. split.
    + intros Hraise Hin.
      rewrite (cosine_to_l2_threshold_in_range fl c Hin) in Hraise.
      discriminate.
    + apply cosine_to_l2_threshold_out_of_range.
  - intros c Hc. destruct (radicand_bounds u fl Hfl c Hc) as [Hrad _].
    split; [exact Hrad|].
    rewrite Rmax_right by exact Hrad.
    apply cosine_to_l2_threshold_in_range, Hc.
  - destruct (literal_bounds u fl Hfl (95 / 100)) as [Hc Hc0]; [lra|].
    apply Rabs_le_inv in Hc.
    destruct (threshold_between u fl Hfl (fl (95 / 100))
                (3160 / 10000) (3164 / 10000))
      as (dist & Hd & Hb); try lra.
    exists dist. split; [exact Hd|]. apply Rabs_def1; nra.
  - destruct (literal_bounds u fl Hfl (90 / 100)) as [Hc Hc0]; [lra|].
    apply Rabs_le_inv in Hc.
    destruct (threshold_between u fl Hfl (fl (90 / 100))
                (4470 / 10000) (4474 / 10000))
      as (dist & Hd & Hb); try lra.
    exists dist. split; [exact Hd|]. apply Rabs_def1; nra.
Qed.

Lemma similarity_to_distance_contract_witness :
  (cosine_to_l2_threshold exact_arithmetic 2 = Raise ValueError
   <-> ~ (0 <= 2 <= 1)) /\
  (0 <= exact_arithmetic (2 - exact_arithmetic (2 * (1 / 2))) /\
   cosine_to_l2_threshold exact_arithmetic (1 / 2)
   = Ok (exact_arithmetic
           (sqrt (Rmax 0 (exact_arithmetic
                            (2 - exact_arithmetic (2 * (1 / 2)))))))).
Proof.
  split.
  - apply (proj1 (similarity_to_distance_contract 0 exact_arithmetic
                    exact_arithmetic_standard) 2).
  - apply (proj1 (proj2 (similarity_to_distance_contract 0 exact_arithmetic
                           exact_arithmetic_standard)) (1 / 2)).
    lra.
Defined.

End MetricConverterFacts.

(** ** Unit vectors: distance and cosine similarity *)

Section VecFacts.
Import Vec.

Lemma dot_comm (u v : vector) : dot u v = dot v u.
Proof.
  revert v. induction u as [|x u IH]; intros [|y v]; simpl; try reflexivity.
  rewrite IH. ring.
Qed.

Lemma dot_self_nonneg (v : vector) : 0 <= dot v v.
Proof. induction v as [|x v IH]; simpl; [lra|nra]. Qed.

Lemma dot_scale_l (a : R) (u v : vector) :
  dot (scale a u) v = a * dot u v.
Proof.
  revert v. induction u as [|x u IH]; intros [|y v]; simpl; try ring.
  fold (scale a u). rewrite IH. ring.
Qed.

Lemma dot_scale_r (a : R) (u v : vector) :
  dot u (scale a v) = a * dot u v.
Proof. rewrite dot_comm, dot_scale_l, dot_comm. reflexivity. Qed.

Lemma length_normalize_row (v : vector) :
  length (normalize_row v) = length v.
Proof.
  unfold normalize_row. destruct (Rlt_dec 0 (norm v)); [|reflexivity].
  unfold scale. apply length_map.
Qed.

Lemma sqdist_expand (u v : vector) :
  length u = length v ->
  sqdist u v = dot u u - 2 * dot u v + dot v v.
Proof.
  revert v. induction u as [|x u IH]; intros [|y v] Hlen; simpl in *;
    try discriminate; [ring|].
  rewrite IH by congruence. ring.
Qed.

Lemma sqdist_nonneg (u v : vector) : 0 <= sqdist u v.
Proof.
  revert v. induction u as [|x u IH]; intros [|y v]; simpl; try lra.
  specialize (IH v).
  assert (0 <= (x - y) * (x - y)) by (apply Rle_0_sqr).
  lra.
Qed.

Lemma norm_sqr (v : vector) : norm v * norm v = dot v v.
Proof. unfold norm. apply sqrt_sqrt, dot_self_nonneg. Qed.

(** A non-zero row has unit length once normalised. *)
Lemma normalize_row_unit (v : vector) :
  0 < norm v -> dot (normalize_row v) (normalize_row v) = 1.
Proof.
  intros Hv. unfold normalize_row.
  destruct (Rlt_dec 0 (norm v)) as [_|n]; [|contradiction].
  rewrite dot_scale_l, dot_scale_r, <- norm_sqr. field. lra.
Qed.

(** The inner product of two normalised rows is the cosine similarity of
    the rows they come from. *)
Lemma dot_normalize_row (u v : vector) :
  0 < norm u -> 0 < norm v ->
  dot (normalize_row u) (normalize_row v) = cosine_similarity u v.
Proof.
  intros Hu Hv. unfold normalize_row, cosine_similarity.
  destruct (Rlt_dec 0 (norm u)) as [_|n]; [|contradiction].
  destruct (Rlt_dec 0 (norm v)) as [_|n]; [|contradiction].
  destruct (Rlt_dec 0 (norm u * norm v)) as [_|n];
    [|exfalso; apply n, Rmult_lt_0_compat; assumption].
  rewrite dot_scale_l, dot_scale_r. field. lra.
Qed.

(** The duality [D^2 = 2 - 2 cos] the module's docstring states. *)
Lemma sqdist_normalized (u v : vector) :
  length u = length v -> 0 < norm u -> 0 < norm v ->
  sqdist (normalize_row u) (normalize_row v) = 2 - 2 * cosine_similarity u v.
Proof.
  intros Hlen Hu Hv.
  rewrite sqdist_expand by (rewrite !length_normalize_row; exact Hlen).
  rewrite !normalize_row_unit, dot_normalize_row by assumption. ring.
Qed.

(** Being within the converted threshold is having at least the cosine
    similarity. *)
Lemma within_radius_iff (u v : vector) (t : R) :
  length u = length v -> 0 < norm u -> 0 < norm v -> 0 <= t <= 1 ->
  l2_distance (normalize_row u) (normalize_row v) <= sqrt (2 - 2 * t)
  <-> t <= cosine_similarity u v.
Proof.
  intros Hlen Hu Hv Ht. unfold l2_distance.
  pose proof (sqdist_nonneg (normalize_row u) (normalize_row v)) as Hnn.
  rewrite sqdist_normalized in * by assumption.
  split.
  - intros Hle. apply sqrt_le_0 in Hle; lra.
  - intros Hle. apply sqrt_le_1; lra.
Qed.

End VecFacts.

(** ** The index builder: lifecycle *)

Module BuilderFacts.
Import Builder.

Local Open Scope Z_scope.

(** Unfold a method and the monad under it. *)
Ltac run_method :=
  unfold build, add, train, _create_index;
  unfold mbind, M_bind, bind, get, modify, log, lift, raise, ret; cbn.

Lemma shape_ok_normalize (ix : Faiss.Index) (rows : list Vec.vector) :
  Faiss.shape_ok ix (Vec.normalize_L2 rows) = Faiss.shape_ok ix rows.
Proof.
  unfold Faiss.shape_ok, Vec.normalize_L2.
  induction rows as [|v rows IH]; simpl; [reflexivity|].
  rewrite length_normalize_row, IH. reflexivity.
Qed.

Lemma shape_ok_true (ix : Faiss.Index) (rows : list Vec.vector) :
  Forall (fun v => Z.of_nat (length v) = Faiss.d ix) rows ->
  Faiss.shape_ok ix rows = true.
Proof.
  intros H. unfold Faiss.shape_ok. apply forallb_forall. intros v Hv.
  rewrite List.Forall_forall in H. apply Z.eqb_eq, H, Hv.
Qed.

Lemma length_arange (start : Z) (count : nat) :
  length (arange start count) = count.
Proof. unfold arange. rewrite length_map, length_seq. reflexivity. Qed.

Lemma init_ok (dim : Z) (ty : IndexType) (nl mm nb np : Z) (ug : bool) :
  mm <> 0 -> dim mod mm = 0 ->
  __init__ dim ty nl mm nb np ug =
  (Ok (mkBuilder dim ty nl mm nb np ug None false),
   [(INFO, "Initialized FAISS index builder: {self._get_index_description()}"%string)]).
Proof.
  intros Hm Hmod. unfold __init__.
  destruct (Z.eqb_spec mm 0) as [|_]; [contradiction|].
  rewrite Hmod. reflexivity.
Qed.

Lemma init_inv (dim : Z) (ty : IndexType) (nl mm nb np : Z) (ug : bool)
    (b : FAISSIndexBuilder) (l : list LogRecord) :
  __init__ dim ty nl mm nb np ug = (Ok b, l) ->
  b = mkBuilder dim ty nl mm nb np ug None false.
Proof.
  unfold __init__. destruct (mm =? 0); [discriminate|].
  destruct (negb (dim mod mm =? 0)); [discriminate|].
  intros [= <- _]. reflexivity.
Qed.

Lemma add_untrained (vs : list Vec.vector) (ids : option (list Z))
    (b : FAISSIndexBuilder) :
  is_trained b = false -> add vs ids b = (Raise RuntimeError, b, []).
Proof. intros H. run_method. rewrite H. reflexivity. Qed.

Lemma train_trained (gpu : bool) (tv : list Vec.vector)
    (b : FAISSIndexBuilder) :
  is_trained b = true ->
  train gpu tv b = (Ok tt, b, [already_trained_warning]).
Proof. intros H. run_method. rewrite H. reflexivity. Qed.

(** Creating the index of a clustered builder leaves it untrained. *)
Lemma create_index_untrained (gpu : bool) (b b' : FAISSIndexBuilder)
    (l : list LogRecord) :
  index_type b <> FLAT -> is_trained b = false ->
  _create_index gpu b = (Ok tt, b', l) ->
  is_trained b' = false /\ wf b' /\ num_vectors b' = 0.
Proof.
  intros Hty Htr. destruct b as [dim ty nl mm nb np ug ix tr].
  simpl in *. subst tr. run_method.
  destruct ty; [congruence| |]; destruct ug, gpu; cbn;
    intros [= <- <-]; cbn;
    (split; [reflexivity|]); (split; [|reflexivity]);
    split; cbn; try discriminate; intros ? [= <-]; reflexivity.
Qed.

(** Close a case of [train] on an untrained builder. *)
Ltac train_case :=
  unfold Faiss.train; cbn;
  match goal with
  | |- context [Faiss.shape_ok ?ix ?x] => destruct (Faiss.shape_ok ix x); cbn
  end;
  [|discriminate];
  match goal with
  | |- context [Faiss.enough_points ?ix ?x] =>
      destruct (Faiss.enough_points ix x); cbn
  end;
  [|discriminate];
  intros [= <- <-]; cbn; repeat split; cbn;
  [ intros ? [= <-]; cbn; auto
  | intros _; eexists; split; reflexivity ].

(** A [train] that returns leaves a well-formed, trained builder. *)
Lemma train_ok (gpu : bool) (tv : list Vec.vector)
    (b b1 : FAISSIndexBuilder) (l1 : list LogRecord) :
  wf b -> train gpu tv b = (Ok tt, b1, l1) ->
  wf b1 /\ is_trained b1 = true /\ dimension b1 = dimension b.
Proof.
  intros Hwf. destruct (is_trained b) eqn:Htr.
  - rewrite train_trained by assumption. intros [= <- <-]. auto.
  - destruct b as [dim ty nl mm nb np ug ix tr]. simpl in *. subst tr.
    destruct Hwf as [Hd _]. cbn in Hd.
    run_method.
    destruct ix as [ix|]; cbn.
    + specialize (Hd ix eq_refl). train_case.
    + destruct ty, ug, gpu; cbn; train_case.
Qed.

(** Whatever the builder was, a [train] that returns leaves it marked
    trained. *)
Lemma train_sets_trained (gpu : bool) (tv : list Vec.vector)
    (b b1 : FAISSIndexBuilder) (l1 : list LogRecord) :
  train gpu tv b = (Ok tt, b1, l1) -> is_trained b1 = true.
Proof.
  destruct (is_trained b) eqn:Htr.
  - rewrite train_trained by assumption. intros [= <- <-]. exact Htr.
  - destruct b as [dim ty nl mm nb np ug ix tr]. simpl in *. subst tr.
    run_method.
    destruct ix as [ix|]; [|destruct ty, ug, gpu]; cbn;
      unfold Faiss.train; cbn;
      match goal with
      | |- context [Faiss.shape_ok ?i ?x] =>
          destruct (Faiss.shape_ok i x); cbn
      end;
      try discriminate;
      match goal with
      | |- context [Faiss.enough_points ?i ?x] =>
          destruct (Faiss.enough_points i x); cbn
      end;
      try discriminate; intros [= <- <-]; reflexivity.
Qed.

(** [add] on a trained builder, for rows of the index's dimension and as
    many IDs as rows. *)
Lemma add_ok (vs : list Vec.vector) (ids : option (list Z))
    (b : FAISSIndexBuilder) (ix : Faiss.Index) :
  is_trained b = true -> index b = Some ix ->
  Faiss.ix_is_trained ix = true ->
  Forall (fun v => Z.of_nat (length v) = Faiss.d ix) vs ->
  (forall l, ids = Some l -> length l = length vs) ->
  exists b2 l2,
    add vs ids b = (Ok tt, b2, l2) /\
    num_vectors b2 = num_vectors b + Z.of_nat (length vs).
Proof.
  intros Htr Hix Hixt Hshape Hids.
  run_method. rewrite Htr, Hix. cbn.
  unfold Faiss.add_with_ids.
  rewrite shape_ok_normalize, shape_ok_true by assumption. cbn.
  set (ids' := match ids with
               | Some l => l
               | None => arange (Faiss.ntotal ix) (length vs)
               end).
  assert (Hlen : length ids' = length vs).
  { subst ids'. destruct ids as [l|]; [apply Hids; reflexivity|].
    apply length_arange. }
  assert (Hn : length (Vec.normalize_L2 vs) = length vs)
    by (unfold Vec.normalize_L2; apply length_map).
  rewrite Hn, Hlen, Nat.eqb_refl, Hixt. cbn.
  eexists. eexists. split; [reflexivity|].
  unfold num_vectors. rewrite Hix. cbn. unfold Faiss.ntotal. cbn.
  rewrite length_app, length_combine, Hn, Hlen. lia.
Qed.

(** C4: [add] on a builder that is not trained raises the lifecycle error
    ([RuntimeError]) and leaves the builder, so its vectors, as they were;
    a clustered builder is in that state from its construction until
    [train], with or without its index created; once [train] has returned,
    [add] returns and the count grows by the number of rows. *)
Theorem add_requires_train (gpu : bool) :
  (forall b vs ids,
     is_trained b = false -> add vs ids b = (Raise RuntimeError, b, [])) /\
  (forall dim ty nl mm nb np ug b l,
     ty <> FLAT ->
     __init__ dim ty nl mm nb np ug = (Ok b, l) ->
     is_trained b = false /\ wf b /\
     forall b' l',
       _create_index gpu b = (Ok tt, b', l') ->
       is_trained b' = false /\ wf b') /\
  (forall b tv b1 l1 vs ids,
     wf b ->
     train gpu tv b = (Ok tt, b1, l1) ->
     Forall (fun v => Z.of_nat (length v) = dimension b) vs ->
     (forall l, ids = Some l -> length l = length vs) ->
     exists b2 l2,
       add vs ids b1 = (Ok tt, b2, l2) /\
       num_vectors b2 = num_vectors b1 + Z.of_nat (length vs)).
Proof.
  split; [|split].
  - intros b vs ids Htr. apply add_untrained, Htr.
  - intros dim ty nl mm nb np ug b l Hty Hinit.
    apply init_inv in Hinit. subst b.
    split; [reflexivity|]. split.
    + split; cbn; discriminate.
    + intros b' l' Hc.
      apply create_index_untrained in Hc; [tauto|exact Hty|reflexivity].
  - intros b tv b1 l1 vs ids Hwf Htrain Hshape Hids.
    destruct (train_ok gpu tv b b1 l1 Hwf Htrain) as ([Hd Ht] & Htr & Hdim).
    destruct (Ht Htr) as (ix & Hix & Hixt).
    apply (add_ok vs ids b1 ix Htr Hix Hixt); [|exact Hids].
    rewrite (Hd ix Hix), Hdim. exact Hshape.
Qed.

(** C6: [train] on a trained builder returns without raising, changes
    nothing of the builder (index, trained parameters, stored vectors) and
    logs one warning; so a second [train] after a first one that returned
    is such a no-op. *)
Theorem train_idempotent (gpu : bool) :
  (forall b tv,
     is_trained b = true ->
     train gpu tv b = (Ok tt, b, [already_trained_warning])) /\
  (forall b tv1 tv2 b1 l1,
     train gpu tv1 b = (Ok tt, b1, l1) ->
     train gpu tv2 b1 = (Ok tt, b1, [already_trained_warning])).
Proof.
  split.
  - intros b tv Htr. apply train_trained, Htr.
  - intros b tv1 tv2 b1 l1 Htrain.
    apply train_trained. eapply train_sets_trained, Htrain.
Qed.

(** C5, as the code has it: for a non-zero [m] the constructor raises its
    [ValueError] exactly when [dimension % m != 0], whatever the backend,
    and otherwise returns the builder with the arguments stored, no index
    and not trained. *)
Theorem init_validates_m_for_every_backend
    (dim : Z) (ty : IndexType) (nl mm nb np : Z) (ug : bool) :
  mm <> 0 ->
  (fst (__init__ dim ty nl mm nb np ug) = Raise ValueError
   <-> dim mod mm <> 0) /\
  (dim mod mm = 0 ->
   fst (__init__ dim ty nl mm nb np ug)
   = Ok (mkBuilder dim ty nl mm nb np ug None false)).
Proof.
  intros Hm. split.
  - unfold __init__. destruct (Z.eqb_spec mm 0) as [|_]; [contradiction|].
    destruct (Z.eqb_spec (dim mod mm) 0) as [He|Hne]; cbn.
    + split; [discriminate|intros H; contradiction].
    + split; [intros _; exact Hne|reflexivity].
  - intros Hmod. rewrite init_ok by assumption. reflexivity.
Qed.

(** C5 as stated fails: an exact-backend builder of dimension 100 with the
    default [m = 64] is refused. *)
Lemma init_flat_refused :
  ~ (forall dim ty nl mm nb np ug,
       ty <> IVF_PQ ->
       is_ok (fst (__init__ dim ty nl mm nb np ug)) = true).
Proof.
  intros H.
  specialize (H 100 FLAT default_nlist default_m default_nbits
                default_nprobe default_use_gpu).
  cbv in H. assert (Hne : FLAT <> IVF_PQ) by discriminate.
  specialize (H Hne). discriminate.
Qed.

Lemma add_requires_train_witness :
  let b := mkBuilder 2 IVF_FLAT 2 1 8 16 false None false in
  add [[1; 0]%R] None b = (Raise RuntimeError, b, []) /\
  (is_trained b = false /\ wf b /\
   forall b' l',
     _create_index false b = (Ok tt, b', l') ->
     is_trained b' = false /\ wf b') /\
  exists b1 l1,
    train false [[1; 0]%R; [0; 1]%R] b = (Ok tt, b1, l1) /\
    exists b2 l2,
      add [[3; 4]%R; [1; 1]%R] (Some [10; 11]) b1 = (Ok tt, b2, l2) /\
      num_vectors b2 = num_vectors b1 + 2.
Proof.
  intros b. split; [|split].
  - apply (proj1 (add_requires_train false)). reflexivity.
  - apply (proj1 (proj2 (add_requires_train false)) 2 IVF_FLAT 2 1 8 16 false
             b [(INFO, "Initialized FAISS index builder: {self._get_index_description()}"%string)]).
    + discriminate.
    + reflexivity.
  - eexists. eexists. split.
    + run_method. unfold Faiss.train, Faiss.shape_ok, Faiss.enough_points. cbn.
      rewrite !length_normalize_row. cbn. reflexivity.
    + eapply (proj2 (proj2 (add_requires_train false)) b
                [[1; 0]%R; [0; 1]%R]).
      * split; cbn; discriminate.
      * run_method. unfold Faiss.train, Faiss.shape_ok, Faiss.enough_points. cbn.
        rewrite !length_normalize_row. cbn. reflexivity.
      * repeat constructor.
      * intros l [= <-]. reflexivity.
Defined.

Lemma train_idempotent_witness :
  (let b := mkBuilder 2 FLAT 4 1 8 16 false (Some (Faiss.IndexFlatL2 2)) true in
   train false [[1; 0]%R] b = (Ok tt, b, [already_trained_warning])) /\
  (let b := mkBuilder 2 IVF_FLAT 2 1 8 16 false None false in
   exists b1 l1,
     train false [[1; 0]%R; [0; 1]%R] b = (Ok tt, b1, l1) /\
     num_vectors b1 = 0 /\
     train false [[1; 1]%R] b1 = (Ok tt, b1, [already_trained_warning])).
Proof.
  split.
  - intros b. apply (proj1 (train_idempotent false)). reflexivity.
  - intros b. eexists. eexists. split; [|split].
    + run_method. unfold Faiss.train, Faiss.shape_ok, Faiss.enough_points. cbn.
      rewrite !length_normalize_row. cbn. reflexivity.
    + reflexivity.
    + eapply (proj2 (train_idempotent false) b [[1; 0]%R; [0; 1]%R]).
      run_method. unfold Faiss.train, Faiss.shape_ok, Faiss.enough_points. cbn.
      rewrite !length_normalize_row. cbn. reflexivity.
Defined.

Lemma init_validates_m_for_every_backend_witness :
  (fst (__init__ 100 FLAT 4096 64 8 16 false) = Raise ValueError
   <-> 100 mod 64 <> 0) /\
  fst (__init__ 768 IVF_PQ 4096 64 8 16 false)
  = Ok (mkBuilder 768 IVF_PQ 4096 64 8 16 false None false).
Proof.
  split.
  - apply (init_validates_m_for_every_backend 100 FLAT 4096 64 8 16 false).
    lia.
  - apply (init_validates_m_for_every_backend 768 IVF_PQ 4096 64 8 16 false).
    + lia.
    + reflexivity.
Defined.

End BuilderFacts.

(** ** The metadata store: upsert and count *)

Module MetadataFacts.
Import Metadata.

Local Open Scope Z_scope.

Lemma filter_id_insert (i : Z) (r : Row) (store : MetadataStore) :
  filter (fun r' => id r' = i) (insert_or_replace r store)
  = if decide (id r = i) then [r] else filter (fun r' => id r' = i) store.
Proof.
  unfold insert_or_replace. rewrite filter_app, list_filter_filter.
  destruct (decide (id r = i)) as [He|Hne].
  - rewrite filter_cons_True by exact He. 
    replace (filter _ store) with (@nil Row); [reflexivity|].
    symmetry. induction store as [|x st IH]; [reflexivity|].
    rewrite filter_cons_False; [exact IH|]. intros [H1 H2]. congruence.
  - rewrite filter_cons_False by exact Hne. rewrite filter_nil, app_nil_r.
    apply list_filter_iff. intros x. split; [tauto|]. intros Hx. split; congruence.
Qed.

Lemma filter_id_batch (i : Z) (batch : list (Z * Parser.CodeSnippet)) (store : MetadataStore) :
  filter (fun r => id r = i) (add_snippets_batch batch store)
  = match last_write i batch with
    | Some s => [row_of i s]
    | None => filter (fun r => id r = i) store
    end.
Proof.
  revert store. induction batch as [|[j s] batch IH]; intros store; [reflexivity|].
  cbn. unfold add_snippets_batch in IH. rewrite IH.
  destruct (last_write i batch); [reflexivity|].
  rewrite filter_id_insert. cbn. destruct (decide (j = i)); [subst; reflexivity|reflexivity].
Qed.

Lemma ids_insert (r : Row) (store : MetadataStore) :
  unique_ids store -> unique_ids (insert_or_replace r store) /\
  (list_to_set (map id (insert_or_replace r store)) : gset Z) = {[id r]} ∪ list_to_set (map id store).
Proof.
  unfold unique_ids, insert_or_replace. intros Hnd. split.
  - rewrite map_app. apply NoDup_app. split; [|split].
    + induction store as [|x st IH]; [constructor|].
      cbn in Hnd. apply NoDup_cons in Hnd as [Hx Hnd].
      rewrite filter_cons. destruct (decide _); [|auto].
      cbn. apply NoDup_cons. split; [|auto].
      intros Hin. apply Hx. apply list_elem_of_fmap in Hin as (y & -> & Hy).
      apply list_elem_of_filter in Hy as [_ Hy]. apply list_elem_of_fmap. eauto.
    + intros x Hx Hx'. apply list_elem_of_fmap in Hx as (y & -> & Hy).
      apply list_elem_of_filter in Hy as [Hne _]. cbn in Hx'. apply list_elem_of_singleton in Hx'. contradiction.
    + cbn. apply NoDup_singleton.
  - apply set_eq. intros x. rewrite map_app, list_to_set_app_L. 
    rewrite !elem_of_union, !elem_of_list_to_set. cbn. rewrite elem_of_singleton, list_elem_of_singleton.
    rewrite !list_elem_of_fmap. split.
    + intros [(y & -> & Hy) | ->]; [|auto]. apply list_elem_of_filter in Hy as [_ Hy]. eauto.
    + intros [-> | (y & -> & Hy)]; [auto|]. destruct (decide (id y = id r)) as [->|Hne]; [auto|].
      left. exists y. split; [reflexivity|]. apply list_elem_of_filter. auto.
Qed.

Lemma ids_batch (batch : list (Z * Parser.CodeSnippet))
    (store : MetadataStore) :
  unique_ids store ->
  unique_ids (add_snippets_batch batch store) /\
  (list_to_set (map id (add_snippets_batch batch store)) : gset Z)
  = distinct_ids store batch.
Proof.
  revert store. unfold distinct_ids.
  induction batch as [|[j s] batch IH]; intros store Hnd.
  - cbn. rewrite app_nil_r. auto.
  - cbn. destruct (ids_insert (row_of j s) store Hnd) as [Hnd' Hset].
    destruct (IH _ Hnd') as [Hnd'' Hset'']. split; [exact Hnd''|].
    unfold add_snippets_batch in Hset''. rewrite Hset''.
    rewrite !list_to_set_app_L, Hset. cbn.
    rewrite (assoc_L (∪)). f_equal. apply (comm_L (∪)).
Qed.

Lemma add_snippets_batch_app (b1 b2 : list (Z * Parser.CodeSnippet))
    (store : MetadataStore) :
  add_snippets_batch b2 (add_snippets_batch b1 store)
  = add_snippets_batch (b1 ++ b2) store.
Proof. unfold add_snippets_batch. rewrite fold_left_app. reflexivity. Qed.

(** In two batches written one after the other, the second one's write
    for an ID overrides the first one's. *)
Lemma last_write_app (i : Z) (b1 b2 : list (Z * Parser.CodeSnippet)) :
  last_write i (b1 ++ b2)
  = match last_write i b2 with
    | Some s => Some s
    | None => last_write i b1
    end.
Proof.
  induction b1 as [|p b1 IH]; cbn.
  - destruct (last_write i b2); reflexivity.
  - rewrite IH. destruct (last_write i b2); reflexivity.
Qed.

Lemma last_write_is_Some (i : Z) (batch : list (Z * Parser.CodeSnippet)) :
  i ∈ map fst batch -> is_Some (last_write i batch).
Proof.
  induction batch as [|p batch IH]; cbn.
  - intros H. apply elem_of_nil in H. contradiction.
  - intros H. apply elem_of_cons in H as [->|H].
    + destruct (last_write (fst p) batch); [eauto|].
      rewrite decide_True by reflexivity. eauto.
    + destruct (IH H) as [s ->]. eauto.
Qed.

(** [last_write] finds nothing exactly when no tuple has the key. *)
Lemma last_write_None (i : Z) (batch : list (Z * Parser.CodeSnippet)) :
  last_write i batch = None -> forall p, p ∈ batch -> fst p <> i.
Proof.
  induction batch as [|q batch IH]; cbn; intros Hn p Hp.
  - apply elem_of_nil in Hp. contradiction.
  - destruct (last_write i batch) as [s|]; [discriminate|].
    destruct (decide (fst q = i)) as [|Hne]; [discriminate|].
    apply elem_of_cons in Hp as [->|Hp]; [exact Hne|].
    apply IH; [reflexivity|exact Hp].
Qed.

(** What [last_write] finds is the snippet of a tuple with the key after
    which no tuple has the key. *)
Lemma last_write_Some (i : Z) (batch : list (Z * Parser.CodeSnippet))
    (s : Parser.CodeSnippet) :
  last_write i batch = Some s ->
  exists k : nat,
    batch !! k = Some (i, s) /\
    forall (k' : nat) p, (k < k')%nat -> batch !! k' = Some p -> fst p <> i.
Proof.
  revert s. induction batch as [|[j s0] batch IH]; cbn; intros s Hs;
    [discriminate|].
  destruct (last_write i batch) as [s'|] eqn:Hl.
  - injection Hs as ->. destruct (IH s eq_refl) as (k & Hk & Hlater).
    exists (S k). split; [exact Hk|].
    intros k' p Hlt Hp. destruct k' as [|k']; [lia|].
    apply (Hlater k' p); [lia|exact Hp].
  - destruct (decide (j = i)) as [->|]; [|discriminate].
    injection Hs as ->. exists 0%nat. split; [reflexivity|].
    intros k' p Hlt Hp. destruct k' as [|k']; [lia|].
    cbn in Hp. apply list_elem_of_lookup_2 in Hp.
    apply (last_write_None i batch Hl p Hp).
Qed.

(** C9: after two batches, written one after the other into a store that
    respects its primary key, every written ID has exactly one row; this
    row carries the ID and the six fields (code, file path, start line,
    end line, language, function name) of the snippet of the last tuple
    with this ID, the tuples of the second batch counting as later than
    those of the first; the rows of other IDs are as before; and [count]
    is the number of distinct IDs. *)
Theorem upsert_many_last_write_wins
    (store : MetadataStore) (b1 b2 : list (Z * Parser.CodeSnippet)) :
  unique_ids store ->
  let st := add_snippets_batch b2 (add_snippets_batch b1 store) in
  unique_ids st /\
  (forall i, i ∈ map fst (b1 ++ b2) ->
     exists s,
       match last_write i b2 with
       | Some s2 => Some s2
       | None => last_write i b1
       end = Some s /\
       (exists k : nat,
          (b1 ++ b2) !! k = Some (i, s) /\
          forall (k' : nat) p,
            (k < k')%nat -> (b1 ++ b2) !! k' = Some p -> fst p <> i) /\
       filter (fun r => id r = i) st
       = [mkRow i (Parser.code s) (Parser.file_path s)
                (Parser.start_line s) (Parser.end_line s)
                (Parser.language s) (Parser.function_name s)] /\
       get_snippet i st
       = Some (mkRow i (Parser.code s) (Parser.file_path s)
                     (Parser.start_line s) (Parser.end_line s)
                     (Parser.language s) (Parser.function_name s))) /\
  (forall i, i ∉ map fst (b1 ++ b2) ->
     filter (fun r => id r = i) st = filter (fun r => id r = i) store) /\
  count st = Z.of_nat (size (distinct_ids store (b1 ++ b2))).
Proof.
  intros Hnd st. subst st. rewrite add_snippets_batch_app.
  destruct (ids_batch (b1 ++ b2) store Hnd) as [Hnd' Hset].
  split; [exact Hnd'|]. split; [|split].
  - intros i Hi. destruct (last_write_is_Some i _ Hi) as [s Hs].
    exists s. rewrite <- last_write_app. split; [exact Hs|].
    split; [apply last_write_Some, Hs|].
    unfold get_snippet. rewrite filter_id_batch, Hs. auto.
  - intros i Hi. rewrite filter_id_batch.
    destruct (last_write i (b1 ++ b2)) as [s|] eqn:Hs; [|reflexivity].
    exfalso. apply Hi. clear -Hs.
    induction (b1 ++ b2) as [|p l IH]; [discriminate|].
    cbn in *. destruct (last_write i l).
    + apply elem_of_cons. right. apply IH. exact Hs.
    + destruct (decide (fst p = i)) as [<-|]; [|discriminate].
      apply elem_of_cons. left. reflexivity.
  - unfold count. rewrite <- Hset, size_list_to_set by exact Hnd'.
    rewrite length_map. reflexivity.
Qed.

Lemma upsert_many_last_write_wins_witness :
  let a := Parser.mkSnippet "def f(): pass" "a.py" 1 1 "python" None in
  let b := Parser.mkSnippet "def g(): pass" "b.py" 3 4 "python" (Some "g"%string) in
  let c := Parser.mkSnippet "def h(): pass" "a.py" 1 2 "python" (Some "h"%string) in
  let st := add_snippets_batch [(7, c)] (add_snippets_batch [(7, a); (8, b)] empty) in
  get_snippet 7 st
  = Some (mkRow 7 "def h(): pass" "a.py" 1 2 "python" (Some "h"%string)) /\
  get_snippet 8 st
  = Some (mkRow 8 "def g(): pass" "b.py" 3 4 "python" (Some "g"%string)) /\
  count st = 2 /\
  unique_ids st.
Proof.
  intros a b c st.
  split; [reflexivity|]. split; [reflexivity|]. split; [reflexivity|].
  apply (upsert_many_last_write_wins empty [(7, a); (8, b)] [(7, c)]).
  constructor.
Defined.

End MetadataFacts.

(** ** Hydration, sorting and the searcher *)

Module SearchFacts.
Import Vec MetricConverter Search.

(** *** The stable descending sort *)

Lemma insert_desc_perm (c : CloneMatch) (l : list CloneMatch) :
  insert_desc c l ≡ₚ c :: l.
Proof.
  induction l as [|y ys IH]; simpl; [reflexivity|].
  destruct (Rlt_dec (similarity c) (similarity y)); [|reflexivity].
  rewrite IH. apply Permutation_swap.
Qed.

Lemma sort_perm (l : list CloneMatch) : sort_by_similarity_desc l ≡ₚ l.
Proof.
  induction l as [|c l IH]; simpl; [reflexivity|].
  rewrite insert_desc_perm, IH. reflexivity.
Qed.

Lemma insert_desc_sorted (c : CloneMatch) (l : list CloneMatch) :
  StronglySorted desc l -> StronglySorted desc (insert_desc c l).
Proof.
  induction l as [|y ys IH]; simpl; intros Hs.
  - repeat constructor.
  - apply StronglySorted_inv in Hs as [Hys Hall].
    destruct (Rlt_dec (similarity c) (similarity y)) as [Hlt|Hge].
    + constructor; [apply IH, Hys|].
      rewrite insert_desc_perm. constructor; [unfold desc; lra|exact Hall].
    + constructor; [constructor; assumption|].
      constructor; [unfold desc; lra|].
      eapply Forall_impl; [exact Hall|].
      unfold desc. intros z Hz. lra.
Qed.

Lemma sort_sorted (l : list CloneMatch) :
  StronglySorted desc (sort_by_similarity_desc l).
Proof.
  induction l as [|c l IH]; simpl; [constructor|].
  apply insert_desc_sorted, IH.
Qed.

(** Insertion passes only over matches of a strictly greater similarity, so
    it does not reorder the matches of any one similarity. *)
Lemma ties_insert_desc (s : R) (c : CloneMatch) (l : list CloneMatch) :
  ties s (insert_desc c l) = ties s (c :: l).
Proof.
  unfold ties. induction l as [|y ys IH]; simpl; [reflexivity|].
  destruct (Rlt_dec (similarity c) (similarity y)) as [Hlt|Hge];
    [|reflexivity].
  rewrite (filter_cons _ y), IH, !(filter_cons _ c), (filter_cons _ y).
  destruct (decide (similarity c = s)) as [Hc|Hc];
    destruct (decide (similarity y = s)) as [Hy|Hy]; try reflexivity.
  exfalso. lra.
Qed.

Lemma ties_sort (s : R) (l : list CloneMatch) :
  ties s (sort_by_similarity_desc l) = ties s l.
Proof.
  induction l as [|c l IH]; simpl; [reflexivity|].
  rewrite ties_insert_desc. unfold ties in *.
  rewrite !(filter_cons _ c), IH. reflexivity.
Qed.

(** *** Truncation *)

Lemma apply_max_results_prefix (mr : option Z) (l : list CloneMatch) :
  apply_max_results mr l `prefix_of` l.
Proof.
  unfold apply_max_results, slice_to.
  destruct mr as [k|]; [|reflexivity].
  destruct (k =? 0)%Z; [reflexivity|].
  destruct (0 <=? k)%Z; apply prefix_take.
Qed.

Lemma ties_prefix (s : R) (l1 l2 : list CloneMatch) :
  l1 `prefix_of` l2 -> ties s l1 `prefix_of` ties s l2.
Proof.
  intros [k ->]. unfold ties. rewrite filter_app. apply prefix_app_r.
  reflexivity.
Qed.

Lemma prefix_elem_of (c : CloneMatch) (l1 l2 : list CloneMatch) :
  l1 `prefix_of` l2 -> c ∈ l1 -> c ∈ l2.
Proof. intros [k ->] Hc. apply elem_of_app. left. exact Hc. Qed.

Lemma prefix_sorted (l1 l2 : list CloneMatch) :
  l1 `prefix_of` l2 -> StronglySorted desc l2 -> StronglySorted desc l1.
Proof.
  intros [k ->]. revert k. induction l1 as [|c l1 IH]; intros k Hs.
  - constructor.
  - simpl in Hs. apply StronglySorted_inv in Hs as [Hs Hall].
    constructor; [eapply IH, Hs|].
    apply Forall_app in Hall as [Hall _]. exact Hall.
Qed.

(** *** Hydration *)

Lemma is_self_match_false (s : R) :
  is_self_match s = false -> s < self_match_cutoff.
Proof.
  unfold is_self_match.
  destruct (Rle_dec self_match_cutoff s); [discriminate|].
  intros _. apply Rnot_le_lt. assumption.
Qed.

Lemma hydrate_one_Some (mp : gmap Z Metadata.Row) (ex : bool)
    (i : Z) (s : R) (c : CloneMatch) :
  hydrate_one mp ex (i, s) = Some c ->
  snippet_id c = i /\ similarity c = s /\
  (ex = true -> s < self_match_cutoff).
Proof.
  unfold hydrate_one. destruct (mp !! i) as [md|]; [|discriminate].
  destruct ex; simpl.
  - destruct (is_self_match s) eqn:Hs; [discriminate|].
    intros [= <-]. simpl. auto using is_self_match_false.
  - intros [= <-]. simpl. repeat split. discriminate.
Qed.


(** With exclusion on, hydration keeps no match at or above the cutoff. *)
Lemma hydrate_results_excluded (store : Metadata.MetadataStore)
    (ids : list Z) (sims : list R) (c : CloneMatch) :
  c ∈ _hydrate_results store ids sims true ->
  similarity c < self_match_cutoff.
Proof.
  unfold _hydrate_results. destruct ids as [|i0 ids'].
  - intros H. apply elem_of_nil in H. contradiction.
  - intros H. apply list_elem_of_omap in H as ([i s] & _ & Hc).
    apply hydrate_one_Some in Hc as (_ & <- & Hlt). auto.
Qed.



(** *** [find_clones] and [find_clones_batch], step by step *)

Section SearchSteps.

Variables fl64 fl32 : R -> R.

Lemma find_clones_inv (self : CloneSearcher) (q : string) (t : R)
    (mr : option Z) (ex : bool) (res : list CloneMatch) :
  find_clones fl64 fl32 self q t mr ex = Ok res ->
  exists v radius hits,
    embed_single (embedder self) q = Ok v /\
    cosine_to_l2_threshold fl64 t = Ok radius /\
    hits_of_query fl32
      (range_search (index self) (normalize_L2 [v]) radius) 0
      = Ok hits /\
    res = apply_max_results mr
            (sort_by_similarity_desc
               (_hydrate_results (metadata_store self) (fst hits) (snd hits)
                                 ex)).
Proof.
  unfold find_clones.
  destruct (embed_single (embedder self) q) as [v|e]; [|discriminate].
  cbn. destruct (cosine_to_l2_threshold fl64 t) as [radius|e];
    [|discriminate].
  cbn. destruct (hits_of_query _ _ 0) as [hits|e] eqn:Hh; [|discriminate].
  cbn. intros [= <-]. exists v, radius, hits. auto.
Qed.

Lemma batch_loop_inv (self : CloneSearcher) (rr : Faiss.RangeResult)
    (count i : nat) (results : list (list CloneMatch)) :
  batch_loop fl32 self rr i count = Ok results ->
  length results = count /\
  forall k res, results !! k = Some res ->
    exists hits,
      hits_of_query fl32 rr (i + k) = Ok hits /\
      res = sort_by_similarity_desc
              (_hydrate_results (metadata_store self) (fst hits) (snd hits)
                                true).
Proof.
  revert i results. induction count as [|count IH]; intros i results; simpl.
  - intros [= <-]. split; [reflexivity|]. intros k res Hk.
    rewrite lookup_nil in Hk. discriminate.
  - destruct (hits_of_query fl32 rr i) as [hits|e] eqn:Hh; [|discriminate].
    cbn. destruct (batch_loop fl32 self rr (S i) count) as [rest|e] eqn:Hrest;
      [|discriminate].
    cbn. intros [= <-]. destruct (IH _ _ Hrest) as [Hlen Hall].
    split; [simpl; congruence|].
    intros [|k] res Hk; simpl in Hk.
    + injection Hk as <-. exists hits. rewrite Nat.add_0_r. auto.
    + destruct (Hall k res Hk) as (hits' & Hh' & Hres).
      exists hits'. rewrite <- Nat.add_succ_comm. auto.
Qed.

Lemma find_clones_batch_inv (self : CloneSearcher) (qs : list string)
    (t : R) (results : list (list CloneMatch)) :
  qs <> [] ->
  find_clones_batch fl64 fl32 self qs t = Ok results ->
  exists radius,
    cosine_to_l2_threshold fl64 t = Ok radius /\
    batch_loop fl32 self
      (range_search (index self)
         (normalize_L2 (embed_batch (embedder self) qs)) radius)
      0 (length qs) = Ok results.
Proof.
  intros Hne. unfold find_clones_batch. destruct qs as [|q qs']; [congruence|].
  destruct (cosine_to_l2_threshold fl64 t) as [radius|e]; [|discriminate].
  cbn [mbind Result_bind]. intros H. exists radius. auto.
Qed.

Lemma hits_of_query_ok (rr : Faiss.RangeResult) (i : nat) :
  (S i < length (Faiss.lims rr))%nat ->
  is_ok (hits_of_query fl32 rr i) = true.
Proof.
  intros Hlen. unfold hits_of_query, lims_at.
  destruct (Faiss.lims rr !! i) as [a|] eqn:Ha.
  - cbn [mbind Result_bind]. rewrite Nat.add_1_r.
    destruct (Faiss.lims rr !! S i) as [b|] eqn:Hb; [reflexivity|].
    apply lookup_ge_None in Hb. lia.
  - apply lookup_ge_None in Ha. lia.
Qed.

Lemma batch_loop_ok (self : CloneSearcher) (rr : Faiss.RangeResult)
    (count i : nat) :
  (i + count < length (Faiss.lims rr))%nat ->
  is_ok (batch_loop fl32 self rr i count) = true.
Proof.
  revert i. induction count as [|count IH]; intros i Hlen; [reflexivity|].
  simpl. pose proof (hits_of_query_ok rr i) as Hq.
  destruct (hits_of_query fl32 rr i) as [hits|e]; [|apply Hq; lia].
  cbn [mbind Result_bind]. specialize (IH (S i)).
  destruct (batch_loop fl32 self rr (S i) count) as [rest|e]; [reflexivity|].
  apply IH. lia.
Qed.

End SearchSteps.

(** The exact backend answers every query: [lims] has one entry more than
    there are queries. *)
Lemma length_lims_range_search_from (ix : Faiss.Index) (start : nat)
    (qs : list vector) (radius : R) :
  length (Faiss.lims (Faiss.range_search_from ix start qs radius))
  = S (length qs).
Proof.
  revert start. induction qs as [|q0 qs IH]; intros start; simpl;
    [reflexivity|].
  rewrite IH. reflexivity.
Qed.

(** *** The exact backend, query by query *)

Lemma lims_head (ix : Faiss.Index) (s : nat) (qs : list vector) (radius : R) :
  Faiss.lims (Faiss.range_search_from ix s qs radius) !! 0%nat = Some s.
Proof. destruct qs; reflexivity. Qed.

Lemma range_search_from_slices (ix : Faiss.Index) (radius : R)
    (qs : list vector) (s k : nat) (q : vector) :
  qs !! k = Some q ->
  exists off,
    Faiss.lims (Faiss.range_search_from ix s qs radius) !! k
    = Some (s + off)%nat /\
    Faiss.lims (Faiss.range_search_from ix s qs radius) !! S k
    = Some (s + off + length (Faiss.hits_of ix q radius))%nat /\
    take (length (Faiss.hits_of ix q radius))
         (drop off (Faiss.distances (Faiss.range_search_from ix s qs radius)))
    = map snd (Faiss.hits_of ix q radius) /\
    take (length (Faiss.hits_of ix q radius))
         (drop off (Faiss.labels (Faiss.range_search_from ix s qs radius)))
    = map fst (Faiss.hits_of ix q radius).
Proof.
  revert s k. induction qs as [|q0 qs IH]; intros s k Hk; [discriminate|].
  destruct k as [|k]; simpl in Hk.
  - injection Hk as ->. exists 0%nat. simpl.
    rewrite Nat.add_0_r, lims_head. repeat split.
    + rewrite <- (length_map snd). apply take_app_length.
    + rewrite <- (length_map fst). apply take_app_length.
  - destruct (IH (s + length (Faiss.hits_of ix q0 radius))%nat k Hk)
      as (off & H1 & H2 & H3 & H4).
    exists (length (Faiss.hits_of ix q0 radius) + off)%nat. simpl.
    rewrite H1, H2. repeat split.
    + f_equal. lia.
    + f_equal. lia.
    + replace (length (Faiss.hits_of ix q0 radius) + off)%nat
        with (length (map snd (Faiss.hits_of ix q0 radius)) + off)%nat
        by (rewrite length_map; reflexivity).
      rewrite drop_app_add. exact H3.
    + replace (length (Faiss.hits_of ix q0 radius) + off)%nat
        with (length (map fst (Faiss.hits_of ix q0 radius)) + off)%nat
        by (rewrite length_map; reflexivity).
      rewrite drop_app_add. exact H4.
Qed.

(** The slices the searcher cuts for query [k] are the hits of query
    [k]. *)
Lemma hits_of_query_exact (fl32 : R -> R) (ix : Faiss.Index) (radius : R)
    (qs : list vector) (k : nat) (q : vector) :
  qs !! k = Some q ->
  hits_of_query fl32 (Faiss.range_search ix qs radius) k
  = Ok (map fst (Faiss.hits_of ix q radius),
        map (l2_to_cosine_similarity fl32)
            (map snd (Faiss.hits_of ix q radius))).
Proof.
  intros Hk. unfold Faiss.range_search.
  destruct (range_search_from_slices ix radius qs 0 k q Hk)
    as (off & H1 & H2 & H3 & H4).
  unfold hits_of_query, lims_at. rewrite H1. cbn [mbind Result_bind].
  rewrite Nat.add_1_r, H2. cbn [mbind Result_bind]. unfold slice.
  replace (0 + off + length (Faiss.hits_of ix q radius) - (0 + off))%nat
    with (length (Faiss.hits_of ix q radius)) by lia.
  simpl. rewrite H3, H4. reflexivity.
Qed.

(** An entry is a hit exactly when its squared distance to the query is
    below the radius. *)
Lemma elem_of_hits_of (ix : Faiss.Index) (q : vector) (radius : R)
    (i : Z) (dist : R) :
  (i, dist) ∈ Faiss.hits_of ix q radius <->
  exists w, (i, w) ∈ Faiss.entries ix /\ dist = sqdist q w /\ dist < radius.
Proof.
  unfold Faiss.hits_of. rewrite list_elem_of_omap. split.
  - intros ([j w] & Hin & Hf). simpl in Hf.
    destruct (Rlt_dec _ _) as [Hlt|]; [|discriminate].
    injection Hf as <- <-. eauto.
  - intros (w & Hin & -> & Hlt). exists (i, w). split; [exact Hin|].
    simpl. destruct (Rlt_dec _ _); [reflexivity|contradiction].
Qed.




(** *** The sample searcher, evaluated without rounding *)

Section SampleRuns.
Import Samples.

Lemma sample_query_row : normalize_row [1; 0] = [/ 1 * 1; / 1 * 0].
Proof.
  assert (Hn : norm [1; 0] = 1).
  { unfold norm. simpl. replace (1 * 1 + (0 * 0 + 0)) with 1 by ring.
    apply sqrt_1. }
  unfold normalize_row. rewrite Hn.
  destruct (Rlt_dec 0 1) as [_|n]; [reflexivity|exfalso; lra].
Qed.

Lemma sample_query_row_val : normalize_row [1; 0] = [1; 0].
Proof. rewrite sample_query_row. repeat f_equal; field. Qed.

Lemma sample_distance_same : sqdist (normalize_row [1; 0]) [1; 0] = 0.
Proof. rewrite sample_query_row. simpl. field. Qed.

Lemma sample_distance_other :
  sqdist (normalize_row [1; 0]) [3 / 5; 4 / 5] = 4 / 5.
Proof. rewrite sample_query_row. simpl. field. Qed.

Lemma sim_same_val : sim_same = 1.
Proof. unfold sim_same, l2_to_cosine_similarity, exact_arithmetic. field. Qed.

Lemma sim_other_val : sim_other = 17 / 25.
Proof. unfold sim_other, l2_to_cosine_similarity, exact_arithmetic. field. Qed.

Lemma sqrt_2_gt_1 : 1 < sqrt 2.
Proof. rewrite <- sqrt_1 at 1. apply sqrt_lt_1_alt. lra. Qed.

Lemma sample_lookup (i : Z) :
  metadata_map_of (Metadata.get_snippets [7; 3; 9]%Z sample_store) !! i
  = if decide (i = 7%Z) then Some (Metadata.row_of 7 snippet_f)
    else if decide (i = 3%Z) then Some (Metadata.row_of 3 snippet_g)
    else if decide (i = 9%Z) then Some (Metadata.row_of 9 snippet_h)
    else None.
Proof.
  replace (metadata_map_of _) with
    (<[9%Z := Metadata.row_of 9 snippet_h]>
       (<[3%Z := Metadata.row_of 3 snippet_g]>
          (<[7%Z := Metadata.row_of 7 snippet_f]> (∅ : gmap Z Metadata.Row))))
    by (vm_compute; reflexivity).
  repeat case_decide; subst; simplify_map_eq; reflexivity.
Qed.

Lemma sample_radius : cosine_to_l2_threshold exact_arithmetic 0 = Ok (sqrt 2).
Proof.
  rewrite cosine_to_l2_threshold_exact by lra. do 2 f_equal. ring.
Qed.


Lemma sample_hits_of :
  Faiss.hits_of sample_index (normalize_row [1; 0]) (sqrt 2)
  = [(7%Z, 0); (3%Z, 0); (9%Z, 4 / 5)].
Proof.
  pose proof sqrt_2_gt_1 as Hs.
  unfold Faiss.hits_of. simpl.
  rewrite sample_distance_same, sample_distance_other.
  destruct (Rlt_dec 0 (sqrt 2)) as [_|n]; [|exfalso; lra].
  destruct (Rlt_dec (4 / 5) (sqrt 2)) as [_|n]; [|exfalso; lra].
  reflexivity.
Qed.


Lemma sample_range_1 :
  range_search (index sample_searcher) (normalize_L2 [[1; 0]]) (sqrt 2)
  = Faiss.mkRange [0; 3]%nat [0; 0; 4 / 5] [7; 3; 9]%Z.
Proof.
  unfold sample_searcher, handle_of, range_search, index, Faiss.range_search.
  simpl. rewrite sample_hits_of. reflexivity.
Qed.

Lemma sample_range_2 :
  range_search (index sample_searcher) (normalize_L2 [[1; 0]; [1; 0]])
               (sqrt 2)
  = Faiss.mkRange [0; 3; 6]%nat [0; 0; 4 / 5; 0; 0; 4 / 5]
                  [7; 3; 9; 7; 3; 9]%Z.
Proof.
  unfold sample_searcher, handle_of, range_search, index, Faiss.range_search.
  simpl. rewrite sample_hits_of. reflexivity.
Qed.


Lemma sample_hydrate (ex : bool) :
  _hydrate_results sample_store [7; 3; 9]%Z [sim_same; sim_same; sim_other] ex
  = if ex then [match_9 sim_other]
    else [match_7 sim_same; match_3 sim_same; match_9 sim_other].
Proof.
  unfold _hydrate_results. cbv zeta.
  pose proof sample_lookup as Hl.
  set (mp := metadata_map_of _) in *.
  cbn [combine omap list_omap hydrate_one]. rewrite !Hl. cbn [decide].
  repeat (rewrite decide_True by reflexivity || rewrite decide_False by discriminate).
  unfold is_self_match. rewrite sim_same_val, sim_other_val.
  unfold self_match_cutoff.
  destruct (Rle_dec (9999 / 10000) 1) as [_|n]; [|exfalso; lra].
  destruct (Rle_dec (9999 / 10000) (17 / 25)) as [H|_]; [exfalso; lra|].
  destruct ex; reflexivity.
Qed.

Lemma sample_sort_all :
  sort_by_similarity_desc [match_7 sim_same; match_3 sim_same; match_9 sim_other] = [match_7 sim_same; match_3 sim_same; match_9 sim_other].
Proof.
  pose proof sim_same_val as Hs. pose proof sim_other_val as Ho.
  unfold sort_by_similarity_desc. cbn.
  destruct (Rlt_dec sim_same sim_other) as [Hlt|_]; [exfalso; lra|].
  cbn.
  destruct (Rlt_dec sim_same sim_same) as [Hlt|_]; [exfalso; lra|].
  reflexivity.
Qed.

Lemma sample_find_clones (ex : bool) :
  find_clones exact_arithmetic exact_arithmetic sample_searcher "q" 0 None ex
  = Ok (if ex then [match_9 sim_other]
        else [match_7 sim_same; match_3 sim_same; match_9 sim_other]).
Proof.
  unfold find_clones.
  replace (embed_single (embedder sample_searcher) "q") with (Ok [1; 0])
    by reflexivity.
  cbn [mbind Result_bind]. rewrite sample_radius.
  cbn [mbind Result_bind]. cbv zeta. rewrite sample_range_1.
  replace (hits_of_query _ _ 0)
    with (Ok ([7; 3; 9]%Z, [sim_same; sim_same; sim_other]))
    by reflexivity.
  cbn [mbind Result_bind fst snd metadata_store sample_searcher].
  rewrite sample_hydrate. destruct ex; [reflexivity|].
  rewrite sample_sort_all. reflexivity.
Qed.


Lemma sample_find_clones_batch :
  find_clones_batch exact_arithmetic exact_arithmetic sample_searcher
                    ["a"; "b"]%string 0
  = Ok [[match_9 sim_other]; [match_9 sim_other]].
Proof.
  unfold find_clones_batch. rewrite sample_radius.
  cbn [mbind Result_bind]. cbv zeta.
  replace (embed_batch (embedder sample_searcher) ["a"; "b"]%string)
    with [[1; 0]; [1; 0]] by reflexivity.
  rewrite sample_range_2. cbn [length batch_loop].
  replace (hits_of_query _ _ 0)
    with (Ok ([7; 3; 9]%Z, [sim_same; sim_same; sim_other]))
    by reflexivity.
  replace (hits_of_query _ _ 1)
    with (Ok ([7; 3; 9]%Z, [sim_same; sim_same; sim_other]))
    by reflexivity.
  cbn [mbind Result_bind fst snd metadata_store sample_searcher].
  rewrite sample_hydrate. reflexivity.
Qed.


End SampleRuns.

(** *** Self-match exclusion *)




(** C10: [find_clones_batch] has no switch for the exclusion: for a
    non-empty list of queries it returns one list per query, none of which
    holds a match with a similarity of [0.9999] or more; and it does return
    for a threshold in [[0, 1]] when the index answers every query. *)
Theorem batch_always_excludes_self_matches (fl64 fl32 : R -> R)
    (self : CloneSearcher) (qs : list string) (t : R) :
  qs <> [] ->
  (forall results,
     find_clones_batch fl64 fl32 self qs t = Ok results ->
     length results = length qs /\
     forall res c,
       res ∈ results -> c ∈ res -> similarity c < self_match_cutoff) /\
  (0 <= t <= 1 ->
   (forall radius,
      length (Faiss.lims
                (range_search (index self)
                   (normalize_L2 (embed_batch (embedder self) qs)) radius))
      = S (length qs)) ->
   is_ok (find_clones_batch fl64 fl32 self qs t) = true).
Proof.
  intros Hne. split.
  - intros results Hb.
    apply find_clones_batch_inv in Hb as (radius & _ & Hloop); [|exact Hne].
    apply batch_loop_inv in Hloop as [Hlen Hall].
    split; [exact Hlen|].
    intros res c Hres Hc.
    apply list_elem_of_lookup in Hres as [k Hk].
    destruct (Hall k res Hk) as (hits & _ & ->).
    rewrite sort_perm in Hc. eapply hydrate_results_excluded, Hc.
  - intros Ht Hlims. unfold find_clones_batch.
    destruct qs as [|q0 qs']; [congruence|].
    rewrite cosine_to_l2_threshold_in_range by exact Ht.
    cbn [mbind Result_bind]. apply batch_loop_ok. rewrite Hlims. lia.
Qed.

Lemma batch_always_excludes_self_matches_witness :
  (length [[Samples.match_9 Samples.sim_other];
           [Samples.match_9 Samples.sim_other]] = 2%nat /\
   forall res c,
     res ∈ [[Samples.match_9 Samples.sim_other];
            [Samples.match_9 Samples.sim_other]] ->
     c ∈ res -> similarity c < self_match_cutoff) /\
  is_ok (find_clones_batch exact_arithmetic exact_arithmetic
           Samples.sample_searcher ["a"; "b"]%string 0)
  = true.
Proof.
  split.
  - apply (batch_always_excludes_self_matches exact_arithmetic
             exact_arithmetic Samples.sample_searcher ["a"; "b"]%string 0).
    + discriminate.
    + apply sample_find_clones_batch.
  - apply (batch_always_excludes_self_matches exact_arithmetic
             exact_arithmetic Samples.sample_searcher ["a"; "b"]%string 0).
    + discriminate.
    + lra.
    + intros radius. apply length_lims_range_search_from.
Defined.

(** *** Order of the results *)

(** C8, as the code has it: every result list of [find_clones] and every
    per-query list of [find_clones_batch] is sorted by similarity,
    descending, and the matches of any one similarity stand in the order in
    which hydration produced them, which is the order of the index's hits
    (for [find_clones], up to the cut at [max_results]); the snippet ID
    plays no part. *)
Theorem results_sorted_ties_in_hit_order (fl64 fl32 : R -> R)
    (self : CloneSearcher) :
  (forall q t mr ex res,
     find_clones fl64 fl32 self q t mr ex = Ok res ->
     StronglySorted desc res /\
     exists v radius hits,
       embed_single (embedder self) q = Ok v /\
       cosine_to_l2_threshold fl64 t = Ok radius /\
       hits_of_query fl32
         (range_search (index self) (normalize_L2 [v]) radius) 0
         = Ok hits /\
       forall s,
         ties s res `prefix_of`
         ties s (_hydrate_results (metadata_store self) (fst hits)
                                  (snd hits) ex)) /\
  (forall qs t results,
     find_clones_batch fl64 fl32 self qs t = Ok results ->
     forall k res,
       results !! k = Some res ->
       StronglySorted desc res /\
       exists radius hits,
         cosine_to_l2_threshold fl64 t = Ok radius /\
         hits_of_query fl32
           (range_search (index self)
              (normalize_L2 (embed_batch (embedder self) qs)) radius) k
           = Ok hits /\
         forall s,
           ties s res
           = ties s (_hydrate_results (metadata_store self) (fst hits)
                                      (snd hits) true)).
Proof.
  split.
  - intros q t mr ex res Hfc.
    apply find_clones_inv in Hfc as (v & radius & hits & Hv & Hr & Hh & ->).
    pose proof (apply_max_results_prefix mr
                  (sort_by_similarity_desc
                     (_hydrate_results (metadata_store self) (fst hits)
                                       (snd hits) ex))) as Hp.
    split; [eapply prefix_sorted; [exact Hp|apply sort_sorted]|].
    exists v, radius, hits. repeat (split; [assumption|]).
    intros s. rewrite <- (ties_sort s (_hydrate_results _ _ _ _)).
    apply ties_prefix, Hp.
  - intros qs t results Hb k res Hk.
    destruct qs as [|q0 qs'].
    { injection Hb as <-. rewrite lookup_nil in Hk. discriminate. }
    apply find_clones_batch_inv in Hb as (radius & Hr & Hloop);
      [|discriminate].
    apply batch_loop_inv in Hloop as [_ Hall].
    destruct (Hall k res Hk) as (hits & Hh & ->).
    split; [apply sort_sorted|].
    exists radius, hits. repeat (split; [assumption|]).
    intros s. apply ties_sort.
Qed.

Lemma results_sorted_ties_in_hit_order_witness :
  StronglySorted desc
    [Samples.match_7 Samples.sim_same; Samples.match_3 Samples.sim_same;
     Samples.match_9 Samples.sim_other] /\
  StronglySorted desc [Samples.match_9 Samples.sim_other].
Proof.
  split.
  - apply (proj1 (results_sorted_ties_in_hit_order exact_arithmetic
                    exact_arithmetic Samples.sample_searcher)
             "q"%string 0 None false).
    apply (sample_find_clones false).
  - apply (proj2 (results_sorted_ties_in_hit_order exact_arithmetic
                    exact_arithmetic Samples.sample_searcher)
             ["a"; "b"]%string 0 _ sample_find_clones_batch 1%nat).
    reflexivity.
Defined.

(** C8 as stated fails: the sample index (an index [build] returns, see
    [sample_index_built]) holds the query's vector under the IDs 7 and 3,
    added in this order; both matches have the same similarity, and 7 comes
    before 3 in the result. *)
Lemma ties_not_by_id_ascending :
  exists res,
    find_clones exact_arithmetic exact_arithmetic Samples.sample_searcher
                "q" 0 None false = Ok res /\
    StronglySorted desc res /\
    ~ ties_by_id_ascending res.
Proof.
  eexists. split; [apply (sample_find_clones false)|]. split.
  - pose proof sim_same_val. pose proof sim_other_val.
    repeat constructor; unfold desc; simpl; lra.
  - intros H.
    specialize (H 0%nat 1%nat (Samples.match_7 Samples.sim_same)
                  (Samples.match_3 Samples.sim_same)).
    simpl in H. assert (7 <= 3)%Z by (apply H; auto; lia). lia.
Qed.

End SearchFacts.

(** ** The exact backend: range search by converted threshold *)

Module ExactSearchFacts.
Import Vec MetricConverter Builder BuilderFacts.

(** [build] on a new exact-backend builder: the index it returns holds the
    normalised vectors under their IDs, in the order given. *)
Lemma build_flat (gpu : bool) (dim nl mm nb np : Z) (ug : bool)
    (vectors : list vector) (ids : list Z) :
  Forall (fun v => Z.of_nat (length v) = dim) vectors ->
  length ids = length vectors ->
  exists b l,
    build gpu (Some vectors) (Some ids) None
          (mkBuilder dim FLAT nl mm nb np ug None false)
    = (Ok (Some (Faiss.mkIndex FLAT dim 0 0 0 true []
                   (combine ids (normalize_L2 vectors)) (ug && gpu))),
       b, l).
Proof.
  intros Hshape Hlen.
  assert (Hn : length (normalize_L2 vectors) = length vectors)
    by (unfold normalize_L2; apply length_map).
  run_method.
  destruct ug, gpu; cbn; unfold Faiss.add_with_ids;
    rewrite shape_ok_normalize, shape_ok_true by exact Hshape; cbn;
    rewrite Hn, Hlen, Nat.eqb_refl; cbn;
    (eexists; eexists; reflexivity).
Qed.

Lemma norm_3_4 : norm [3; 4] = 5.
Proof.
  unfold norm. simpl. replace (3 * 3 + (4 * 4 + 0)) with (5 * 5) by ring.
  apply sqrt_square. lra.
Qed.

Lemma normalize_row_3_4 : normalize_row [3; 4] = [3 / 5; 4 / 5].
Proof.
  unfold normalize_row. rewrite norm_3_4.
  destruct (Rlt_dec 0 5) as [_|n]; [|exfalso; lra].
  simpl. repeat f_equal; field.
Qed.

(** The sample index is what [build] returns for its three vectors and
    their IDs. *)
Lemma sample_index_built :
  exists b l,
    build false (Some [[1; 0]; [1; 0]; [3; 4]]) (Some [7; 3; 9]%Z) None
          (mkBuilder 2 FLAT 4096 1 8 16 false None false)
    = (Ok (Some Samples.sample_index), b, l).
Proof.
  destruct (build_flat false 2 4096 1 8 16 false
              [[1; 0]; [1; 0]; [3; 4]] [7; 3; 9]%Z)
    as (b & l & Hb); [repeat constructor|reflexivity|].
  exists b, l. rewrite Hb. do 3 f_equal.
  unfold Samples.sample_index. f_equal. simpl.
  rewrite SearchFacts.sample_query_row_val, normalize_row_3_4. reflexivity.
Qed.

Lemma elem_of_combine_normalize (ids : list Z) (vectors : list vector) (i : Z) (v' : vector) :
  (i, v') ∈ combine ids (normalize_L2 vectors) <->
  exists v, (i, v) ∈ combine ids vectors /\ v' = normalize_row v.
Proof.
  unfold normalize_L2. revert vectors. induction ids as [|j ids IH]; intros [|w vectors]; simpl.
  1-3: split; [intros H; apply elem_of_nil in H; contradiction|intros (v & H & _); apply elem_of_nil in H; contradiction].
  rewrite elem_of_cons, IH. split.
  - intros [[= -> ->]|(v & Hv & ->)].
    + exists w. split; [apply elem_of_cons; auto|reflexivity].
    + exists v. split; [apply elem_of_cons; auto|reflexivity].
  - intros (v & Hv & ->). apply elem_of_cons in Hv as [[= -> ->]|Hv]; [auto|].
    right. eauto.
Qed.

(** The IDs the index returns for one query: those of the entries whose
    squared distance to the query is below the radius. *)
Lemma labels_single (ix : Faiss.Index) (q : vector) (radius : R) (i : Z) :
  i ∈ Faiss.labels (Faiss.range_search ix [q] radius) <->
  exists v, (i, v) ∈ Faiss.entries ix /\ sqdist q v < radius.
Proof.
  unfold Faiss.range_search. simpl. rewrite app_nil_r.
  rewrite list_elem_of_fmap. split.
  - intros ([i' dist] & -> & H).
    apply SearchFacts.elem_of_hits_of in H as (w & Hin & -> & Hlt).
    simpl. eauto.
  - intros (v & Hin & Hlt). exists (i, sqdist q v). split; [reflexivity|].
    apply SearchFacts.elem_of_hits_of. eauto.
Qed.

(** What the search within the converted threshold returns on an exact
    index built from non-zero vectors: the IDs of the vectors [v] with
    [2 - 2 cos(q, v)] below the radius, that is, with the squared distance
    below a radius that was computed as a distance. *)
Lemma exact_range_search_returns
    (gpu : bool) (dim nl mm nb np : Z) (ug : bool)
    (vectors : list vector) (ids : list Z) (q : vector) (radius : R) :
  Forall (fun v => Z.of_nat (length v) = dim /\ 0 < norm v) vectors ->
  length ids = length vectors ->
  Z.of_nat (length q) = dim ->
  0 < norm q ->
  exists ix b l,
    build gpu (Some vectors) (Some ids) None
          (mkBuilder dim FLAT nl mm nb np ug None false)
    = (Ok (Some ix), b, l) /\
    forall i,
      i ∈ Faiss.labels (Faiss.range_search ix (normalize_L2 [q]) radius)
      <-> exists v, (i, v) ∈ combine ids vectors /\
                    2 - 2 * cosine_similarity q v < radius.
Proof.
  intros Hvs Hlen Hq Hqn.
  destruct (build_flat gpu dim nl mm nb np ug vectors ids) as (b & l & Hb);
    [eapply Forall_impl; [exact Hvs|]; simpl; tauto|exact Hlen|].
  eexists. exists b, l. split; [exact Hb|].
  intros i. simpl normalize_L2. rewrite labels_single.
  cbn [Faiss.entries].
  assert (Hin : forall v, (i, v) ∈ combine ids vectors ->
                          length q = length v /\ 0 < norm v).
  { intros v Hv. apply list_elem_of_In, in_combine_r, list_elem_of_In in Hv.
    rewrite List.Forall_forall in Hvs.
    apply list_elem_of_In,Hvs in Hv as [Hd Hn]. split; [lia|exact Hn]. }
  split.
  - intros (v' & Hv' & Hlt).
    apply elem_of_combine_normalize in Hv' as (v & Hv & ->).
    exists v. split; [exact Hv|].
    destruct (Hin v Hv) as [Hl Hn].
    rewrite <- (sqdist_normalized q v Hl Hqn Hn). exact Hlt.
  - intros (v & Hv & Hcos). exists (normalize_row v). split.
    + apply elem_of_combine_normalize. eauto.
    + destruct (Hin v Hv) as [Hl Hn].
      rewrite (sqdist_normalized q v Hl Hqn Hn). exact Hcos.
Qed.

Lemma cosine_similarity_3_4 : cosine_similarity [1; 0] [3; 4] = 3 / 5.
Proof.
  assert (Hn : norm [1; 0] = 1).
  { unfold norm. simpl. replace (1 * 1 + (0 * 0 + 0)) with 1 by ring.
    apply sqrt_1. }
  unfold cosine_similarity. rewrite Hn, norm_3_4.
  destruct (Rlt_dec 0 (1 * 5)) as [_|n]; [|exfalso; lra].
  simpl. field.
Qed.

Lemma cosine_similarity_same : cosine_similarity [1; 0] [1; 0] = 1.
Proof.
  assert (Hn : norm [1; 0] = 1).
  { unfold norm. simpl. replace (1 * 1 + (0 * 0 + 0)) with 1 by ring.
    apply sqrt_1. }
  unfold cosine_similarity. rewrite Hn.
  destruct (Rlt_dec 0 (1 * 1)) as [_|n]; [|exfalso; lra].
  simpl. field.
Qed.

(** C1 fails on the code: the exact index compares squared distances with
    a radius that [cosine_to_l2_threshold] computes as a distance, and
    keeps what is strictly below.  On the index [build] returns for the
    vectors [[1; 0]], [[1; 0]], [[3; 4]] under the IDs 7, 3, 9, with the
    query [[1; 0]] and under any rounding of the standard model: at the
    threshold [0.65] the ID 9 is returned, whose cosine similarity to the
    query is [0.6]; at the threshold [1] the ID 7 is not returned, whose
    cosine similarity to the query is 1. *)
Theorem exact_range_search_misses_cosine_threshold (u : R) (fl : R -> R) :
  standard_model u fl ->
  exists ix b l,
    build false (Some [[1; 0]; [1; 0]; [3; 4]]) (Some [7; 3; 9]%Z) None
          (mkBuilder 2 FLAT 4096 1 8 16 false None false)
    = (Ok (Some ix), b, l) /\
    (exists radius,
       cosine_to_l2_threshold fl (13 / 20) = Ok radius /\
       9%Z ∈ Faiss.labels
               (Faiss.range_search ix (normalize_L2 [[1; 0]]) radius)) /\
    cosine_similarity [1; 0] [3; 4] < 13 / 20 /\
    (exists radius,
       cosine_to_l2_threshold fl 1 = Ok radius /\
       7%Z ∉ Faiss.labels
               (Faiss.range_search ix (normalize_L2 [[1; 0]]) radius)) /\
    1 <= cosine_similarity [1; 0] [1; 0].
Proof.
  intros Hfl. pose proof (unit_roundoff_small u fl Hfl) as Hu.
  destruct sample_index_built as (b & l & Hb).
  exists Samples.sample_index, b, l. split; [exact Hb|].
  split; [|split; [|split]].
  - destruct (threshold_between u fl Hfl (13 / 20) (83 / 100) (84 / 100))
      as (radius & Hr & Hbound); try lra.
    exists radius. split; [exact Hr|].
    simpl normalize_L2. apply labels_single.
    exists [3 / 5; 4 / 5]. split.
    + cbn. apply elem_of_cons. right. apply elem_of_cons. right.
      apply elem_of_cons. left. reflexivity.
    + rewrite SearchFacts.sample_distance_other. nra.
  - rewrite cosine_similarity_3_4. lra.
  - exists 0. split.
    + rewrite cosine_to_l2_threshold_in_range by lra.
      replace (2 * 1) with 2 by ring. rewrite (two_exact u fl Hfl).
      replace (2 - 2) with 0 by ring.
      rewrite (fl_zero u fl Hfl), sqrt_0, (fl_zero u fl Hfl). reflexivity.
    + simpl normalize_L2. rewrite labels_single.
      intros (v & _ & Hlt).
      pose proof (sqdist_nonneg (normalize_row [1; 0]) v). lra.
  - rewrite cosine_similarity_same. lra.
Qed.

Lemma exact_range_search_misses_cosine_threshold_witness :
  exists ix b l,
    build false (Some [[1; 0]; [1; 0]; [3; 4]]) (Some [7; 3; 9]%Z) None
          (mkBuilder 2 FLAT 4096 1 8 16 false None false)
    = (Ok (Some ix), b, l) /\
    (exists radius,
       cosine_to_l2_threshold exact_arithmetic (13 / 20) = Ok radius /\
       9%Z ∈ Faiss.labels
               (Faiss.range_search ix (normalize_L2 [[1; 0]]) radius)) /\
    cosine_similarity [1; 0] [3; 4] < 13 / 20 /\
    (exists radius,
       cosine_to_l2_threshold exact_arithmetic 1 = Ok radius /\
       7%Z ∉ Faiss.labels
               (Faiss.range_search ix (normalize_L2 [[1; 0]]) radius)) /\
    1 <= cosine_similarity [1; 0] [1; 0].
Proof.
  apply (exact_range_search_misses_cosine_threshold 0 exact_arithmetic).
  apply exact_arithmetic_standard.
Defined.

End ExactSearchFacts.

(** ** The conversions reverse the order *)

Module MetricOrderFacts.
Import MetricConverter.

(** X1: both conversions reverse the order, under any rounding of the
    standard model: a stricter similarity threshold never gives a larger
    search radius, and a larger distance never converts back to a larger
    similarity. *)
Theorem conversions_reverse_order (u : R) (fl : R -> R) :
  standard_model u fl ->
  (forall t1 t2, 0 <= t1 -> t1 <= t2 -> t2 <= 1 ->
     exists r1 r2,
       cosine_to_l2_threshold fl t1 = Ok r1 /\
       cosine_to_l2_threshold fl t2 = Ok r2 /\ r2 <= r1) /\
  (forall d1 d2, 0 <= d1 -> d1 <= d2 ->
     l2_to_cosine_similarity fl d2 <= l2_to_cosine_similarity fl d1).
Proof.
  intros Hfl. pose proof (monotone u fl Hfl) as Hmono. split.
  - intros t1 t2 H0 H12 H1. unfold cosine_to_l2_threshold.
    destruct (Rle_dec 0 t1); [|lra]. destruct (Rle_dec t1 1); [|lra].
    destruct (Rle_dec 0 t2); [|lra]. destruct (Rle_dec t2 1); [|lra].
    eexists. eexists. split; [reflexivity|]. split; [reflexivity|].
    apply Hmono, sqrt_le_1_alt, Hmono.
    assert (fl (2 * t1) <= fl (2 * t2)) by (apply Hmono; lra).
    lra.
  - intros d1 d2 H0 H12. unfold l2_to_cosine_similarity.
    apply Hmono.
    assert (Hsq : fl (d1 ^ 2) <= fl (d2 ^ 2)).
    { apply Hmono, pow_incr. lra. }
    assert (Hh : fl (fl (d1 ^ 2) / 2) <= fl (fl (d2 ^ 2) / 2))
      by (apply Hmono; lra).
    lra.
Qed.

Lemma conversions_reverse_order_witness :
  (exists r1 r2,
     cosine_to_l2_threshold exact_arithmetic (9 / 10) = Ok r1 /\
     cosine_to_l2_threshold exact_arithmetic (19 / 20) = Ok r2 /\
     r2 <= r1) /\
  l2_to_cosine_similarity exact_arithmetic 1
  <= l2_to_cosine_similarity exact_arithmetic (1 / 2).
Proof.
  split.
  - apply (proj1 (conversions_reverse_order 0 exact_arithmetic
                    exact_arithmetic_standard)); lra.
  - apply (proj2 (conversions_reverse_order 0 exact_arithmetic
                    exact_arithmetic_standard)); lra.
Defined.

End MetricOrderFacts.

(** ** The builder: what the methods leave behind *)

Module BuilderLifecycleFacts.
Import Builder BuilderFacts.

Local Open Scope Z_scope.

Lemma map_fst_combine {A B} (l : list A) (k : list B) :
  length l = length k -> map fst (combine l k) = l.
Proof.
  revert k. induction l as [|a l IH]; intros [|b k] H; simpl in *;
    try discriminate; [reflexivity|]. f_equal. apply IH. lia.
Qed.

Lemma map_snd_combine {A B} (l : list A) (k : list B) :
  length l = length k -> map snd (combine l k) = k.
Proof.
  revert k. induction l as [|a l IH]; intros [|b k] H; simpl in *;
    try discriminate; [reflexivity|]. f_equal. apply IH. lia.
Qed.

Lemma arange_app (n k : nat) :
  arange 0 (n + k) = (arange 0 n ++ arange (Z.of_nat n) k)%list.
Proof.
  unfold arange. rewrite seq_app, map_app. f_equal.
  change (0 + n)%nat with n.
  assert (H : forall s,
            map (fun i => 0 + Z.of_nat i) (seq (n + s) k)
            = map (fun i => Z.of_nat n + Z.of_nat i) (seq s k)).
  { induction k as [|k IH]; intros s; simpl; [reflexivity|].
    f_equal; [lia|]. rewrite <- Nat.add_succ_r. apply IH. }
  rewrite <- (H 0%nat), Nat.add_0_r. reflexivity.
Qed.

Lemma length_normalize_L2 (vs : list Vec.vector) :
  length (Vec.normalize_L2 vs) = length vs.
Proof. unfold Vec.normalize_L2. apply length_map. Qed.

(** Sequencing two steps that are known. *)
Lemma bind_ok {A B} (c : M A) (k : A -> M B) (b b1 b2 : FAISSIndexBuilder)
    (a : A) (r : Result B) (l1 l2 : list LogRecord) :
  c b = (Ok a, b1, l1) -> k a b1 = (r, b2, l2) ->
  bind c k b = (r, b2, (l1 ++ l2)%list).
Proof. intros Hc Hk. unfold bind. rewrite Hc, Hk. reflexivity. Qed.

(** [_create_index] always returns, with a new, empty index of the
    builder's kind and dimension; it marks an exact builder trained and
    leaves the flag of the others as it was. *)
Lemma create_index_fresh (gpu : bool) (b : FAISSIndexBuilder) :
  exists ix l,
    _create_index gpu b
    = (Ok tt,
       mkBuilder (dimension b) (index_type b) (nlist b) (m b) (nbits b)
                 (nprobe b) (use_gpu b) (Some ix)
                 (match index_type b with FLAT => true | _ => is_trained b end),
       l) /\
    Faiss.entries ix = [] /\ Faiss.trained_on ix = [] /\
    Faiss.d ix = dimension b /\ Faiss.kind ix = index_type b /\
    Faiss.ix_is_trained ix
    = match index_type b with FLAT => true | _ => false end /\
    (index_type b = IVF_FLAT -> Faiss.ix_nlist ix = nlist b).
Proof.
  destruct b as [dim ty nl mm nb np ug ix tr]. run_method.
  destruct ty, ug, gpu; cbn; eexists; eexists; (split; [reflexivity|]);
    cbn; repeat split; try reflexivity; intros H; try discriminate H;
    reflexivity.
Qed.

(** What [add] does when it returns. *)
Lemma add_returns (vs : list Vec.vector) (ids : option (list Z))
    (b : FAISSIndexBuilder) (ix : Faiss.Index) :
  is_trained b = true -> index b = Some ix ->
  Faiss.ix_is_trained ix = true ->
  Forall (fun v => Z.of_nat (length v) = Faiss.d ix) vs ->
  (forall l, ids = Some l -> length l = length vs) ->
  exists ix' l,
    add vs ids b = (Ok tt, set_index (Some ix') b, l) /\
    Faiss.d ix' = Faiss.d ix /\ Faiss.kind ix' = Faiss.kind ix /\
    Faiss.ix_is_trained ix' = true /\
    Faiss.entries ix'
    = (Faiss.entries ix
       ++ combine (match ids with
                   | Some l => l
                   | None => arange (Faiss.ntotal ix) (length vs)
                   end)
                  (Vec.normalize_L2 vs))%list.
Proof.
  intros Htr Hix Hixt Hshape Hids.
  run_method. rewrite Htr, Hix. cbn.
  unfold Faiss.add_with_ids.
  rewrite shape_ok_normalize, shape_ok_true by assumption. cbn.
  set (ids' := match ids with
               | Some l => l
               | None => arange (Faiss.ntotal ix) (length vs)
               end).
  assert (Hlen : length ids' = length vs).
  { subst ids'. destruct ids as [l|]; [apply Hids; reflexivity|].
    apply length_arange. }
  rewrite length_normalize_L2, Hlen, Nat.eqb_refl, Hixt. cbn.
  eexists. eexists. split; [reflexivity|]. cbn. auto.
Qed.

Lemma enough_points_normalize (ix : Faiss.Index) (tv : list Vec.vector) :
  Faiss.enough_points ix (Vec.normalize_L2 tv) = Faiss.enough_points ix tv.
Proof.
  unfold Faiss.enough_points. rewrite length_normalize_L2. reflexivity.
Qed.

(** What [train] does on an untrained builder that has its index, for a
    sample the index accepts. *)
Lemma train_untrained (gpu : bool) (tv : list Vec.vector)
    (b : FAISSIndexBuilder) (ix : Faiss.Index) :
  is_trained b = false -> index b = Some ix ->
  Forall (fun v => Z.of_nat (length v) = Faiss.d ix) tv ->
  Faiss.enough_points ix tv = true ->
  exists ix' l,
    train gpu tv b = (Ok tt, set_is_trained true (set_index (Some ix') b), l) /\
    Faiss.d ix' = Faiss.d ix /\ Faiss.kind ix' = Faiss.kind ix /\
    Faiss.ix_is_trained ix' = true /\
    Faiss.entries ix' = Faiss.entries ix.
Proof.
  intros Htr Hix Hshape Henough.
  destruct b as [dim ty nl mm nb np ug oix tr]. simpl in *. subst tr oix.
  run_method. unfold Faiss.train.
  rewrite shape_ok_normalize, shape_ok_true by assumption.
  rewrite enough_points_normalize, Henough.
  cbn. eexists. eexists. split; [reflexivity|]. cbn. auto.
Qed.

(** [train] on a clustered sample builder of dimension 2, with as many
    rows as clusters. *)
Lemma sample_train :
  exists b1 l1,
    train false [[1; 0]%R; [0; 1]%R]
          (mkBuilder 2 IVF_FLAT 2 1 8 16 false None false)
    = (Ok tt, b1, l1).
Proof.
  eexists; eexists;
    run_method; unfold Faiss.train, Faiss.shape_ok, Faiss.enough_points; cbn;
    rewrite !length_normalize_row; cbn; reflexivity.
Qed.

(** X2: [add] without IDs numbers the new rows from [ntotal] on and stores
    them normalised, after the rows already there; so an index filled by
    such calls alone holds the IDs [0 .. ntotal - 1] in order. *)
Theorem add_assigns_sequential_ids (vs : list Vec.vector)
    (b : FAISSIndexBuilder) (ix : Faiss.Index) :
  is_trained b = true -> index b = Some ix ->
  Faiss.ix_is_trained ix = true ->
  Forall (fun v => Z.of_nat (length v) = Faiss.d ix) vs ->
  exists ix' l,
    add vs None b = (Ok tt, set_index (Some ix') b, l) /\
    Faiss.entries ix'
    = (Faiss.entries ix
       ++ combine (arange (Faiss.ntotal ix) (length vs))
                  (Vec.normalize_L2 vs))%list /\
    (map fst (Faiss.entries ix) = arange 0 (length (Faiss.entries ix)) ->
     map fst (Faiss.entries ix') = arange 0 (length (Faiss.entries ix'))).
Proof.
  intros Htr Hix Hixt Hshape.
  destruct (add_returns vs None b ix Htr Hix Hixt Hshape)
    as (ix' & l & Ha & _ & _ & _ & He); [discriminate|].
  exists ix', l. split; [exact Ha|]. split; [exact He|].
  intros Hseq. rewrite He, map_app, Hseq, length_app, length_combine.
  rewrite length_arange, length_normalize_L2, Nat.min_id.
  rewrite map_fst_combine
    by (rewrite length_arange, length_normalize_L2; reflexivity).
  unfold Faiss.ntotal. symmetry. apply arange_app.
Qed.

Lemma add_assigns_sequential_ids_witness :
  let ix := Faiss.IndexFlatL2 2 in
  let b := mkBuilder 2 FLAT 4 1 8 16 false (Some ix) true in
  exists ix' l,
    add [[3; 4]%R; [1; 1]%R] None b = (Ok tt, set_index (Some ix') b, l) /\
    Faiss.entries ix'
    = (Faiss.entries ix
       ++ combine (arange (Faiss.ntotal ix) 2)
                  (Vec.normalize_L2 [[3; 4]%R; [1; 1]%R]))%list /\
    (map fst (Faiss.entries ix) = arange 0 (length (Faiss.entries ix)) ->
     map fst (Faiss.entries ix') = arange 0 (length (Faiss.entries ix'))).
Proof.
  intros ix b.
  apply (add_assigns_sequential_ids [[3; 4]%R; [1; 1]%R] b ix).
  - reflexivity.
  - reflexivity.
  - reflexivity.
  - repeat constructor.
Defined.

(** X3: an [add] that raises, whatever the exception, leaves the builder
    and so its stored vectors exactly as they were. *)
Theorem add_failure_keeps_builder (vs : list Vec.vector)
    (ids : option (list Z)) (b b' : FAISSIndexBuilder) (e : PyError)
    (l : list LogRecord) :
  add vs ids b = (Raise e, b', l) ->
  b' = b /\ num_vectors b' = num_vectors b.
Proof.
  run_method. destruct (is_trained b); cbn.
  - destruct (index b) as [ix|]; cbn.
    + destruct (Faiss.add_with_ids _ _ _); cbn; [discriminate|].
      intros [= _ <- _]. auto.
    + intros [= _ <- _]. auto.
  - intros [= _ <- _]. auto.
Qed.

Lemma add_failure_keeps_builder_witness :
  let b := mkBuilder 2 FLAT 4 1 8 16 false (Some (Faiss.IndexFlatL2 2)) true in
  b = b /\ num_vectors b = num_vectors b.
Proof.
  intros b.
  apply (add_failure_keeps_builder [[1]%R] None b b AssertionError
           [(INFO, "Adding {len(vectors)} vectors to index..."%string)]).
  run_method. unfold Faiss.add_with_ids, Faiss.shape_ok. cbn.
  rewrite !length_normalize_row. cbn. reflexivity.
Defined.

(** X4: a [train] that returns changes neither the stored vectors nor the
    configuration of the builder: the count is the same, the entries of an
    index that was there are the same, and so are [dimension],
    [index_type], [nlist], [m], [nbits], [nprobe] and [use_gpu]. *)
Theorem train_keeps_vectors_and_configuration (gpu : bool)
    (tv : list Vec.vector) (b b1 : FAISSIndexBuilder) (l1 : list LogRecord) :
  train gpu tv b = (Ok tt, b1, l1) ->
  num_vectors b1 = num_vectors b /\
  (forall ix, index b = Some ix ->
     exists ix1, index b1 = Some ix1 /\
                 Faiss.entries ix1 = Faiss.entries ix) /\
  dimension b1 = dimension b /\ index_type b1 = index_type b /\
  nlist b1 = nlist b /\ m b1 = m b /\ nbits b1 = nbits b /\
  nprobe b1 = nprobe b /\ use_gpu b1 = use_gpu b.
Proof.
  destruct (is_trained b) eqn:Htr.
  - rewrite train_trained by assumption. intros [= <- <-].
    repeat split; eauto.
  - destruct b as [dim ty nl mm nb np ug ix tr]. simpl in *. subst tr.
    run_method.
    destruct ix as [ix|]; [|destruct ty, ug, gpu]; cbn;
      unfold Faiss.train; cbn;
      match goal with
      | |- context [Faiss.shape_ok ?i ?x] =>
          destruct (Faiss.shape_ok i x); cbn
      end;
      try discriminate;
      match goal with
      | |- context [Faiss.enough_points ?i ?x] =>
          destruct (Faiss.enough_points i x); cbn
      end;
      try discriminate; intros [= <- <-]; cbn;
      (repeat split; try reflexivity);
      try (intros ? [= <-]; eexists; split; reflexivity);
      try (intros ? [=]).
Qed.

Lemma train_keeps_vectors_and_configuration_witness :
  let b := mkBuilder 2 IVF_FLAT 2 1 8 16 false None false in
  exists b1 l1,
    train false [[1; 0]%R; [0; 1]%R] b = (Ok tt, b1, l1) /\
    num_vectors b1 = num_vectors b /\
    dimension b1 = dimension b /\ index_type b1 = index_type b.
Proof.
  intros b. destruct sample_train as (b1 & l1 & Ht).
  exists b1, l1. split; [exact Ht|].
  pose proof (train_keeps_vectors_and_configuration
                false [[1; 0]%R; [0; 1]%R] b b1 l1 Ht) as H.
  tauto.
Defined.

(** X5: [build] with vectors and no separate training sample, on an exact
    builder, or on a clustered-exact builder not yet marked trained whose
    [nlist] is at least 1 and at most the number of rows (the library
    refuses to train on fewer rows than clusters): it returns the index it
    created, which holds exactly the given rows, normalised, under the
    given IDs or under [0 .. n - 1], whatever index the builder held
    before; the builder is left trained and well formed. *)
Theorem build_stores_rows (gpu : bool) (vs : list Vec.vector)
    (ids : option (list Z)) (b : FAISSIndexBuilder) :
  index_type b = FLAT \/
  (index_type b = IVF_FLAT /\ is_trained b = false /\
   1 <= nlist b <= Z.of_nat (length vs)) ->
  Forall (fun v => Z.of_nat (length v) = dimension b) vs ->
  (forall l, ids = Some l -> length l = length vs) ->
  exists ix b' l,
    build gpu (Some vs) ids None b = (Ok (Some ix), b', l) /\
    index b' = Some ix /\ is_trained b' = true /\ wf b' /\
    dimension b' = dimension b /\
    Faiss.kind ix = index_type b /\
    Faiss.entries ix
    = combine (match ids with
               | Some l => l
               | None => arange 0 (length vs)
               end)
              (Vec.normalize_L2 vs).
Proof.
  intros Hcase Hshape Hids.
  destruct (create_index_fresh gpu b)
    as (ix0 & l0 & Hc & He0 & _ & Hd0 & Hk0 & Ht0 & Hn0).
  set (b0 := mkBuilder _ _ _ _ _ _ _ _ _) in Hc.
  assert (Htrain : exists ix1 b1 l1,
            train gpu vs b0 = (Ok tt, b1, l1) /\
            index b1 = Some ix1 /\ is_trained b1 = true /\
            dimension b1 = dimension b /\
            Faiss.d ix1 = dimension b /\ Faiss.kind ix1 = index_type b /\
            Faiss.ix_is_trained ix1 = true /\ Faiss.entries ix1 = []).
  { destruct Hcase as [Hflat|(Hivf & Htr & Hnl)].
    - assert (Htr0 : is_trained b0 = true)
        by (subst b0; cbn; rewrite Hflat; reflexivity).
      exists ix0, b0, [already_trained_warning].
      rewrite train_trained by exact Htr0.
      repeat split; try assumption.
      rewrite Ht0, Hflat. reflexivity.
    - assert (Htr0 : is_trained b0 = false)
        by (subst b0; cbn; rewrite Hivf; exact Htr).
      destruct (train_untrained gpu vs b0 ix0 Htr0 eq_refl)
        as (ix1 & l1 & Ht & Hd1 & Hk1 & Ht1 & He1).
      { rewrite Hd0. exact Hshape. }
      { unfold Faiss.enough_points. rewrite Hk0, Hivf, (Hn0 Hivf).
        apply Z.leb_le. lia. }
      exists ix1. eexists. eexists. split; [exact Ht|].
      cbn. repeat split; congruence. }
  destruct Htrain as (ix1 & b1 & l1 & Ht & Hi1 & Htr1 & Hdim1 & Hd1 & Hk1
                      & Ht1 & He1).
  destruct (add_returns vs ids b1 ix1 Htr1 Hi1 Ht1)
    as (ix2 & l2 & Ha & Hd2 & Hk2 & Ht2 & He2).
  { rewrite Hd1. exact Hshape. }
  { exact Hids. }
  exists ix2. eexists. eexists. split.
  { unfold build, mbind, M_bind.
    eapply bind_ok; [exact Hc|].
    eapply bind_ok; [exact Ht|].
    eapply bind_ok; [exact Ha|].
    reflexivity. }
  cbn. split; [reflexivity|]. split; [exact Htr1|]. split.
  { split; cbn.
    - intros ? [= <-]. congruence.
    - intros _. eauto. }
  split; [exact Hdim1|]. split; [congruence|].
  rewrite He2, He1. unfold Faiss.ntotal. rewrite He1. reflexivity.
Qed.

Lemma build_stores_rows_witness :
  let b := mkBuilder 2 IVF_FLAT 2 1 8 16 false None false in
  let vs := [[3; 4]%R; [1; 1]%R] in
  exists ix b' l,
    build false (Some vs) (Some [10; 11]) None b = (Ok (Some ix), b', l) /\
    index b' = Some ix /\ is_trained b' = true /\ wf b' /\
    dimension b' = dimension b /\
    Faiss.kind ix = index_type b /\
    Faiss.entries ix = combine [10; 11] (Vec.normalize_L2 vs).
Proof.
  intros b vs.
  apply (build_stores_rows false vs (Some [10; 11]) b).
  - right. cbn. repeat split; try reflexivity; lia.
  - repeat constructor.
  - intros l [= <-]. reflexivity.
Defined.

(** X6: [build] on a clustered builder already marked trained: the index
    is created anew, [train] sees the flag and skips with its warning, and
    the index returned is the new one, untrained and with no sample, while
    the builder still says trained; the builder is no longer well
    formed. *)
Theorem build_skips_training_when_marked_trained (gpu : bool)
    (tv : list Vec.vector) (b : FAISSIndexBuilder) :
  is_trained b = true -> index_type b <> FLAT ->
  exists ix b' l,
    _create_index gpu b = (Ok tt, b', l) /\
    build gpu None None (Some tv) b
    = (Ok (Some ix), b', (l ++ [already_trained_warning])%list) /\
    index b' = Some ix /\ is_trained b' = true /\
    Faiss.ix_is_trained ix = false /\ Faiss.trained_on ix = [] /\
    ~ wf b'.
Proof.
  intros Htr Hty.
  destruct (create_index_fresh gpu b)
    as (ix0 & l0 & Hc & He0 & Hto & Hd0 & Hk0 & Ht0 & _).
  set (b0 := mkBuilder _ _ _ _ _ _ _ _ _) in Hc.
  assert (Htr0 : is_trained b0 = true).
  { subst b0. cbn. destruct (index_type b); auto. }
  assert (Hnt : Faiss.ix_is_trained ix0 = false).
  { rewrite Ht0. destruct (index_type b); congruence. }
  exists ix0, b0, l0. split; [exact Hc|]. split.
  { unfold build, mbind, M_bind.
    eapply bind_ok; [exact Hc|].
    replace [already_trained_warning]
      with ([already_trained_warning] ++ [] ++ [])%list by reflexivity.
    eapply bind_ok; [apply train_trained, Htr0|].
    eapply bind_ok; reflexivity. }
  repeat split; try assumption.
  intros [_ Hwf]. destruct (Hwf Htr0) as (ix & Hix & Hixt).
  cbn in Hix. congruence.
Qed.

Lemma build_skips_training_when_marked_trained_witness :
  let b := mkBuilder 2 IVF_PQ 4 1 8 16 false
             (Some (Faiss.mkIndex IVF_PQ 2 4 1 8 true [[1; 0]%R] [] false))
             true in
  exists ix b' l,
    _create_index false b = (Ok tt, b', l) /\
    build false None None (Some [[1; 0]%R]) b
    = (Ok (Some ix), b', (l ++ [already_trained_warning])%list) /\
    index b' = Some ix /\ is_trained b' = true /\
    Faiss.ix_is_trained ix = false /\ Faiss.trained_on ix = [] /\
    ~ wf b'.
Proof.
  intros b.
  apply (build_skips_training_when_marked_trained false [[1; 0]%R] b).
  - reflexivity.
  - discriminate.
Defined.

End BuilderLifecycleFacts.

(** ** The metadata store: single writes and the queries *)

Module MetadataQueryFacts.
Import Metadata MetadataFacts.

Local Open Scope Z_scope.




(** X8: writing an ID twice is writing it once with the second snippet. *)
Theorem add_snippet_overwrites (store : MetadataStore) (i : Z)
    (s1 s2 : Parser.CodeSnippet) :
  add_snippet i s2 (add_snippet i s1 store) = add_snippet i s2 store.
Proof.
  unfold add_snippet, insert_or_replace. simpl.
  rewrite filter_app, list_filter_filter. f_equal.
  rewrite filter_cons_False by (simpl; intros H; apply H; reflexivity).
  rewrite filter_nil, app_nil_r.
  apply list_filter_iff. intros x. tauto.
Qed.

(** X9: the rows [get_snippets] returns are exactly the rows of the store
    whose ID is among those asked for, whatever their order; on a store
    with unique IDs it returns one row per ID found, the row [get_snippet]
    returns for it. *)
Theorem get_snippets_spec (store : MetadataStore) (ids : list Z) :
  (forall r, r ∈ get_snippets ids store <-> r ∈ store /\ id r ∈ ids) /\
  (unique_ids store ->
   NoDup (map id (get_snippets ids store)) /\
   forall r, r ∈ get_snippets ids store <->
             id r ∈ ids /\ get_snippet (id r) store = Some r).
Proof.
  assert (Hg : get_snippets ids store = filter (fun r => id r ∈ ids) store).
  { unfold get_snippets. destruct ids as [|i0 ids']; [|reflexivity].
    symmetry. induction store as [|x st IH]; [reflexivity|].
    rewrite filter_cons_False; [exact IH|]. apply not_elem_of_nil. }
  rewrite Hg. split.
  - intros r. rewrite list_elem_of_filter. tauto.
  - intros Hnd. unfold unique_ids in Hnd. split.
    + clear Hg. induction store as [|x st IH]; [constructor|].
      simpl in Hnd. apply NoDup_cons in Hnd as [Hx Hnd].
      rewrite filter_cons. destruct (decide _); [|auto].
      simpl. apply NoDup_cons. split; [|auto].
      intros Hin. apply Hx. apply list_elem_of_fmap in Hin as (y & -> & Hy).
      apply list_elem_of_filter in Hy as [_ Hy].
      apply list_elem_of_fmap. eauto.
    + intros r. rewrite list_elem_of_filter. unfold get_snippet.
      clear Hg. split.
      * intros [Hi Hr]. split; [exact Hi|].
        induction store as [|x st IH]; [apply elem_of_nil in Hr; contradiction|].
        simpl in Hnd. apply NoDup_cons in Hnd as [Hx Hnd].
        apply elem_of_cons in Hr as [->|Hr].
        -- rewrite filter_cons_True by reflexivity. reflexivity.
        -- rewrite filter_cons_False; [apply IH; assumption|].
           intros Heq. apply Hx. rewrite Heq. apply list_elem_of_fmap. eauto.
      * intros [Hi Hh]. split; [exact Hi|].
        apply head_Some_elem_of in Hh. apply list_elem_of_filter in Hh. tauto.
Qed.

Lemma get_snippets_spec_witness :
  let store := [row_of 3 Samples.snippet_f; row_of 7 Samples.snippet_g] in
  NoDup (map id (get_snippets [7; 5; 3] store)) /\
  forall r, r ∈ get_snippets [7; 5; 3] store <->
            id r ∈ [7; 5; 3] /\ get_snippet (id r) store = Some r.
Proof.
  intros store.
  apply (get_snippets_spec store [7; 5; 3]).
  unfold unique_ids. cbn. apply NoDup_cons. split.
  - intros H. apply list_elem_of_singleton in H. discriminate.
  - apply NoDup_singleton.
Defined.

(** X10: [get_snippet_by_location] returns a row of the store of that file
    whose lines include the line asked for, the first such row of the
    store; it returns nothing exactly when no row covers the location. *)
Theorem get_snippet_by_location_spec (store : MetadataStore)
    (path : string) (line : Z) :
  (forall r, get_snippet_by_location path line store = Some r ->
             r ∈ store /\ file_path r = path /\
             start_line r <= line <= end_line r) /\
  (get_snippet_by_location path line store = None <->
   forall r, r ∈ store ->
             ~ (file_path r = path /\ start_line r <= line <= end_line r)).
Proof.
  unfold get_snippet_by_location.
  set (P := fun r : Row =>
              bool_decide (file_path r = path) && (start_line r <=? line)
              && (line <=? end_line r) = true).
  assert (HP : forall r, P r <->
                 file_path r = path /\ start_line r <= line <= end_line r).
  { intros r. unfold P.
    rewrite !andb_true_iff, bool_decide_eq_true, !Z.leb_le. tauto. }
  split.
  - intros r Hh. apply head_Some_elem_of, list_elem_of_filter in Hh.
    destruct Hh as [Hp Hr]. split; [exact Hr|apply HP, Hp].
  - rewrite head_None. split.
    + intros Hnil r Hr Hc. apply HP in Hc.
      exact (filter_nil_not_elem_of P store r Hnil Hc Hr).
    + intros Hall. induction store as [|x st IH]; [reflexivity|].
      rewrite filter_cons_False.
      * apply IH. intros r Hr. apply Hall, elem_of_cons. auto.
      * intros Hp. apply (Hall x); [apply elem_of_cons; auto|apply HP, Hp].
Qed.

Lemma get_snippet_by_location_spec_witness :
  let r := row_of 9 Samples.snippet_h in
  r ∈ Samples.sample_store /\ file_path r = "c.py"%string /\
  start_line r <= 11 <= end_line r.
Proof.
  intros r.
  apply (proj1 (get_snippet_by_location_spec Samples.sample_store
                  "c.py"%string 11) r).
  reflexivity.
Defined.

(** X11: [get_languages] lists every language that some row has, each
    once; so it is never longer than the store. *)
Theorem get_languages_spec (store : MetadataStore) :
  NoDup (get_languages store) /\
  (forall lang, lang ∈ get_languages store <->
                exists r, r ∈ store /\ language r = lang) /\
  (Z.of_nat (length (get_languages store)) <= count store).
Proof.
  unfold get_languages. split; [apply NoDup_remove_dups|]. split.
  - intros lang. rewrite elem_of_remove_dups, list_elem_of_fmap.
    split; intros (r & H1 & H2); exists r; auto.
  - unfold count. apply inj_le.
    rewrite <- (length_map language store).
    generalize (map language store). intros l.
    induction l as [|x l IH]; simpl; [lia|].
    destruct (decide_rel elem_of x l); simpl; lia.
Qed.

End MetadataQueryFacts.

(** ** Ingestion: the index and the metadata name the same IDs *)

Module CliFacts.
Import Metadata MetadataFacts Cli.

Local Open Scope Z_scope.

Lemma last_write_enumerate (l : list Parser.CodeSnippet) (n : nat) (j : Z) :
  last_write j (imap (fun i s => (Z.of_nat (n + i), s)) l)
  = if decide (Z.of_nat n <= j) then l !! Z.to_nat (j - Z.of_nat n) else None.
Proof.
  revert n. induction l as [|x l IH]; intros n.
  - simpl. destruct (decide _); [rewrite lookup_nil|]; reflexivity.
  - rewrite imap_cons. cbn [last_write fst snd].
    rewrite (imap_ext _ (fun i s => (Z.of_nat (S n + i), s)))
      by (intros i s _; simpl; do 2 f_equal; lia).
    rewrite IH. rewrite Nat.add_0_r.
    destruct (decide (Z.of_nat (S n) <= j)) as [Hle|Hgt].
    + rewrite (decide_True (P := Z.of_nat n <= j)) by lia.
      replace (Z.to_nat (j - Z.of_nat n))
        with (S (Z.to_nat (j - Z.of_nat (S n)))) by lia.
      simpl. destruct (l !! _) eqn:E; [reflexivity|].
      rewrite (decide_False (P := Z.of_nat n = j)) by lia. reflexivity.
    + destruct (decide (Z.of_nat n = j)) as [<-|Hne].
      * rewrite (decide_True (P := Z.of_nat n <= Z.of_nat n)) by lia.
        rewrite Z.sub_diag. reflexivity.
      * rewrite (decide_False (P := Z.of_nat n <= j)) by lia. reflexivity.
Qed.

Lemma snippet_tuples_offset (snippets : list Parser.CodeSnippet) :
  snippet_tuples snippets
  = imap (fun i s => (Z.of_nat (0 + i), s)) snippets.
Proof. reflexivity. Qed.

Lemma fst_enumerate (l : list Parser.CodeSnippet) (n : nat) :
  map fst (imap (fun i s => (Z.of_nat (n + i), s)) l)
  = map (fun i => 0 + Z.of_nat i) (seq n (length l)).
Proof.
  revert n. induction l as [|x l IH]; intros n; [reflexivity|].
  rewrite imap_cons. simpl. rewrite Nat.add_0_r. f_equal.
  rewrite (imap_ext _ (fun i s => (Z.of_nat (S n + i), s)))
    by (intros i s _; simpl; do 2 f_equal; lia).
  apply IH.
Qed.

Lemma fst_snippet_tuples (snippets : list Parser.CodeSnippet) :
  map fst (snippet_tuples snippets) = vector_ids snippets.
Proof. rewrite snippet_tuples_offset. apply fst_enumerate. Qed.

Lemma NoDup_vector_ids {A} (snippets : list A) : NoDup (vector_ids snippets).
Proof.
  unfold vector_ids, Builder.arange.
  apply NoDup_fmap_2; [intros a b H; lia|apply NoDup_seq].
Qed.

Lemma elem_of_vector_ids {A} (snippets : list A) (j : Z) :
  j ∈ vector_ids snippets <-> 0 <= j < Z.of_nat (length snippets).
Proof.
  unfold vector_ids, Builder.arange. rewrite list_elem_of_fmap. split.
  - intros (i & -> & Hi). apply elem_of_seq in Hi. lia.
  - intros Hj. exists (Z.to_nat j). split; [lia|]. apply elem_of_seq. lia.
Qed.

Lemma get_snippet_save_metadata (snippets : list Parser.CodeSnippet) (j : Z) :
  get_snippet j (save_metadata snippets)
  = (fun s => row_of j s) <$>
    (if decide (0 <= j) then snippets !! Z.to_nat j else None).
Proof.
  unfold get_snippet, save_metadata. rewrite filter_id_batch.
  rewrite snippet_tuples_offset, last_write_enumerate.
  change (Z.of_nat 0) with 0. rewrite Z.sub_0_r.
  destruct (decide (0 <= j)); [|reflexivity].
  destruct (snippets !! Z.to_nat j); reflexivity.
Qed.

Lemma count_save_metadata (snippets : list Parser.CodeSnippet) :
  count (save_metadata snippets) = Z.of_nat (length snippets).
Proof.
  unfold save_metadata.
  destruct (ids_batch (snippet_tuples snippets) empty) as [Hnd Hset];
    [constructor|].
  unfold count. rewrite <- (length_map id).
  rewrite <- (size_list_to_set (C := gset Z)) by exact Hnd.
  rewrite Hset. unfold distinct_ids. simpl.
  rewrite fst_snippet_tuples, size_list_to_set by apply NoDup_vector_ids.
  unfold vector_ids. rewrite BuilderFacts.length_arange. reflexivity.
Qed.

Lemma is_Some_get_snippet_save_metadata
    (snippets : list Parser.CodeSnippet) (j : Z) :
  is_Some (get_snippet j (save_metadata snippets))
  <-> j ∈ vector_ids snippets.
Proof.
  rewrite get_snippet_save_metadata, elem_of_vector_ids.
  destruct (decide (0 <= j)) as [Hj|Hj].
  - rewrite fmap_is_Some, lookup_lt_is_Some. lia.
  - simpl. split; [intros [? ?]; discriminate|lia].
Qed.



(** X13: step 3 of [ingest] on the CPU returns when there are as many
    embeddings as snippets, every row has 768 coordinates, and the training
    sample has at least [nlist] rows ([nlist] at least 1) and at least
    [2 ^ 8 = 256] rows, which the library's clustering needs; the index
    then holds the normalised embeddings under the IDs [0 .. n - 1] in
    order, as many as the metadata has rows, and an ID is in the index
    exactly when the metadata written by step 4 has a record for it. *)
Theorem ingest_index_ids_have_metadata (gpu : bool) (nl np : Z) (ug : bool)
    (snippets : list Parser.CodeSnippet)
    (embeddings train_vectors : list Vec.vector) :
  ug && gpu = false ->
  length embeddings = length snippets ->
  Forall (fun v => Z.of_nat (length v) = 768) embeddings ->
  Forall (fun v => Z.of_nat (length v) = 768) train_vectors ->
  1 <= nl <= Z.of_nat (length train_vectors) ->
  256 <= Z.of_nat (length train_vectors) ->
  exists b ix,
    build_index gpu nl np ug snippets embeddings train_vectors = Ok b /\
    Builder.index b = Some ix /\
    Builder.num_vectors b = count (save_metadata snippets) /\
    map fst (Faiss.entries ix) = vector_ids snippets /\
    map snd (Faiss.entries ix) = Vec.normalize_L2 embeddings /\
    (forall j, j ∈ map fst (Faiss.entries ix) <->
               is_Some (get_snippet j (save_metadata snippets))).
Proof.
  intros Hcpu Hlen Hemb Htv Hnl Hpq. unfold build_index. cbv zeta.
  rewrite BuilderFacts.init_ok by (try reflexivity; lia).
  set (b0 := Builder.mkBuilder _ _ _ _ _ _ _ _ _).
  assert (Hen : forall ix,
            Faiss.kind ix = IVF_PQ -> Faiss.ix_nlist ix = nl ->
            Faiss.ix_nbits ix = 8 ->
            Faiss.enough_points ix (Vec.normalize_L2 train_vectors) = true).
  { intros ix Hk Hn Hb.
    rewrite BuilderLifecycleFacts.enough_points_normalize.
    unfold Faiss.enough_points. rewrite Hk, Hn, Hb.
    apply andb_true_intro. split; apply Z.leb_le; [lia|].
    change (2 ^ 8) with 256. exact Hpq. }
  assert (Htrain : exists ix1 b1 l1,
            Builder.train gpu train_vectors b0 = (Ok tt, b1, l1) /\
            Builder.index b1 = Some ix1 /\ Builder.is_trained b1 = true /\
            Faiss.d ix1 = 768 /\ Faiss.ix_is_trained ix1 = true /\
            Faiss.entries ix1 = []).
  { subst b0. BuilderFacts.run_method.
    destruct ug, gpu; try discriminate Hcpu; cbn; unfold Faiss.train;
      rewrite BuilderFacts.shape_ok_normalize, BuilderFacts.shape_ok_true
        by exact Htv;
      rewrite Hen by reflexivity;
      cbn; eexists; eexists; eexists; (split; [reflexivity|]); cbn; auto. }
  destruct Htrain as (ix1 & b1 & l1 & -> & Hi1 & Htr1 & Hd1 & Ht1 & He1).
  assert (Hl : length (vector_ids snippets)
               = length (Vec.normalize_L2 embeddings)).
  { unfold vector_ids.
    rewrite BuilderFacts.length_arange,
      BuilderLifecycleFacts.length_normalize_L2. lia. }
  destruct (BuilderLifecycleFacts.add_returns embeddings
              (Some (vector_ids snippets)) b1 ix1 Htr1 Hi1 Ht1)
    as (ix2 & l2 & -> & _ & _ & _ & He2).
  { rewrite Hd1. exact Hemb. }
  { intros l [= <-]. rewrite Hl.
    apply BuilderLifecycleFacts.length_normalize_L2. }
  rewrite He1 in He2. cbn [app] in He2.
  assert (Hids : map fst (Faiss.entries ix2) = vector_ids snippets).
  { rewrite He2. apply BuilderLifecycleFacts.map_fst_combine, Hl. }
  eexists. exists ix2. split; [reflexivity|]. split; [reflexivity|].
  split; [|split; [exact Hids|split]].
  - unfold Builder.num_vectors. cbn. unfold Faiss.ntotal.
    rewrite <- (length_map fst), Hids, count_save_metadata.
    unfold vector_ids. rewrite BuilderFacts.length_arange. reflexivity.
  - rewrite He2. apply BuilderLifecycleFacts.map_snd_combine, Hl.
  - intros j. rewrite Hids. symmetry.
    apply is_Some_get_snippet_save_metadata.
Qed.

Lemma ingest_index_ids_have_metadata_witness :
  let snippets := repeat Samples.snippet_f 256 in
  let embeddings :=
    map (fun i => (INR i :: repeat 1 767)%R) (seq 0 256) in
  exists b ix,
    build_index false 4 16 false snippets embeddings embeddings = Ok b /\
    Builder.index b = Some ix /\
    Builder.num_vectors b = count (save_metadata snippets) /\
    map fst (Faiss.entries ix) = vector_ids snippets /\
    map snd (Faiss.entries ix) = Vec.normalize_L2 embeddings /\
    (forall j, j ∈ map fst (Faiss.entries ix) <->
               is_Some (get_snippet j (save_metadata snippets))).
Proof.
  intros snippets embeddings.
  assert (Hn : length embeddings = 256%nat)
    by (unfold embeddings; rewrite length_map, length_seq; reflexivity).
  assert (Hrows : Forall (fun v => Z.of_nat (length v) = 768) embeddings).
  { apply List.Forall_forall. intros v Hv.
    apply in_map_iff in Hv as (i & <- & _).
    cbn [length]. rewrite repeat_length. reflexivity. }
  apply (ingest_index_ids_have_metadata false 4 16 false snippets
           embeddings embeddings).
  - reflexivity.
  - rewrite Hn. unfold snippets. rewrite repeat_length. reflexivity.
  - exact Hrows.
  - exact Hrows.
  - rewrite Hn. split; [lia|reflexivity || (cbn; lia)].
  - rewrite Hn. cbn. lia.
Defined.

End CliFacts.

(** ** The searcher: hydration, truncation, errors, batches *)

Module SearchPipelineFacts.
Import Vec MetricConverter Search SearchFacts Hits.

Lemma metadata_map_of_Some (l : list Metadata.Row) (i : Z) (r : Metadata.Row) :
  metadata_map_of l !! i = Some r -> r ∈ l /\ Metadata.id r = i.
Proof.
  unfold metadata_map_of.
  assert (H : forall mp : gmap Z Metadata.Row,
            fold_left (fun mp r => <[Metadata.id r := r]> mp) l mp !! i = Some r ->
            (r ∈ l /\ Metadata.id r = i) \/ mp !! i = Some r).
  { induction l as [|x l IH]; intros mp Hl; simpl in Hl; [auto|].
    destruct (IH _ Hl) as [[Hin Hid]|Hmp].
    - left. split; [apply elem_of_cons; auto|exact Hid].
    - destruct (decide (Metadata.id x = i)) as [<-|Hne].
      + rewrite lookup_insert_eq in Hmp. injection Hmp as ->.
        left. split; [apply elem_of_cons; auto|reflexivity].
      + rewrite lookup_insert_ne in Hmp by exact Hne. auto. }
  intros Hl. destruct (H _ Hl) as [?|He]; [assumption|].
  rewrite lookup_empty in He. discriminate.
Qed.

Lemma hydrate_one_hit (mp : gmap Z Metadata.Row) (ex : bool) (h : Z * R)
    (c : CloneMatch) :
  hydrate_one mp ex h = Some c ->
  hit_of c = h /\
  exists r, mp !! fst h = Some r /\
    file_path c = Metadata.file_path r /\
    start_line c = Metadata.start_line r /\
    end_line c = Metadata.end_line r /\
    language c = Metadata.language r /\
    function_name c = Metadata.function_name r /\
    code c = Metadata.code r.
Proof.
  destruct h as [i s]. unfold hydrate_one.
  destruct (mp !! i) as [md|] eqn:Hmd; [|discriminate].
  destruct (ex && is_self_match s); [discriminate|].
  intros [= <-]. split; [reflexivity|]. exists md. simpl. auto 10.
Qed.

Lemma omap_sublist {A B} (f : A -> option B) (g : B -> A) (l : list A) :
  (forall x y, f x = Some y -> g y = x) ->
  map g (omap f l) `sublist_of` l.
Proof.
  intros Hfg. induction l as [|x l IH]; simpl; [constructor|].
  destruct (f x) as [y|] eqn:E; simpl.
  - rewrite (Hfg x y E). apply sublist_skip, IH.
  - apply sublist_cons, IH.
Qed.

Lemma hydrate_results_sublist (store : Metadata.MetadataStore)
    (ids : list Z) (sims : list R) (ex : bool) :
  map hit_of (_hydrate_results store ids sims ex)
    `sublist_of` combine ids sims.
Proof.
  unfold _hydrate_results. destruct ids as [|i0 ids']; [constructor|].
  apply omap_sublist. intros h c Hc. apply hydrate_one_hit in Hc. tauto.
Qed.

(** X14: hydration joins the hits with the records: the matches, read as
    (ID, similarity) pairs, are hits of the index in the order of the hits,
    none invented and none repeated beyond the hits; and every match
    carries the fields of a row of the store with its ID. *)
Theorem hydration_joins_hits_with_records (store : Metadata.MetadataStore)
    (ids : list Z) (sims : list R) (ex : bool) :
  map hit_of (_hydrate_results store ids sims ex)
    `sublist_of` combine ids sims /\
  forall c, c ∈ _hydrate_results store ids sims ex ->
    exists r, r ∈ store /\ Metadata.id r = snippet_id c /\
      file_path c = Metadata.file_path r /\
      start_line c = Metadata.start_line r /\
      end_line c = Metadata.end_line r /\
      language c = Metadata.language r /\
      function_name c = Metadata.function_name r /\
      code c = Metadata.code r.
Proof.
  split; [apply hydrate_results_sublist|].
  unfold _hydrate_results. destruct ids as [|i0 ids'].
  { intros c Hc. apply elem_of_nil in Hc. contradiction. }
  set (ids := i0 :: ids').
  intros c Hc. apply list_elem_of_omap in Hc as (h & _ & Hc).
  apply hydrate_one_hit in Hc as [Hh (r & Hr & Hf)].
  apply metadata_map_of_Some in Hr as [Hin Hid].
  exists r. split.
  - unfold Metadata.get_snippets in Hin. subst ids.
    apply list_elem_of_filter in Hin. tauto.
  - split; [|exact Hf]. rewrite Hid, <- Hh. reflexivity.
Qed.

Lemma hydration_joins_hits_with_records_witness :
  let c := Samples.match_9 Samples.sim_other in
  exists r, r ∈ Samples.sample_store /\ Metadata.id r = snippet_id c /\
    file_path c = Metadata.file_path r /\
    start_line c = Metadata.start_line r /\
    end_line c = Metadata.end_line r /\
    language c = Metadata.language r /\
    function_name c = Metadata.function_name r /\
    code c = Metadata.code r.
Proof.
  intros c.
  apply (proj2 (hydration_joins_hits_with_records Samples.sample_store
                  [7; 3; 9]%Z
                  [Samples.sim_same; Samples.sim_same; Samples.sim_other]
                  true)).
  rewrite sample_hydrate. apply list_elem_of_singleton. reflexivity.
Defined.

(** The result with [max_results] is the cut of the result without. *)
Lemma find_clones_cut (fl64 fl32 : R -> R) (self : CloneSearcher)
    (q : string) (t : R) (mr : option Z) (ex : bool)
    (full : list CloneMatch) :
  find_clones fl64 fl32 self q t None ex = Ok full ->
  find_clones fl64 fl32 self q t mr ex = Ok (apply_max_results mr full).
Proof.
  intros Hfc.
  apply find_clones_inv in Hfc as (v & radius & hits & Hv & Hr & Hh & ->).
  unfold find_clones. rewrite Hv. cbn [mbind Result_bind]. rewrite Hr.
  cbn [mbind Result_bind]. cbv zeta. rewrite Hh. reflexivity.
Qed.

(** X15: [max_results]: a positive bound keeps the first [k] matches of
    the full, sorted result, so at most [k]; [0] is falsy and cuts nothing;
    a negative bound, being a slice bound, drops the last [-k] matches. *)
Theorem max_results_truncates (fl64 fl32 : R -> R) (self : CloneSearcher)
    (q : string) (t : R) (ex : bool) (k : Z) (res : list CloneMatch) :
  find_clones fl64 fl32 self q t (Some k) ex = Ok res ->
  exists full,
    find_clones fl64 fl32 self q t None ex = Ok full /\
    ((0 < k)%Z -> res = take (Z.to_nat k) full /\
                  (Z.of_nat (length res) <= k)%Z) /\
    (k = 0%Z -> res = full) /\
    ((k < 0)%Z -> res = take (length full - Z.to_nat (- k)) full).
Proof.
  intros Hfc.
  apply find_clones_inv in Hfc as (v & radius & hits & Hv & Hr & Hh & ->).
  eexists. split.
  { unfold find_clones. rewrite Hv. cbn [mbind Result_bind]. rewrite Hr.
    cbn [mbind Result_bind]. cbv zeta. rewrite Hh. reflexivity. }
  cbn [mbind Result_bind apply_max_results].
  set (full := sort_by_similarity_desc _).
  unfold apply_max_results, slice_to. split; [|split].
  - intros Hk. destruct (Z.eqb_spec k 0); [lia|].
    destruct (Z.leb_spec 0 k); [|lia]. split; [reflexivity|].
    rewrite length_take. lia.
  - intros ->. reflexivity.
  - intros Hk. destruct (Z.eqb_spec k 0); [lia|].
    destruct (Z.leb_spec 0 k); [lia|]. f_equal. lia.
Qed.

Lemma max_results_truncates_witness :
  let res := [Samples.match_7 Samples.sim_same] in
  exists full,
    find_clones exact_arithmetic exact_arithmetic Samples.sample_searcher
                "q" 0 None false = Ok full /\
    ((0 < -2)%Z -> res = take (Z.to_nat (-2)) full /\
                   (Z.of_nat (length res) <= -2)%Z) /\
    ((-2)%Z = 0%Z -> res = full) /\
    ((-2 < 0)%Z -> res = take (length full - Z.to_nat (- -2)) full).
Proof.
  intros res.
  apply (max_results_truncates exact_arithmetic exact_arithmetic
           Samples.sample_searcher "q" 0 false (-2) res).
  apply (find_clones_cut _ _ _ _ _ (Some (-2)%Z) _ _
           (sample_find_clones false)).
Defined.

(** X16: the errors of the two searches: the batch search of no query
    returns the empty list without looking at the threshold; with queries,
    a threshold outside [[0, 1]] raises [ValueError]; so does the single
    search, after the embedding; and an embedder that returns no row makes
    the single search raise [IndexError]. *)
Theorem search_threshold_errors (fl64 fl32 : R -> R)
    (self : CloneSearcher) :
  (forall t, find_clones_batch fl64 fl32 self [] t = Ok []) /\
  (forall qs t, qs <> [] -> ~ (0 <= t <= 1) ->
     find_clones_batch fl64 fl32 self qs t = Raise ValueError) /\
  (forall q t mr ex, ~ (0 <= t <= 1) ->
     embed_batch (embedder self) [q] <> [] ->
     find_clones fl64 fl32 self q t mr ex = Raise ValueError) /\
  (forall q t mr ex, embed_batch (embedder self) [q] = [] ->
     find_clones fl64 fl32 self q t mr ex = Raise IndexError).
Proof.
  split; [reflexivity|]. split; [|split].
  - intros qs t Hne Ht. unfold find_clones_batch.
    destruct qs as [|q0 qs']; [congruence|].
    rewrite cosine_to_l2_threshold_out_of_range by exact Ht. reflexivity.
  - intros q t mr ex Ht Hne. unfold find_clones, embed_single.
    destruct (embed_batch (embedder self) [q]) as [|v vs]; [congruence|].
    cbn [mbind Result_bind].
    rewrite cosine_to_l2_threshold_out_of_range by exact Ht. reflexivity.
  - intros q t mr ex He. unfold find_clones, embed_single. rewrite He.
    reflexivity.
Qed.

Lemma search_threshold_errors_witness :
  find_clones_batch exact_arithmetic exact_arithmetic
    Samples.sample_searcher ["a"; "b"]%string (3 / 2)
  = Raise ValueError /\
  find_clones exact_arithmetic exact_arithmetic Samples.sample_searcher
    "q" (-1) None true = Raise ValueError /\
  find_clones exact_arithmetic exact_arithmetic
    (mkSearcher (handle_of Samples.sample_index)
                (mkEmbedder (fun _ => []))
                Samples.sample_store) "q" (1 / 2) None true
  = Raise IndexError.
Proof.
  split; [|split].
  - apply (proj1 (proj2 (search_threshold_errors exact_arithmetic
                           exact_arithmetic Samples.sample_searcher)));
      [discriminate|lra].
  - apply (proj1 (proj2 (proj2
             (search_threshold_errors exact_arithmetic exact_arithmetic
                Samples.sample_searcher))));
      [lra|discriminate].
  - apply (proj2 (proj2 (proj2
             (search_threshold_errors exact_arithmetic exact_arithmetic
                (mkSearcher (handle_of Samples.sample_index)
                            (mkEmbedder (fun _ => []))
                            Samples.sample_store))))).
    reflexivity.
Defined.

(** X17: [find_clones_by_location]: without a snippet at the location the
    empty list, whatever the threshold; with one, the search for that
    snippet's code with the exclusion of self-matches on; so no match it
    returns has a similarity of [0.9999] or more. *)
Theorem find_clones_by_location_spec (fl64 fl32 : R -> R)
    (self : CloneSearcher) (path : string) (line : Z) (t : R)
    (mr : option Z) :
  (Metadata.get_snippet_by_location path line (metadata_store self) = None ->
   find_clones_by_location fl64 fl32 self path line t mr = Ok []) /\
  (forall r,
     Metadata.get_snippet_by_location path line (metadata_store self)
     = Some r ->
     find_clones_by_location fl64 fl32 self path line t mr
     = find_clones fl64 fl32 self (Metadata.code r) t mr true) /\
  (forall res,
     find_clones_by_location fl64 fl32 self path line t mr = Ok res ->
     forall c, c ∈ res -> similarity c < self_match_cutoff).
Proof.
  unfold find_clones_by_location. split; [|split].
  - intros ->. reflexivity.
  - intros r ->. reflexivity.
  - intros res.
    destruct (Metadata.get_snippet_by_location _ _ _) as [r|].
    + intros Hfc c Hc.
      apply find_clones_inv in Hfc as (v & radius & hits & _ & _ & _ & ->).
      apply (prefix_elem_of _ _ _ (apply_max_results_prefix _ _)) in Hc.
      rewrite sort_perm in Hc. eapply hydrate_results_excluded, Hc.
    + intros [= <-] c Hc. apply elem_of_nil in Hc. contradiction.
Qed.

Lemma find_clones_by_location_spec_witness :
  find_clones_by_location exact_arithmetic exact_arithmetic
    Samples.sample_searcher "zzz.py" 1 2 None = Ok [] /\
  find_clones_by_location exact_arithmetic exact_arithmetic
    Samples.sample_searcher "c.py" 10 0 None
  = find_clones exact_arithmetic exact_arithmetic Samples.sample_searcher
      "def h(): return 1" 0 None true.
Proof.
  split.
  - apply (proj1 (find_clones_by_location_spec exact_arithmetic
                    exact_arithmetic Samples.sample_searcher
                    "zzz.py" 1 2 None)).
    reflexivity.
  - apply (proj1 (proj2 (find_clones_by_location_spec exact_arithmetic
                           exact_arithmetic Samples.sample_searcher
                           "c.py" 10 0 None))
             (Metadata.row_of 9 Samples.snippet_h)).
    reflexivity.
Defined.

(** *** The exact backend: a batch and its queries one by one *)

Section ExactBackend.

Variables fl64 fl32 : R -> R.
Variables (ix : Faiss.Index) (e : Embedder) (store : Metadata.MetadataStore).
Variable f : string -> vector.
Hypothesis embed_pointwise : forall texts, embed_batch e texts = map f texts.
Variables t radius : R.
Hypothesis radius_of_t : cosine_to_l2_threshold fl64 t = Ok radius.

Local Abbreviation self := (mkSearcher (handle_of ix) e store).
Local Abbreviation answer :=
  (fun q => matches_of_row fl32 ix store radius (f q)).

Lemma find_clones_exact (q : string) :
  find_clones fl64 fl32 self q t None true = Ok (answer q).
Proof.
  unfold find_clones, embed_single. cbn [embedder index metadata_store].
  rewrite embed_pointwise. cbn [map mbind Result_bind].
  rewrite radius_of_t.
  cbn [mbind Result_bind]. cbv zeta. cbn [handle_of range_search normalize_L2 map].
  rewrite (hits_of_query_exact fl32 ix _ [normalize_row (f q)] 0
             (normalize_row (f q)))
    by reflexivity.
  reflexivity.
Qed.

Lemma batch_loop_exact (qs : list string) (count i : nat) :
  (i + count <= length qs)%nat ->
  batch_loop fl32 self
    (Faiss.range_search ix (normalize_L2 (map f qs)) radius) i count
  = Ok (map answer (take count (drop i qs))).
Proof.
  revert i. induction count as [|count IH]; intros i Hle; [reflexivity|].
  destruct (lookup_lt_is_Some_2 qs i) as [q Hq]; [lia|].
  assert (Hnq : normalize_L2 (map f qs) !! i = Some (normalize_row (f q))).
  { unfold normalize_L2. rewrite !list_lookup_fmap, Hq. reflexivity. }
  cbn [batch_loop]. rewrite (hits_of_query_exact fl32 ix _ _ i _ Hnq).
  cbn [mbind Result_bind fst snd]. rewrite IH by lia.
  cbn [mbind Result_bind]. rewrite (drop_S qs q i Hq). reflexivity.
Qed.

Lemma find_clones_batch_exact (qs : list string) :
  find_clones_batch fl64 fl32 self qs t = Ok (map answer qs).
Proof.
  unfold find_clones_batch. destruct qs as [|q0 qs']; [reflexivity|].
  set (qs := q0 :: qs').
  rewrite radius_of_t.
  cbn [mbind Result_bind]. cbv zeta.
  cbn [embedder index handle_of range_search].
  rewrite embed_pointwise.
  rewrite (batch_loop_exact qs (length qs) 0) by lia.
  rewrite drop_0, firstn_all. reflexivity.
Qed.

End ExactBackend.

(** X18: on an exact index, with an embedder that embeds each text on its
    own, whenever the batch search returns, its list for a query is what
    the single search with the defaults returns for that query, under the
    same roundings. *)
Theorem batch_agrees_with_single_query (fl64 fl32 : R -> R)
    (ix : Faiss.Index) (e : Embedder) (store : Metadata.MetadataStore)
    (f : string -> vector) (qs : list string) (t : R)
    (results : list (list CloneMatch)) :
  (forall texts, embed_batch e texts = map f texts) ->
  find_clones_batch fl64 fl32 (mkSearcher (handle_of ix) e store) qs t
  = Ok results ->
  Forall2 (fun q res =>
             find_clones fl64 fl32 (mkSearcher (handle_of ix) e store)
                         q t None true
             = Ok res)
          qs results.
Proof.
  intros He Hb. destruct qs as [|q0 qs'].
  { injection Hb as <-. constructor. }
  pose proof Hb as Hb'.
  apply find_clones_batch_inv in Hb' as (radius & Hr & _); [|discriminate].
  rewrite (find_clones_batch_exact fl64 fl32 ix e store f He t radius Hr)
    in Hb.
  assert (Hres : results
                 = map (fun q => matches_of_row fl32 ix store radius (f q))
                       (q0 :: qs'))
    by congruence.
  rewrite Hres. clear Hb Hres.
  generalize (q0 :: qs'). intros qs.
  induction qs as [|q qs IH]; constructor; [|exact IH].
  apply (find_clones_exact fl64 fl32 ix e store f He t radius Hr).
Qed.

Lemma batch_agrees_with_single_query_witness :
  Forall2 (fun q res =>
             find_clones exact_arithmetic exact_arithmetic
               (mkSearcher (handle_of Samples.sample_index)
                           Samples.sample_embedder Samples.sample_store)
               q 0 None true
             = Ok res)
          ["a"; "b"]%string
          [[Samples.match_9 Samples.sim_other];
           [Samples.match_9 Samples.sim_other]].
Proof.
  apply (batch_agrees_with_single_query exact_arithmetic exact_arithmetic
           Samples.sample_index Samples.sample_embedder Samples.sample_store
           (fun _ => [1; 0]) ["a"; "b"]%string 0).
  - intros texts. reflexivity.
  - apply sample_find_clones_batch.
Defined.

(** The distances an exact index returns are not negative and lie below
    the radius. *)
Lemma range_search_distances_bounded (ix : Faiss.Index) (qs : list vector)
    (radius : R) :
  Forall (fun d => 0 <= d < radius)
         (Faiss.distances (Faiss.range_search ix qs radius)).
Proof.
  unfold Faiss.range_search. generalize 0%nat.
  induction qs as [|q qs IH]; intros s; simpl; [constructor|].
  apply Forall_app. split; [|apply IH].
  apply Forall_forall. intros d Hd.
  apply list_elem_of_fmap in Hd as ([i d'] & -> & Hin).
  apply elem_of_hits_of in Hin as (w & _ & -> & Hlt).
  simpl. split; [apply sqdist_nonneg|exact Hlt].
Qed.

(** X19: when the index returns only distances between 0 and the radius
    it was asked with, up to one rounding of the radius, as the exact
    backend does, the similarity every match of [find_clones] carries is
    at least the threshold and at most 1, up to the rounding of the
    conversions: under roundings of the standard model with unit roundoff
    [u] it lies between [t - 20 u] and [1 + 3 u]. *)
Theorem matches_meet_threshold (u : R) (fl64 fl32 : R -> R)
    (self : CloneSearcher) (q : string) (t : R)
    (mr : option Z) (ex : bool) (res : list CloneMatch) :
  standard_model u fl64 -> standard_model u fl32 ->
  (forall v radius,
     Forall (fun d => 0 <= d <= radius * (1 + u))
            (Faiss.distances (range_search (index self) [v] radius))) ->
  find_clones fl64 fl32 self q t mr ex = Ok res ->
  forall c, c ∈ res -> t - 20 * u <= similarity c <= 1 + 3 * u.
Proof.
  intros H64 H32 Hidx Hfc c Hc.
  pose proof (unit_roundoff_small u fl64 H64) as Hu.
  apply find_clones_inv in Hfc as (v & radius & hits & Hv & Hr & Hh & ->).
  assert (Ht : 0 <= t <= 1).
  { unfold cosine_to_l2_threshold in Hr.
    destruct (Rle_dec 0 t); [|discriminate].
    destruct (Rle_dec t 1); [tauto|discriminate]. }
  rewrite cosine_to_l2_threshold_in_range in Hr by exact Ht.
  injection Hr as <-.
  apply (prefix_elem_of _ _ _ (apply_max_results_prefix _ _)) in Hc.
  rewrite sort_perm in Hc.
  assert (Hin : hit_of c ∈ combine (fst hits) (snd hits)).
  { eapply elem_of_sublist; [|apply hydrate_results_sublist].
    apply list_elem_of_fmap. eauto. }
  apply list_elem_of_In, in_combine_r, list_elem_of_In in Hin. simpl in Hin.
  set (rad := fl64 (2 - fl64 (2 * t))) in *.
  set (r := fl64 (sqrt rad)) in *.
  specialize (Hidx (normalize_row v) r).
  unfold hits_of_query, lims_at in Hh. simpl normalize_L2 in Hh.
  destruct (Faiss.lims _ !! 0%nat) as [a|]; [|discriminate].
  cbn [mbind Result_bind] in Hh.
  destruct (Faiss.lims _ !! (0 + 1)%nat) as [b|]; [|discriminate].
  cbn [mbind Result_bind] in Hh. injection Hh as <-. simpl in Hin.
  apply list_elem_of_fmap in Hin as (d & -> & Hd).
  unfold slice in Hd. apply elem_of_take in Hd as (i & Hd & _).
  rewrite lookup_drop in Hd. apply list_elem_of_lookup_2 in Hd.
  rewrite Forall_forall in Hidx. specialize (Hidx d Hd).
  destruct (radicand_bounds u fl64 H64 t Ht) as [Hrad0 Hrad].
  fold rad in Hrad0, Hrad. apply Rabs_le_inv in Hrad.
  destruct (distance_bounds u fl64 H64 rad) as [Hr0 Hr2]; [lra|].
  fold r in Hr0, Hr2. apply Rabs_le_inv in Hr2.
  replace (r ^ 2) with (r * r) in Hr2 by ring.
  assert (Hdd : 0 <= d * d <= 2 - 2 * t + 18 * u).
  { split; [nra|].
    assert (H1 : d * d <= (r * (1 + u)) * (r * (1 + u))) by nra.
    assert (H2 : (1 + u) * (1 + u) <= 1 + 3 * u) by nra.
    assert (H3 : r * r <= 21 / 10) by lra.
    assert (H4 : 0 <= r * r) by nra.
    nra. }
  unfold l2_to_cosine_similarity.
  replace (d ^ 2) with (d * d) by ring.
  assert (Hf : Rabs (fl32 (d * d) - d * d) <= 3 * u)
    by (apply (fl_abs_error u fl32 H32), Rabs_le; lra).
  apply Rabs_le_inv in Hf.
  pose proof (fl_nonneg u fl32 H32 (d * d) (proj1 Hdd)) as Hf0.
  set (x := fl32 (d * d)) in *.
  assert (Hh : Rabs (fl32 (x / 2) - x / 2) <= 3 * u)
    by (apply (fl_abs_error u fl32 H32), Rabs_le; lra).
  apply Rabs_le_inv in Hh.
  assert (Hh0 : 0 <= fl32 (x / 2)) by (apply (fl_nonneg u fl32 H32); lra).
  set (h := fl32 (x / 2)) in *.
  assert (Hk : Rabs (fl32 (1 - h) - (1 - h)) <= 3 * u)
    by (apply (fl_abs_error u fl32 H32), Rabs_le; lra).
  apply Rabs_le_inv in Hk.
  lra.
Qed.

Lemma matches_meet_threshold_witness :
  0 - 20 * 0 <= similarity (Samples.match_9 Samples.sim_other) <= 1 + 3 * 0.
Proof.
  apply (matches_meet_threshold 0 exact_arithmetic exact_arithmetic
           Samples.sample_searcher "q" 0 None true
           [Samples.match_9 Samples.sim_other]).
  - apply exact_arithmetic_standard.
  - apply exact_arithmetic_standard.
  - intros v radius.
    eapply Forall_impl;
      [apply (range_search_distances_bounded Samples.sample_index [v] radius)|].
    intros d Hd. simpl in Hd. lra.
  - apply (sample_find_clones true).
  - apply list_elem_of_singleton. reflexivity.
Defined.

End SearchPipelineFacts.

(** ** The configuration validators and what they guard *)

Module SettingsFacts.
Import Settings MetricConverter.

(** X20: the validator of [m] in the configuration and the constructor of
    the builder accept the same pairs of dimension and [m] and raise the
    same exception on the others, whatever the backend; without a
    validated dimension the validator accepts every [m]. *)
Theorem validate_m_agrees_with_constructor (dim : Z) (ty : IndexType)
    (nl mm nb np : Z) (ug : bool) :
  (validate_m_divides_dimension (Some dim) mm = Ok mm <->
   is_ok (fst (Builder.__init__ dim ty nl mm nb np ug)) = true) /\
  (forall e, validate_m_divides_dimension (Some dim) mm = Raise e <->
             fst (Builder.__init__ dim ty nl mm nb np ug) = Raise e) /\
  validate_m_divides_dimension None mm = Ok mm.
Proof.
  unfold validate_m_divides_dimension, Builder.__init__.
  destruct (Z.eqb mm 0); [|destruct (negb (Z.eqb (dim mod mm) 0))]; cbn;
    (split; [|split; [intros e|reflexivity]]); split; congruence.
Qed.

(** X21: the validator of the default similarity accepts exactly the
    numbers of [[0, 1]], which are exactly the thresholds the conversion to
    a distance accepts, under any rounding; both raise [ValueError] on the
    others. *)
Theorem validate_similarity_agrees_with_conversion (fl : R -> R) (v : R) :
  (validate_similarity v = Ok v <-> 0 <= v <= 1) /\
  (validate_similarity v = Raise ValueError <-> ~ (0 <= v <= 1)) /\
  is_ok (validate_similarity v) = is_ok (cosine_to_l2_threshold fl v) /\
  (validate_similarity v = Raise ValueError <->
   cosine_to_l2_threshold fl v = Raise ValueError).
Proof.
  unfold validate_similarity, cosine_to_l2_threshold.
  destruct (Rle_dec 0 v); [destruct (Rle_dec v 1)|]; cbn;
    repeat split; try congruence; try lra; try tauto; intros; lra.
Qed.

End SettingsFacts.

(** ** The plugin server's search loop *)

Module PluginServerFacts.
Import PluginServer MetricConverter.

(** X22: the server converts a distance by [1 - d / 2] and the searcher by
    [1 - d ** 2 / 2]: the server's conversion of the squared distance is
    the searcher's conversion of the distance, and on one and the same
    number the two agree at 0 and at 1 only. *)
Theorem distance_conversions_compared (d : R) :
  distance_to_similarity (d * d) = l2_to_cosine_similarity exact_arithmetic d /\
  (distance_to_similarity d = l2_to_cosine_similarity exact_arithmetic d
   <-> d = 0 \/ d = 1).
Proof.
  unfold distance_to_similarity, l2_to_cosine_similarity, exact_arithmetic.
  split; [simpl; lra|]. split.
  - intros H. assert (Hd : d * (d - 1) = 0) by (simpl in H; lra).
    apply Rmult_integral in Hd. destruct Hd; [left|right]; lra.
  - intros [->| ->]; simpl; lra.
Qed.

Lemma scan_hits_invariant (functions : list Parser.CodeSnippet) (t : R)
    (mr : Z) (i : nat) (P : Z -> Prop) (hits : list (R * Z)) :
  Forall (fun h => P (snd h)) hits ->
  forall (st st' : LoopState) (pairs : list (Z * Z)),
    loop_invariant functions t st pairs ->
    Forall (fun p => P (snd p)) pairs ->
    scan_hits functions t mr i hits st = Ok st' ->
    exists pairs', loop_invariant functions t st' pairs' /\
                   Forall (fun p => P (snd p)) pairs'.
Proof.
  intros Hhits.
  induction Hhits as [|[distance idx] rest Hidx _ IH];
    intros st st' pairs Hinv HP Hrun.
  { injection Hrun as <-. eauto. }
  cbn [scan_hits] in Hrun. cbv zeta in Hrun.
  destruct (Z.eqb_spec idx (Z.of_nat i)) as [|Hne]; cbn [orb] in Hrun;
    [eapply IH; eauto|].
  destruct (Rlt_dec (distance_to_similarity distance) t) as [|Hge];
    [eapply IH; eauto|].
  destruct (decide (pair_key (Z.of_nat i) idx ∈ snd st)) as [|Hnew];
    [eapply IH; eauto|].
  destruct (py_index functions (Z.of_nat i)) as [sf|] eqn:Hsf;
    [|discriminate].
  cbn [mbind Search.Result_bind] in Hrun.
  destruct (py_index functions idx) as [tf|] eqn:Htf; [|discriminate].
  cbn [mbind Search.Result_bind] in Hrun.
  destruct Hinv as (Hrep & Hnd & Hseen & Hsim).
  match type of Hrun with
  | context [(fst st ++ [?c])%list] => set (clone := c) in *
  end.
  assert (Hinv' : loop_invariant functions t
                    ((fst st ++ [clone])%list,
                     {[pair_key (Z.of_nat i) idx]} ∪ snd st)
                    (pairs ++ [(Z.of_nat i, idx)])%list).
  { split; [|split; [|split]]; cbn [fst snd].
    - apply Forall2_app; [exact Hrep|]. constructor; [|constructor].
      split; [cbn; lia|]. split; [cbn; congruence|].
      exists sf, tf. cbn. auto 10.
    - rewrite map_app. apply NoDup_app. split; [exact Hnd|]. split.
      + intros k Hk Hk'. cbn in Hk'. apply list_elem_of_singleton in Hk'.
        subst k. apply Hnew. rewrite Hseen. apply elem_of_list_to_set, Hk.
      + cbn. apply NoDup_singleton.
    - rewrite map_app, list_to_set_app_L, Hseen. cbn.
      rewrite (right_id_L ∅ (∪)). apply (comm_L (∪)).
    - apply Forall_app. split; [exact Hsim|]. constructor; [|constructor].
      cbn. lra. }
  assert (HP' : Forall (fun p => P (snd p)) (pairs ++ [(Z.of_nat i, idx)])).
  { apply Forall_app. split; [exact HP|]. constructor; [exact Hidx|].
    constructor. }
  destruct (mr <=? Z.of_nat (length (fst st ++ [clone])))%Z.
  - injection Hrun as <-. eauto.
  - eapply IH; eauto.
Qed.

Lemma scan_queries_invariant (functions : list Parser.CodeSnippet) (t : R)
    (mr : Z) (P : Z -> Prop) (results : list (list (R * Z))) :
  Forall (Forall (fun h => P (snd h))) results ->
  forall (i : nat) (st st' : LoopState) (pairs : list (Z * Z)),
    loop_invariant functions t st pairs ->
    Forall (fun p => P (snd p)) pairs ->
    scan_queries functions t mr i results st = Ok st' ->
    exists pairs', loop_invariant functions t st' pairs' /\
                   Forall (fun p => P (snd p)) pairs'.
Proof.
  intros Hres.
  induction Hres as [|hits rest Hhits _ IH]; intros i st st' pairs Hinv HP Hrun.
  { injection Hrun as <-. eauto. }
  cbn [scan_queries] in Hrun.
  destruct (scan_hits functions t mr i hits st) as [st1|] eqn:Hh;
    [|discriminate].
  cbn [mbind Search.Result_bind] in Hrun.
  destruct (scan_hits_invariant _ _ _ _ _ _ Hhits _ _ _ Hinv HP Hh)
    as (pairs1 & Hinv1 & HP1).
  destruct (mr <=? Z.of_nat (length (fst st1)))%Z.
  - injection Hrun as <-. eauto.
  - eapply IH; eauto.
Qed.

Lemma scan_hits_bound (functions : list Parser.CodeSnippet) (t : R)
    (mr : Z) (i : nat) (hits : list (R * Z)) :
  forall (st st' : LoopState),
    (Z.of_nat (length (fst st)) < mr)%Z ->
    scan_hits functions t mr i hits st = Ok st' ->
    (Z.of_nat (length (fst st')) <= mr)%Z.
Proof.
  induction hits as [|[distance idx] rest IH]; intros st st' Hlt Hrun.
  { injection Hrun as <-. lia. }
  cbn [scan_hits] in Hrun. cbv zeta in Hrun.
  destruct (_ || _); [eapply IH; eauto|].
  destruct (decide _); [eapply IH; eauto|].
  destruct (py_index functions (Z.of_nat i)); [|discriminate].
  cbn [mbind Search.Result_bind] in Hrun.
  destruct (py_index functions idx); [|discriminate].
  cbn [mbind Search.Result_bind] in Hrun.
  match type of Hrun with
  | context [(fst st ++ [?c])%list] => set (clone := c) in *
  end.
  assert (Hlen : length (fst st ++ [clone]) = S (length (fst st)))
    by (rewrite length_app; cbn; lia).
  destruct (Z.leb_spec mr (Z.of_nat (length (fst st ++ [clone])))).
  - injection Hrun as <-. cbn [fst]. lia.
  - eapply IH; [|exact Hrun]. cbn [fst]. lia.
Qed.

Lemma scan_queries_bound (functions : list Parser.CodeSnippet) (t : R)
    (mr : Z) (results : list (list (R * Z))) :
  forall (i : nat) (st st' : LoopState),
    (Z.of_nat (length (fst st)) < mr)%Z ->
    scan_queries functions t mr i results st = Ok st' ->
    (Z.of_nat (length (fst st')) <= mr)%Z.
Proof.
  induction results as [|hits rest IH]; intros i st st' Hlt Hrun.
  { injection Hrun as <-. lia. }
  cbn [scan_queries] in Hrun.
  destruct (scan_hits functions t mr i hits st) as [st1|] eqn:Hh;
    [|discriminate].
  cbn [mbind Search.Result_bind] in Hrun.
  pose proof (scan_hits_bound _ _ _ _ _ _ _ Hlt Hh) as Hb.
  destruct (Z.leb_spec mr (Z.of_nat (length (fst st1)))).
  - injection Hrun as <-. exact Hb.
  - eapply IH; [|exact Hrun]. lia.
Qed.

Lemma py_index_in_range {A} (l : list A) (idx : Z) :
  (- Z.of_nat (length l) <= idx < Z.of_nat (length l))%Z ->
  exists x, py_index l idx = Ok x /\ x ∈ l.
Proof.
  intros Hr. unfold py_index. cbv zeta.
  set (pos := if (idx <? 0)%Z then _ else _).
  assert (Hpos : (0 <= pos < Z.of_nat (length l))%Z).
  { subst pos. destruct (Z.ltb_spec idx 0); lia. }
  destruct (Z.ltb_spec pos 0); [lia|].
  destruct (lookup_lt_is_Some_2 l (Z.to_nat pos)) as [x Hx]; [lia|].
  rewrite Hx. exists x. split; [reflexivity|].
  eapply list_elem_of_lookup_2, Hx.
Qed.

Lemma scan_hits_returns (functions : list Parser.CodeSnippet) (t : R)
    (mr : Z) (i : nat) (hits : list (R * Z)) :
  (i < length functions)%nat ->
  Forall (fun h => (- Z.of_nat (length functions) <= snd h
                    < Z.of_nat (length functions))%Z) hits ->
  forall st, exists st', scan_hits functions t mr i hits st = Ok st'.
Proof.
  intros Hi Hhits. induction Hhits as [|[distance idx] rest Hh _ IH];
    intros st; [eexists; reflexivity|].
  cbn [scan_hits]. cbv zeta.
  destruct (_ || _); [apply IH|].
  destruct (decide _); [apply IH|].
  destruct (py_index_in_range functions (Z.of_nat i)) as (sf & -> & _);
    [lia|].
  destruct (py_index_in_range functions idx) as (tf & -> & _); [exact Hh|].
  cbn [mbind Search.Result_bind].
  destruct (_ <=? _)%Z; [eexists; reflexivity|apply IH].
Qed.

(** The loops on two functions of which the second is at distance 0 from
    the first: one clone, found from the first function and skipped, as a
    pair already seen, from the second. *)
Lemma sample_search_clones :
  exists c,
    search_clones [Samples.snippet_f; Samples.snippet_g] (9 / 10) 5
                  [[(0, 0%Z); (0, 1%Z)]; [(0, 1%Z); (0, 0%Z)]]
    = Ok ([c], {[pair_key 0 1]} ∪ ∅).
Proof.
  eexists. unfold search_clones. cbn [scan_queries scan_hits].
  cbv zeta. cbn [Z.of_nat Z.eqb orb Pos.of_succ_nat Pos.succ Pos.eqb].
  unfold distance_to_similarity.
  destruct (Rlt_dec (1 - 0 / 2) (9 / 10)) as [Hlt|_]; [exfalso; lra|].
  cbn [snd fst].
  destruct (decide (pair_key 0 1 ∈ (∅ : gset (Z * Z)))) as [Hin|_];
    [exfalso; apply (not_elem_of_empty (C := gset (Z * Z)) _ Hin)|].
  replace (py_index [Samples.snippet_f; Samples.snippet_g] 0)
    with (Ok Samples.snippet_f) by reflexivity.
  replace (py_index [Samples.snippet_f; Samples.snippet_g] 1)
    with (Ok Samples.snippet_g) by reflexivity.
  cbn [mbind Search.Result_bind app length Z.of_nat Pos.of_succ_nat Z.leb
       Z.compare Pos.compare Pos.compare_cont fst snd].
  destruct (decide (pair_key 1 0 ∈ {[pair_key 0 1]} ∪ (∅ : gset (Z * Z))))
    as [_|Hnin]; [reflexivity|].
  exfalso. apply Hnin. apply elem_of_union_l, elem_of_singleton. reflexivity.
Qed.

(** With an index that is not negative, [functions[idx]] is the element
    at position [idx] from the front. *)
Lemma py_index_nonneg {A} (l : list A) (idx : Z) (x : A) :
  (0 <= idx)%Z -> py_index l idx = Ok x -> l !! Z.to_nat idx = Some x.
Proof.
  intros Hidx. unfold py_index. cbv zeta.
  destruct (Z.ltb_spec idx 0) as [|_]; [lia|]. cbv iota.
  destruct (Z.ltb_spec idx 0) as [|_]; [lia|].
  destruct (l !! Z.to_nat idx) as [y|]; intros Hx; [|discriminate Hx].
  injection Hx as ->. reflexivity.
Qed.

(** A hit of index [-1] for the last function is not a self-match for the
    loop, which compares the numbers: it reports the last function as a
    clone of itself. *)
Lemma sample_negative_hit :
  exists c seen,
    search_clones [Samples.snippet_f; Samples.snippet_g] (9 / 10) 5
                  [[]; [(0, (-1)%Z)]]
    = Ok ([c], seen) /\
    clone_of_positions [Samples.snippet_f; Samples.snippet_g] c 1 1.
Proof.
  eexists. eexists. split.
  - unfold search_clones. cbn [scan_queries scan_hits].
    cbn [mbind Search.Result_bind length fst Z.of_nat Z.leb Z.compare].
    cbv zeta. cbn [Z.of_nat Z.eqb orb Pos.of_succ_nat Pos.succ Pos.eqb].
    unfold distance_to_similarity.
    destruct (Rlt_dec (1 - 0 / 2) (9 / 10)) as [Hlt|_]; [exfalso; lra|].
    cbn [snd fst].
    destruct (decide (pair_key 1 (-1) ∈ (∅ : gset (Z * Z)))) as [Hin|_];
      [exfalso; apply (not_elem_of_empty (C := gset (Z * Z)) _ Hin)|].
    replace (py_index [Samples.snippet_f; Samples.snippet_g] 1)
      with (Ok Samples.snippet_g) by reflexivity.
    replace (py_index [Samples.snippet_f; Samples.snippet_g] (-1))
      with (Ok Samples.snippet_g) by reflexivity.
    cbn [mbind Search.Result_bind app length Z.of_nat Pos.of_succ_nat Z.leb
         Z.compare Pos.compare Pos.compare_cont fst snd].
    reflexivity.
  - exists Samples.snippet_g, Samples.snippet_g. cbn. auto 10.
Qed.

(** X23: what the search loop reports when it ends without an exception:
    the clones are, one for one and in order, those of pairs (function,
    hit) with distinct unordered keys, and [seen_pairs] is the set of
    these keys, so there are as many clones as pairs seen and no unordered
    pair is reported twice; every similarity is at least the threshold;
    the two indices of a pair differ; and when no search returned a
    negative index, no function is paired with itself: the clone of a pair
    carries the locations of the functions at the two positions the pair
    names, and these positions differ.  (A negative index the loop does
    not recognise as the function itself.) *)
Theorem search_clones_reports_distinct_pairs
    (functions : list Parser.CodeSnippet) (t : R) (mr : Z)
    (results : list (list (R * Z))) (clones : list SemanticClone)
    (seen : gset (Z * Z)) :
  search_clones functions t mr results = Ok (clones, seen) ->
  exists pairs,
    loop_invariant functions t (clones, seen) pairs /\
    length clones = size seen /\
    (forall c, c ∈ clones -> t <= similarity c) /\
    (forall p, p ∈ seen -> (fst p < snd p)%Z) /\
    (Forall (Forall (fun h => (0 <= snd h)%Z)) results ->
     Forall2 (fun c p =>
                Z.to_nat (fst p) <> Z.to_nat (snd p) /\
                clone_of_positions functions c
                  (Z.to_nat (fst p)) (Z.to_nat (snd p)))
             clones pairs).
Proof.
  intros Hrun. unfold search_clones in Hrun.
  set (P := fun idx : Z =>
              Forall (Forall (fun h : R * Z => (0 <= snd h)%Z)) results ->
              (0 <= idx)%Z).
  destruct (scan_queries_invariant functions t mr P results) with
    (i := 0%nat) (st := ([], ∅) : LoopState) (st' := (clones, seen))
    (pairs := @nil (Z * Z)) as (pairs & Hinv & HP);
    [| |constructor|exact Hrun|].
  { apply Forall_forall. intros hits Hhits. apply Forall_forall.
    intros h Hh Hall. rewrite Forall_forall in Hall.
    specialize (Hall hits Hhits). rewrite Forall_forall in Hall.
    apply Hall, Hh. }
  { split; [constructor|]. split; [constructor|]. split; [reflexivity|].
    constructor. }
  exists pairs. split; [exact Hinv|].
  destruct Hinv as (Hrep & Hnd & Hseen & Hsim). cbn [fst snd] in *.
  split; [|split; [|split]].
  - rewrite Hseen, size_list_to_set by exact Hnd.
    rewrite length_map. eapply Forall2_length, Hrep.
  - intros c Hc. rewrite Forall_forall in Hsim. apply Hsim, Hc.
  - intros p Hp. rewrite Hseen in Hp. apply elem_of_list_to_set in Hp.
    apply list_elem_of_fmap in Hp as (q & -> & Hq).
    apply list_elem_of_lookup in Hq as [k Hk].
    destruct (Forall2_lookup_r _ _ _ _ _ Hrep Hk) as (c & _ & Hc).
    destruct Hc as (_ & Hne & _). unfold pair_key. cbn. lia.
  - intros Hall. clear Hnd Hseen Hsim Hrun.
    induction Hrep as [|c p clones' pairs' Hcp _ IH]; [constructor|].
    apply Forall_cons in HP as [Hp HP]. constructor; [|apply IH, HP].
    pose proof (Hp Hall) as Hsnd.
    destruct Hcp as (Hfst & Hne & sf & tf & Hsf & Htf & Hfields).
    split; [lia|].
    exists sf, tf. split; [apply py_index_nonneg; assumption|].
    split; [apply py_index_nonneg; assumption|]. exact Hfields.
Qed.

Lemma search_clones_reports_distinct_pairs_witness :
  exists c pairs,
    loop_invariant [Samples.snippet_f; Samples.snippet_g] (9 / 10)
                   ([c], {[pair_key 0 1]} ∪ ∅) pairs /\
    length [c] = size ({[pair_key 0 1]} ∪ ∅ : gset (Z * Z)) /\
    (forall c', c' ∈ [c] -> 9 / 10 <= similarity c') /\
    (forall p, p ∈ ({[pair_key 0 1]} ∪ ∅ : gset (Z * Z)) ->
               (fst p < snd p)%Z) /\
    (Forall (Forall (fun h : R * Z => (0 <= snd h)%Z))
            [[(0, 0%Z); (0, 1%Z)]; [(0, 1%Z); (0, 0%Z)]] ->
     Forall2 (fun c' p =>
                Z.to_nat (fst p) <> Z.to_nat (snd p) /\
                clone_of_positions [Samples.snippet_f; Samples.snippet_g] c'
                  (Z.to_nat (fst p)) (Z.to_nat (snd p)))
             [c] pairs).
Proof.
  destruct sample_search_clones as [c Hrun]. exists c.
  apply (search_clones_reports_distinct_pairs
           [Samples.snippet_f; Samples.snippet_g] (9 / 10) 5
           [[(0, 0%Z); (0, 1%Z)]; [(0, 1%Z); (0, 0%Z)]] [c]
           ({[pair_key 0 1]} ∪ ∅) Hrun).
Defined.

(** X24: for a [max_results] of at least 1, as the request model demands,
    the loop never reports more than [max_results] clones. *)
Theorem search_clones_respects_max_results
    (functions : list Parser.CodeSnippet) (t : R) (mr : Z)
    (results : list (list (R * Z))) (clones : list SemanticClone)
    (seen : gset (Z * Z)) :
  (1 <= mr)%Z ->
  search_clones functions t mr results = Ok (clones, seen) ->
  (Z.of_nat (length clones) <= mr)%Z.
Proof.
  intros Hmr Hrun.
  apply (scan_queries_bound functions t mr results 0 ([], ∅) (clones, seen));
    [cbn; lia|exact Hrun].
Qed.

Lemma search_clones_respects_max_results_witness :
  exists c : SemanticClone, (Z.of_nat (length [c]) <= 5)%Z.
Proof.
  destruct sample_search_clones as [c Hrun]. exists c.
  apply (search_clones_respects_max_results
           [Samples.snippet_f; Samples.snippet_g] (9 / 10) 5
           [[(0, 0%Z); (0, 1%Z)]; [(0, 1%Z); (0, 0%Z)]] [c]
           ({[pair_key 0 1]} ∪ ∅)).
  - lia.
  - exact Hrun.
Defined.

(** X25: the loop ends without an exception when there are no more
    searches than functions and every index the searches return is one
    Python accepts for the list of functions, from [-n] to [n - 1]. *)
Theorem search_clones_returns (functions : list Parser.CodeSnippet) (t : R)
    (mr : Z) (results : list (list (R * Z))) :
  (length results <= length functions)%nat ->
  Forall (Forall (fun h => (- Z.of_nat (length functions) <= snd h
                            < Z.of_nat (length functions))%Z)) results ->
  exists st, search_clones functions t mr results = Ok st.
Proof.
  intros Hlen Hres. unfold search_clones.
  assert (H : forall i st,
            (i + length results <= length functions)%nat ->
            exists st', scan_queries functions t mr i results st = Ok st').
  { clear Hlen. induction Hres as [|hits rest Hh _ IH]; intros i st Hi;
      [eexists; reflexivity|].
    cbn [scan_queries]. cbn [length] in Hi.
    destruct (scan_hits_returns functions t mr i hits) with (st := st)
      as [st1 ->]; [lia|exact Hh|].
    cbn [mbind Search.Result_bind].
    destruct (_ <=? _)%Z; [eexists; reflexivity|].
    apply IH. lia. }
  apply H. lia.
Qed.

Lemma search_clones_returns_witness :
  exists st,
    search_clones [Samples.snippet_f; Samples.snippet_g] (9 / 10) 5
                  [[(0, 0%Z); (1 / 4, (-1)%Z)]; [(0, 1%Z); (0, 0%Z)]]
    = Ok st.
Proof.
  apply (search_clones_returns [Samples.snippet_f; Samples.snippet_g]
           (9 / 10) 5 [[(0, 0%Z); (1 / 4, (-1)%Z)]; [(0, 1%Z); (0, 0%Z)]]).
  - cbn. lia.
  - repeat constructor; cbn; lia.
Defined.

End PluginServerFacts.
